(** * hodos: policy-routed multi-WAN failover daemon

    A shallow embedding of the failover control plane of
    github.com/jsimonetti/hodos and the properties its specification
    states about it.

    Layout: Go's fixed-width integers, then one module per Go package
    (config, routesync, icmp, server) holding the embedded functions,
    then the properties.

    Conventions.
    - A Go [intN]/[uintN] is a [Z] with the wrap-around written out.
    - A Go pointer that may be nil is an [option].
    - A function returning [(T, error)] returns a [result T].
    - [sync/atomic] operations are modelled sequentially: every handler
      runs to completion before the next one starts.
    - The kernel behind the netlink connection is a pair of tables
      (routes, rules); requests read and update them. *)

From Stdlib Require Import ZArith Ascii String List Lia Bool Uint63 PrimFloat DecimalString.
From stdpp Require Import gmap strings list.
Import ListNotations.
Open Scope string_scope.
Open Scope Z_scope.

(** ** Go integers *)

Module GoInt.

(** Two's complement reduction to [bits] bits, signed. *)
Definition wrap_signed (bits : Z) (z : Z) : Z :=
  (z + 2 ^ (bits - 1)) mod 2 ^ bits - 2 ^ (bits - 1).

Definition int32 (z : Z) : Z := wrap_signed 32 z.
Definition int64 (z : Z) : Z := wrap_signed 64 z.
Definition uint8 (z : Z) : Z := z mod 2 ^ 8.
Definition uint32 (z : Z) : Z := z mod 2 ^ 32.

(** [float64(z)] for an int64 whose magnitude fits 63 bits. *)
Definition float64 (z : Z) : float :=
  if z <? 0 then PrimFloat.opp (PrimFloat.of_uint63 (Uint63.of_Z (- z)))
  else PrimFloat.of_uint63 (Uint63.of_Z z).

(** [fmt.Sprintf("%d", z)] *)
Definition Sprintf_d (z : Z) : string := NilZero.string_of_int (Z.to_int z).

End GoInt.
Import GoInt.

(** ** golang.org/x/sys/unix constants used by the daemon *)

Module unix.
Definition AF_INET : Z := 2.
Definition AF_INET6 : Z := 10.
Definition RT_TABLE_MAIN : Z := 254.
Definition RT_TABLE_LOCAL : Z := 255.
Definition FR_ACT_TO_TBL : Z := 1.
End unix.

(** ** package net: addresses and masks

    [net.IP] and [net.IPMask] are byte slices; a byte is a [Z] in
    [0, 256). *)

Module net.

Definition IP := list Z.
Definition IPMask := list Z.

Definition isZeros (p : list Z) : bool := forallb (Z.eqb 0) p.

(** [nil] is [None]. *)
Definition To4 (ip : IP) : option IP :=
  if (length ip =? 4)%nat then Some ip
  else if (length ip =? 16)%nat
          && isZeros (take 10 ip)
          && (nth 10 ip 0 =? 255) && (nth 11 ip 0 =? 255)
       then Some (drop 12 ip)
       else None.

(** Leading one bits of a byte, and what is left after shifting
    them out ([for v&0x80 != 0 { n++; v <<= 1 }]). *)
Fixpoint leading_ones (fuel : nat) (v n : Z) : Z * Z :=
  match fuel with
  | O => (v, n)
  | S fuel' =>
      if Z.land v 128 =? 0 then (v, n)
      else leading_ones fuel' (Z.shiftl v 1 mod 256) (n + 1)
  end.

(** [-1] when the mask is not a run of ones followed by zeros. *)
Fixpoint simpleMaskLength (mask : IPMask) (n : Z) : Z :=
  match mask with
  | [] => n
  | v :: rest =>
      if v =? 255 then simpleMaskLength rest (n + 8)
      else
        let '(v', n') := leading_ones 8 v n in
        if negb (v' =? 0) then -1
        else if forallb (Z.eqb 0) rest then n' else -1
  end.

Definition Size (m : IPMask) : Z * Z :=
  let ones := simpleMaskLength m 0 in
  if ones =? -1 then (0, 0) else (ones, Z.of_nat (length m) * 8).

Record IPNet := { IPNet_IP : IP; IPNet_Mask : IPMask }.

End net.

(** ** package time *)

Module time.

(** A [Duration] is an int64 count of nanoseconds. *)
Definition Duration := Z.
Definition Millisecond : Duration := 1000000.
Definition Second : Duration := 1000000000.

(** [Duration.Seconds]: [float64(d / Second) + float64(d % Second) / 1e9],
    with Go's truncating division. *)
Definition Seconds (d : Duration) : float :=
  (float64 (Z.quot d Second) + float64 (Z.rem d Second) / 1e9)%float.

End time.

(** ** Errors and results *)

Inductive error : Type :=
| ErrNoInterfaces
| ErrBurstSize (got : Z)
| ErrDuration (text : string)
| ErrInterface (index : nat) (cause : error)
| ErrDuplicateInterface (index : nat) (name : string)
| ErrTableRange (got : Z)
| ErrTableReserved (got : Z)
| ErrMetricRange (got : Z)
| ErrMetricWithoutTable
| ErrMinimumUp (got : Z) (hosts : nat)
| ErrHost (index : nat) (cause : error)
| ErrDuplicateHost (index : nat) (ip : string) (iface : string)
| ErrHostAddress (name host : string)
| ErrFromNil
| ErrNoSuchInterface (name : string)
| ErrChangeMetricAdd (cause : error)
| ErrChangeMetricDelete (cause : error)
| EEXIST
| ESRCH
| ErrExit (status : Z).

Inductive result (A : Type) : Type :=
| Ok (a : A)
| Err (e : error).
Arguments Ok {A} a.
Arguments Err {A} e.

Definition bind {A B : Type} (r : result A) (k : A -> result B) : result B :=
  match r with
  | Ok a => k a
  | Err e => Err e
  end.

Notation "'perform' x ':=' r 'in' k" := (bind r (fun x => k))
  (at level 10, x name, r at level 100, k at level 200).

Definition is_Err {A : Type} (r : result A) : Prop := exists e, r = Err e.

(** ** package config *)

Module config.

Definition DEF_MINIMUMUP : Z := 1.
Definition BURSTSIZE_MIN : Z := 1.
Definition BURSTSIZE_MAX : Z := 5.
Definition TABLE_MAX : Z := 4294967295.
Definition DEF_BURSTSIZE : Z := 3.
Definition DEF_BURSTINTERVAL : time.Duration := 15 * time.Second.
Definition DEF_ICMPINTERVAL : time.Duration := 2 * time.Second.
Definition DEF_ICMPTIMEOUT : time.Duration := 250 * time.Millisecond.

(** *** The decoded TOML document *)

Module cfgHost.
Record t := {
  Name : string;
  Host : string;
  Debug : bool;
  BurstInterval : option string;
  BurstSize : option Z;
  ICMPInterval : option string;
  ICMPTimeout : option string
}.
End cfgHost.

Module cfgInterface.
Record t := {
  Name : string;
  Description : string;
  Debug : bool;
  Table : option Z;
  Metric : option Z;
  UpAction : option string;
  DownAction : option string;
  BurstInterval : option string;
  BurstSize : option Z;
  ICMPInterval : option string;
  ICMPTimeout : option string;
  MinimumUp : option Z;
  Hosts : list cfgHost.t
}.
End cfgInterface.

Module cfgFile.
Record t := {
  Debug : bool;
  BurstInterval : option string;
  BurstSize : option Z;
  ICMPInterval : option string;
  ICMPTimeout : option string;
  UpAction : string;
  DownAction : string;
  Interfaces : list cfgInterface.t
}.
End cfgFile.

(** *** The data model handed to the server *)

Module Host.
Record t := {
  Name : string;
  Host : net.IP;
  Debug : bool;
  Family : Z;
  BurstInterval : time.Duration;
  BurstSize : Z;
  ICMPInterval : time.Duration;
  ICMPTimeout : time.Duration
}.
End Host.

Module Interface.
Record t := {
  Name : string;
  Description : string;
  Debug : bool;
  Table : Z;
  Metric : Z;
  UpAction : string;
  DownAction : string;
  BurstInterval : time.Duration;
  BurstSize : Z;
  ICMPInterval : time.Duration;
  ICMPTimeout : time.Duration;
  MinimumUp : Z;
  upHostsv4 : Z;
  upHostsv6 : Z;
  totalHostsv4 : Z;
  totalHostsv6 : Z;
  Hosts : list Host.t
}.

Definition with_upHostsv4 (v : Z) (i : t) : t :=
  {| Name := Name i; Description := Description i; Debug := Debug i;
     Table := Table i; Metric := Metric i;
     UpAction := UpAction i; DownAction := DownAction i;
     BurstInterval := BurstInterval i; BurstSize := BurstSize i;
     ICMPInterval := ICMPInterval i; ICMPTimeout := ICMPTimeout i;
     MinimumUp := MinimumUp i;
     upHostsv4 := v; upHostsv6 := upHostsv6 i;
     totalHostsv4 := totalHostsv4 i; totalHostsv6 := totalHostsv6 i;
     Hosts := Hosts i |}.

Definition with_upHostsv6 (v : Z) (i : t) : t :=
  {| Name := Name i; Description := Description i; Debug := Debug i;
     Table := Table i; Metric := Metric i;
     UpAction := UpAction i; DownAction := DownAction i;
     BurstInterval := BurstInterval i; BurstSize := BurstSize i;
     ICMPInterval := ICMPInterval i; ICMPTimeout := ICMPTimeout i;
     MinimumUp := MinimumUp i;
     upHostsv4 := upHostsv4 i; upHostsv6 := v;
     totalHostsv4 := totalHostsv4 i; totalHostsv6 := totalHostsv6 i;
     Hosts := Hosts i |}.

(** [ifi.Hosts = append(ifi.Hosts, h)] followed by the two
    [totalHosts] increments of [parseInterface]. *)
Definition append_host (h : Host.t) (i : t) : t :=
  {| Name := Name i; Description := Description i; Debug := Debug i;
     Table := Table i; Metric := Metric i;
     UpAction := UpAction i; DownAction := DownAction i;
     BurstInterval := BurstInterval i; BurstSize := BurstSize i;
     ICMPInterval := ICMPInterval i; ICMPTimeout := ICMPTimeout i;
     MinimumUp := MinimumUp i;
     upHostsv4 := upHostsv4 i; upHostsv6 := upHostsv6 i;
     totalHostsv4 :=
       if Host.Family h =? unix.AF_INET
       then int32 (totalHostsv4 i + 1) else totalHostsv4 i;
     totalHostsv6 :=
       if Host.Family h =? unix.AF_INET6
       then int32 (totalHostsv6 i + 1) else totalHostsv6 i;
     Hosts := Hosts i ++ [h] |}.
End Interface.

Module Config.
Record t := {
  Debug : bool;
  BurstInterval : time.Duration;
  BurstSize : Z;
  ICMPInterval : time.Duration;
  ICMPTimeout : time.Duration;
  UpAction : string;
  DownAction : string;
  Interfaces : list Interface.t
}.
End Config.

(** *** Per-family counters (interface.go) *)

Definition LinkDown (i : Interface.t) : Interface.t :=
  Interface.with_upHostsv6 0 (Interface.with_upHostsv4 0 i).

Definition hostDownv4 (i : Interface.t) : Interface.t * bool :=
  let up := int32 (Interface.upHostsv4 i - 1) in
  let i := Interface.with_upHostsv4 up i in
  let i := if up <? 0 then Interface.with_upHostsv6 0 i else i in
  (i, up =? int32 (int32 (Interface.MinimumUp i) - 1)).

Definition hostUpv4 (i : Interface.t) : Interface.t * bool :=
  let up := int32 (Interface.upHostsv4 i + 1) in
  let i := Interface.with_upHostsv4 up i in
  let i := if up >? Interface.totalHostsv4 i
           then Interface.with_upHostsv4 (Interface.totalHostsv4 i) i else i in
  (i, up =? int32 (Interface.MinimumUp i)).

Definition hostDownv6 (i : Interface.t) : Interface.t * bool :=
  let up := int32 (Interface.upHostsv6 i - 1) in
  let i := Interface.with_upHostsv6 up i in
  let i := if up <? 0 then Interface.with_upHostsv6 0 i else i in
  (i, up =? int32 (int32 (Interface.MinimumUp i) - 1)).

Definition hostUpv6 (i : Interface.t) : Interface.t * bool :=
  let up := int32 (Interface.upHostsv6 i + 1) in
  let i := Interface.with_upHostsv6 up i in
  let i := if up >? Interface.totalHostsv6 i
           then Interface.with_upHostsv6 (Interface.totalHostsv6 i) i else i in
  (i, up =? int32 (Interface.MinimumUp i)).

Definition HostDown (family : Z) (i : Interface.t) : Interface.t * bool :=
  if family =? unix.AF_INET then hostDownv4 i else hostDownv6 i.

Definition HostUp (family : Z) (i : Interface.t) : Interface.t * bool :=
  if family =? unix.AF_INET then hostUpv4 i else hostUpv6 i.

Definition Up4 (i : Interface.t) : Z := Interface.upHostsv4 i.
Definition Up6 (i : Interface.t) : Z := Interface.upHostsv6 i.

Definition Up (family : Z) (i : Interface.t) : Z :=
  if family =? unix.AF_INET then Up4 i else Up6 i.

(** [total_hosts[F]], read the way [Up] reads [up_hosts[F]]. *)
Definition Total (family : Z) (i : Interface.t) : Z :=
  if family =? unix.AF_INET
  then Interface.totalHostsv4 i else Interface.totalHostsv6 i.


(** *** Parsing (config.go, interface.go, host.go)

    [Parse] starts after the strict TOML decoding, on the decoded
    [cfgFile].  [net.ParseIP], [net.IP.String] and
    [time.ParseDuration] belong to the Go library and are taken as
    given. *)

Section Parsing.

Variable ParseIP : string -> option net.IP.
Variable IP_String : net.IP -> string.
Variable ParseDuration : string -> option time.Duration.

Definition parseDuration (s : option string) (def : time.Duration)
  : result time.Duration :=
  match s with
  | None => Ok def
  | Some text =>
      match ParseDuration text with
      | Some d => Ok d
      | None => Err (ErrDuration text)
      end
  end.

(** The [burst_size] check shared by the three levels. *)
Definition parseBurstSize (s : option Z) (def : Z) : result Z :=
  match s with
  | None => Ok def
  | Some b =>
      if (b <? BURSTSIZE_MIN) || (b >? BURSTSIZE_MAX)
      then Err (ErrBurstSize b) else Ok b
  end.

Definition parseHost (cfg : cfgHost.t) (parent : Interface.t)
  : result Host.t :=
  match ParseIP (cfgHost.Host cfg) with
  | None => Err (ErrHostAddress (cfgHost.Name cfg) (cfgHost.Host cfg))
  | Some ip =>
      let name :=
        if String.eqb (cfgHost.Name cfg) "" then IP_String ip
        else cfgHost.Name cfg in
      let family :=
        match net.To4 ip with
        | None => unix.AF_INET6
        | Some _ => unix.AF_INET
        end in
      perform burstSize :=
        parseBurstSize (cfgHost.BurstSize cfg) (Interface.BurstSize parent) in
      perform burstInterval :=
        parseDuration (cfgHost.BurstInterval cfg) (Interface.BurstInterval parent) in
      perform icmpInterval :=
        parseDuration (cfgHost.ICMPInterval cfg) (Interface.ICMPInterval parent) in
      perform icmpTimeout :=
        parseDuration (cfgHost.ICMPTimeout cfg) (Interface.ICMPTimeout parent) in
      Ok {| Host.Name := name; Host.Host := ip;
            Host.Debug := cfgHost.Debug cfg; Host.Family := family;
            Host.BurstInterval := burstInterval;
            Host.BurstSize := burstSize;
            Host.ICMPInterval := icmpInterval;
            Host.ICMPTimeout := icmpTimeout |}
  end.

(** The [for i, h := range cfg.Hosts] loop of [parseInterface]. *)
Fixpoint parseHosts (i : nat) (hosts : list cfgHost.t)
    (seen : gset string) (ifname : string) (ifi : Interface.t)
  : result Interface.t :=
  match hosts with
  | [] => Ok ifi
  | h :: rest =>
      match parseHost h ifi with
      | Err e => Err (ErrHost i e)
      | Ok host =>
          let key := IP_String (Host.Host host) in
          if decide (key ∈ seen)
          then Err (ErrDuplicateHost i key ifname)
          else parseHosts (S i) rest ({[ key ]} ∪ seen) ifname
                 (Interface.append_host host ifi)
      end
  end.

Definition parseTable (t : option Z) : result Z :=
  match t with
  | None => Ok 0
  | Some t =>
      if (t <? 1) || (t >? TABLE_MAX) then Err (ErrTableRange t)
      else if (t =? unix.RT_TABLE_LOCAL) || (t =? unix.RT_TABLE_MAIN)
           then Err (ErrTableReserved t)
           else Ok (uint32 t)
  end.

Definition parseMetric (m : option Z) (table : Z) : result Z :=
  match m with
  | None => Ok 0
  | Some m =>
      if (m <? 1) || (m >? 32764) then Err (ErrMetricRange m)
      else if table =? 0 then Err ErrMetricWithoutTable
           else Ok (uint32 m)
  end.

Definition parseMinimumUp (m : option Z) (hosts : nat) : result Z :=
  match m with
  | None => Ok DEF_MINIMUMUP
  | Some m =>
      if (m >? Z.of_nat hosts) || (m <? 1) then Err (ErrMinimumUp m hosts)
      else Ok m
  end.

Definition parseInterface (cfg : cfgInterface.t) (parent : Config.t)
  : result Interface.t :=
  perform table := parseTable (cfgInterface.Table cfg) in
  perform metric := parseMetric (cfgInterface.Metric cfg) table in
  perform minimumUp :=
    parseMinimumUp (cfgInterface.MinimumUp cfg)
                   (length (cfgInterface.Hosts cfg)) in
  perform burstSize :=
    parseBurstSize (cfgInterface.BurstSize cfg) (Config.BurstSize parent) in
  perform burstInterval :=
    parseDuration (cfgInterface.BurstInterval cfg) (Config.BurstInterval parent) in
  perform icmpInterval :=
    parseDuration (cfgInterface.ICMPInterval cfg) (Config.ICMPInterval parent) in
  perform icmpTimeout :=
    parseDuration (cfgInterface.ICMPTimeout cfg) (Config.ICMPTimeout parent) in
  let ifi :=
    {| Interface.Name := cfgInterface.Name cfg;
       Interface.Description := cfgInterface.Description cfg;
       Interface.Debug := cfgInterface.Debug cfg;
       Interface.Table := table;
       Interface.Metric := metric;
       Interface.UpAction :=
         default (Config.UpAction parent) (cfgInterface.UpAction cfg);
       Interface.DownAction :=
         default (Config.DownAction parent) (cfgInterface.DownAction cfg);
       Interface.BurstInterval := burstInterval;
       Interface.BurstSize := burstSize;
       Interface.ICMPInterval := icmpInterval;
       Interface.ICMPTimeout := icmpTimeout;
       Interface.MinimumUp := minimumUp;
       Interface.upHostsv4 := 0; Interface.upHostsv6 := 0;
       Interface.totalHostsv4 := 0; Interface.totalHostsv6 := 0;
       Interface.Hosts := [] |} in
  parseHosts 0 (cfgInterface.Hosts cfg) ∅ (cfgInterface.Name cfg) ifi.

(** The [for i, iface := range cfg.Interfaces] loop of [Parse];
    [acc] is [c.Interfaces]. *)
Fixpoint parseInterfaces (i : nat) (ifaces : list cfgInterface.t)
    (seen : gset string) (parent : Config.t) (acc : list Interface.t)
  : result (list Interface.t) :=
  match ifaces with
  | [] => Ok acc
  | iface :: rest =>
      match parseInterface iface parent with
      | Err e => Err (ErrInterface i e)
      | Ok ifi =>
          if decide (Interface.Name ifi ∈ seen)
          then Err (ErrDuplicateInterface i (Interface.Name ifi))
          else parseInterfaces (S i) rest
                 ({[ Interface.Name ifi ]} ∪ seen) parent (acc ++ [ifi])
      end
  end.

Definition Parse (cfg : cfgFile.t) : result Config.t :=
  if (length (cfgFile.Interfaces cfg) =? 0)%nat then Err ErrNoInterfaces
  else
    perform burstSize := parseBurstSize (cfgFile.BurstSize cfg) DEF_BURSTSIZE in
    perform burstInterval :=
      parseDuration (cfgFile.BurstInterval cfg) DEF_BURSTINTERVAL in
    perform icmpInterval :=
      parseDuration (cfgFile.ICMPInterval cfg) DEF_ICMPINTERVAL in
    perform icmpTimeout :=
      parseDuration (cfgFile.ICMPTimeout cfg) DEF_ICMPTIMEOUT in
    let c :=
      {| Config.Debug := cfgFile.Debug cfg;
         Config.BurstInterval := burstInterval;
         Config.BurstSize := burstSize;
         Config.ICMPInterval := icmpInterval;
         Config.ICMPTimeout := icmpTimeout;
         Config.UpAction := cfgFile.UpAction cfg;
         Config.DownAction := cfgFile.DownAction cfg;
         Config.Interfaces := [] |} in
    perform ifaces := parseInterfaces 0 (cfgFile.Interfaces cfg) ∅ c [] in
    Ok {| Config.Debug := Config.Debug c;
          Config.BurstInterval := Config.BurstInterval c;
          Config.BurstSize := Config.BurstSize c;
          Config.ICMPInterval := Config.ICMPInterval c;
          Config.ICMPTimeout := Config.ICMPTimeout c;
          Config.UpAction := Config.UpAction c;
          Config.DownAction := Config.DownAction c;
          Config.Interfaces := ifaces |}.

End Parsing.

End config.

(** ** package rtnetlink: messages, and the kernel behind a connection

    Only the fields the daemon reads or writes are kept.  A rule's
    [Table] and [Priority] are pointers in the Go struct; every rule
    message in this program is either built by [ruleAdd] from the
    address of a local variable or decoded from a kernel dump, which
    always carries the table, so they are plain numbers here. *)

Module rtnetlink.

Module RouteAttributes.
Record t := {
  Dst : option net.IP;
  Gateway : option net.IP;
  OutIface : Z;
  Priority : Z;
  Table : Z
}.
End RouteAttributes.

Module RouteMessage.
Record t := {
  Family : Z;
  DstLength : Z;
  Table : Z;
  Flags : Z;
  Attributes : RouteAttributes.t
}.

Definition with_Flags (f : Z) (m : t) : t :=
  {| Family := Family m; DstLength := DstLength m; Table := Table m;
     Flags := f; Attributes := Attributes m |}.

Definition with_Priority (p : Z) (m : t) : t :=
  {| Family := Family m; DstLength := DstLength m; Table := Table m;
     Flags := Flags m;
     Attributes :=
       {| RouteAttributes.Dst := RouteAttributes.Dst (Attributes m);
          RouteAttributes.Gateway := RouteAttributes.Gateway (Attributes m);
          RouteAttributes.OutIface := RouteAttributes.OutIface (Attributes m);
          RouteAttributes.Priority := p;
          RouteAttributes.Table := RouteAttributes.Table (Attributes m) |} |}.

(** [msg.Table = t; msg.Attributes.Table = t] *)
Definition with_Table (tbl : Z) (m : t) : t :=
  {| Family := Family m; DstLength := DstLength m; Table := uint8 tbl;
     Flags := Flags m;
     Attributes :=
       {| RouteAttributes.Dst := RouteAttributes.Dst (Attributes m);
          RouteAttributes.Gateway := RouteAttributes.Gateway (Attributes m);
          RouteAttributes.OutIface := RouteAttributes.OutIface (Attributes m);
          RouteAttributes.Priority := RouteAttributes.Priority (Attributes m);
          RouteAttributes.Table := tbl |} |}.
End RouteMessage.

Module RuleAttributes.
Record t := {
  Src : option net.IP;
  Dst : option net.IP;
  Table : Z;
  Priority : Z
}.
End RuleAttributes.

Module RuleMessage.
Record t := {
  Family : Z;
  SrcLength : Z;
  DstLength : Z;
  Action : Z;
  Attributes : RuleAttributes.t
}.
End RuleMessage.

(** The kernel tables reached through a connection. *)
Record Conn := {
  routes : list RouteMessage.t;
  rules : list RuleMessage.t
}.

Definition with_routes (rs : list RouteMessage.t) (c : Conn) : Conn :=
  {| routes := rs; rules := rules c |}.
Definition with_rules (rs : list RuleMessage.t) (c : Conn) : Conn :=
  {| routes := routes c; rules := rs |}.

(** The destination a route serves. *)
Definition destination (m : RouteMessage.t) : Z * Z * option net.IP :=
  (RouteMessage.Family m, RouteMessage.DstLength m,
   RouteAttributes.Dst (RouteMessage.Attributes m)).

(** What identifies a route inside the kernel: destination, table
    and priority (metric). *)
Definition route_key (m : RouteMessage.t) : Z * Z * option net.IP * Z * Z :=
  (destination m,
   RouteAttributes.Table (RouteMessage.Attributes m),
   RouteAttributes.Priority (RouteMessage.Attributes m)).

Definition same_route (a b : RouteMessage.t) : bool :=
  bool_decide (route_key a = route_key b).

Definition serves (d : Z * Z * option net.IP) (m : RouteMessage.t) : bool :=
  bool_decide (destination m = d).

(** Is there any route to destination [d]? *)
Definition has_route (d : Z * Z * option net.IP) (c : Conn) : bool :=
  existsb (serves d) (routes c).

(** [Route.Add] sends NLM_F_CREATE|NLM_F_EXCL: an existing route
    with the same key is an error. *)
Definition Route_Add (m : RouteMessage.t) (c : Conn) : result unit * Conn :=
  if existsb (same_route m) (routes c) then (Err EEXIST, c)
  else (Ok tt, with_routes (routes c ++ [m]) c).

Definition Route_Delete (m : RouteMessage.t) (c : Conn) : result unit * Conn :=
  if existsb (same_route m) (routes c)
  then (Ok tt, with_routes (List.filter (fun r => negb (same_route m r)) (routes c)) c)
  else (Err ESRCH, c).

(** [Route.Replace] sends NLM_F_CREATE|NLM_F_REPLACE: upsert. *)
Definition Route_Replace (m : RouteMessage.t) (c : Conn) : result unit * Conn :=
  (Ok tt,
   with_routes (List.filter (fun r => negb (same_route m r)) (routes c) ++ [m]) c).

Definition Route_List (c : Conn) : result (list RouteMessage.t) := Ok (routes c).

Definition same_rule (a b : RuleMessage.t) : bool :=
  bool_decide
    ((RuleMessage.Family a, RuleMessage.SrcLength a, RuleMessage.DstLength a,
      RuleMessage.Action a,
      RuleAttributes.Src (RuleMessage.Attributes a),
      RuleAttributes.Dst (RuleMessage.Attributes a),
      RuleAttributes.Table (RuleMessage.Attributes a),
      RuleAttributes.Priority (RuleMessage.Attributes a))
     = (RuleMessage.Family b, RuleMessage.SrcLength b, RuleMessage.DstLength b,
        RuleMessage.Action b,
        RuleAttributes.Src (RuleMessage.Attributes b),
        RuleAttributes.Dst (RuleMessage.Attributes b),
        RuleAttributes.Table (RuleMessage.Attributes b),
        RuleAttributes.Priority (RuleMessage.Attributes b))).

Definition Rule_Add (m : RuleMessage.t) (c : Conn) : result unit * Conn :=
  if existsb (same_rule m) (rules c) then (Err EEXIST, c)
  else (Ok tt, with_rules (rules c ++ [m]) c).

Definition Rule_Delete (m : RuleMessage.t) (c : Conn) : result unit * Conn :=
  if existsb (same_rule m) (rules c)
  then (Ok tt, with_rules (List.filter (fun r => negb (same_rule m r)) (rules c)) c)
  else (Err ESRCH, c).

Definition Rule_List (c : Conn) : result (list RuleMessage.t) := Ok (rules c).

End rtnetlink.

(** ** package routesync: the two [ChangeMetric] helpers

    Each returns its error and the kernel state after every netlink
    request it made, oldest first. *)

Module routesync.

Import rtnetlink.

(** internal/routesync/metric.go: delete, then add. *)
Module metric_go.

Definition ChangeMetric (conn : Conn) (msg : RouteMessage.t) (metric : Z)
  : result unit * list Conn :=
  let msg := RouteMessage.with_Flags 0 msg in
  match Route_Delete msg conn with
  | (Err e, c1) => (Err (ErrChangeMetricDelete e), [c1])
  | (Ok _, c1) =>
      let msg := RouteMessage.with_Priority metric msg in
      match Route_Add msg c1 with
      | (Err e, c2) => (Err (ErrChangeMetricAdd e), [c1; c2])
      | (Ok _, c2) => (Ok tt, [c1; c2])
      end
  end.

End metric_go.

(** The second copy of the helper in the same package, which
    carries the comment "we add first, to prevent moment without
    route": add, then delete. *)
Module metric_add_first.

Definition ChangeMetric (conn : Conn) (msg : RouteMessage.t) (metric : Z)
  : result unit * list Conn :=
  let orgMetrc := RouteAttributes.Priority (RouteMessage.Attributes msg) in
  let msg := RouteMessage.with_Flags 0 msg in
  let msg := RouteMessage.with_Priority metric msg in
  match Route_Add msg conn with
  | (Err e, c1) => (Err (ErrChangeMetricAdd e), [c1])
  | (Ok _, c1) =>
      let msg := RouteMessage.with_Priority orgMetrc msg in
      match Route_Delete msg c1 with
      | (Err e, c2) => (Err (ErrChangeMetricDelete e), [c1; c2])
      | (Ok _, c2) => (Ok tt, [c1; c2])
      end
  end.

End metric_add_first.

End routesync.

(** ** package icmp: the verdict of one burst *)

Module icmp.

(** [ping.Statistics], as far as [run] reads it. *)
Record Statistics := {
  PacketsSent : Z;
  PacketsRecv : Z;
  PacketLoss : float
}.

(** How the pinger library fills [PacketLoss]:
    [float64(sent - recv) / float64(sent) * 100]. *)
Definition loss (sent recv : Z) : float :=
  (float64 (sent - recv) / float64 sent * 100)%float.

Definition Statistics_of (sent recv : Z) : Statistics :=
  {| PacketsSent := sent; PacketsRecv := recv; PacketLoss := loss sent recv |}.

(** The two callbacks of a monitor. *)
Inductive callback : Type := downFunc | upFunc.

(** [Monitor.run] from the return of [pinger.Run] on: [pinger]
    is the error of [pinger.Run] or the statistics of the finished
    burst, [ctxDone] tells whether the monitor's context is
    cancelled when [run] polls it.  Returns the callbacks invoked,
    in order, and the error. *)
Definition run (pinger : result Statistics) (ctxDone : bool)
  : list callback * result unit :=
  match pinger with
  | Err e => ([], Err e)
  | Ok stats =>
      let open := negb ctxDone in
      if open then
        if PrimFloat.ltb 75 (PacketLoss stats)
        then ([downFunc], Ok tt)
        else ([upFunc], Ok tt)
      else ([], Ok tt)
  end.

(** *** Creating a monitor *)

(** The configuration of a [Monitor]; [dst] and [zone] are the
    [net.IPAddr] it pings. *)
Record Monitor := {
  src : string;
  dst : net.IP;
  zone : string;
  interFace : string;
  interval : time.Duration;
  timeout : time.Duration;
  burstsize : Z
}.

Definition Option := Monitor -> result Monitor.

Definition Interval (t : time.Duration) : Option :=
  fun m => Ok {| src := src m; dst := dst m; zone := zone m;
                 interFace := interFace m;
                 interval := t; timeout := timeout m; burstsize := burstsize m |}.

Definition Timeout (t : time.Duration) : Option :=
  fun m => Ok {| src := src m; dst := dst m; zone := zone m;
                 interFace := interFace m;
                 interval := interval m; timeout := t; burstsize := burstsize m |}.

Definition BurstSize (s : Z) : Option :=
  fun m => Ok {| src := src m; dst := dst m; zone := zone m;
                 interFace := interFace m;
                 interval := interval m; timeout := timeout m; burstsize := s |}.

(** [for _, option := range opts], stopping at the first error. *)
Fixpoint apply_options (opts : list Option) (m : Monitor) : result Monitor :=
  match opts with
  | [] => Ok m
  | option :: rest =>
      match option m with
      | Err e => Err e
      | Ok m' => apply_options rest m'
      end
  end.

Definition New (src0 : string) (dst0 : net.IP) (ifi : string) (opts : list Option)
  : result Monitor :=
  let m := {| src := src0; dst := dst0; zone := ifi; interFace := ifi;
              interval := 500 * time.Millisecond;
              timeout := 200 * time.Millisecond;
              burstsize := 3 |} in
  perform m := apply_options opts m in
  match net.To4 (dst m) with
  | None =>
      Ok {| src := src m +:+ "%" +:+ interFace m; dst := dst m; zone := zone m;
            interFace := interFace m;
            interval := interval m; timeout := timeout m;
            burstsize := burstsize m |}
  | Some _ => Ok m
  end.

End icmp.

(** ** What a Go call can do besides returning *)

Inductive outcome (A : Type) : Type :=
| Returns (a : A)
| Panics.
Arguments Returns {A} a.
Arguments Panics {A}.

(** ** package server: the failover controller *)

Module server.

Import config rtnetlink.
Local Open Scope list_scope.

(** An [exec.Cmd]: [Args] holds argv, program name first. *)
Record Cmd := {
  Path : string;
  Args : list string;
  Env : list string
}.

(** A running ICMP prober, as the registry sees it. *)
Record Monitor := {
  src : string;
  dst : net.IP;
  cancelled : bool
}.

Definition Stop (m : Monitor) : Monitor :=
  {| src := src m; dst := dst m; cancelled := true |}.

(** What the controller leaves behind besides kernel state. *)
Inductive event : Type :=
| Executed (c : Cmd)
| LoggedScriptError (what : string) (e : error)
| LoggedScriptOutput (out : string)
| LoggedRouteError (m : RouteMessage.t) (e : error)
| LoggedRuleError (table : Z) (e : error).

Record Server := {
  nlconn : Conn;
  icmpMonitors : gmap string (gmap string Monitor);
  journal : list event
}.

Definition with_nlconn (c : Conn) (s : Server) : Server :=
  {| nlconn := c; icmpMonitors := icmpMonitors s; journal := journal s |}.
Definition with_icmpMonitors (m : gmap string (gmap string Monitor)) (s : Server)
  : Server :=
  {| nlconn := nlconn s; icmpMonitors := m; journal := journal s |}.
Definition record (e : event) (s : Server) : Server :=
  {| nlconn := nlconn s; icmpMonitors := icmpMonitors s;
     journal := journal s ++ [e] |}.

Definition fam (family : Z) : string :=
  if family =? unix.AF_INET6 then "IPv6"
  else if family =? unix.AF_INET then "IPv4"
  else "UNKNOWN".

Definition ifiToEnv (ifi : Interface.t) : list string :=
  [ "NAME=" +:+ Interface.Name ifi;
    "DESCRIPTION='" +:+ Interface.Description ifi +:+ "'";
    "TABLE=" +:+ Sprintf_d (Interface.Table ifi);
    "UP_HOSTS4=" +:+ Sprintf_d (Up4 ifi);
    "UP_HOSTS6=" +:+ Sprintf_d (Up6 ifi);
    "MINIMUM_UP=" +:+ Sprintf_d (Interface.MinimumUp ifi) ].

(** The command [execScript] builds, [None] when the action is empty. *)
Definition execScript_cmd (event : string) (family : Z) (ifi : Interface.t)
  : option Cmd :=
  let script :=
    if String.eqb event "DOWN" then Interface.DownAction ifi
    else Interface.UpAction ifi in
  if String.eqb script "" then None
  else
    Some {| Path := "/run/current-system/sw/bin/env";
            Args := [ "/run/current-system/sw/bin/env"; "sh"; "-c";
                      "'" +:+ script +:+ "'" ];
            Env := [ "EVENT=" +:+ event; "FAMILY=" +:+ fam family ]
                     ++ ifiToEnv ifi |}.

(** The netlink rule message [ruleAdd] sends. *)
Definition netIPPtr (v : net.IP) : option net.IP :=
  match net.To4 v with
  | Some ip4 => Some ip4
  | None => Some v
  end.

Definition ruleAdd_msg (from to : net.IPNet) (table priority family : Z)
  : RuleMessage.t :=
  let srcSize := fst (net.Size (net.IPNet_Mask from)) in
  let dstSize := fst (net.Size (net.IPNet_Mask to)) in
  {| RuleMessage.Family :=
       match net.To4 (net.IPNet_IP from) with
       | None => unix.AF_INET6
       | Some _ => family
       end;
     RuleMessage.SrcLength := uint8 srcSize;
     RuleMessage.DstLength := uint8 dstSize;
     RuleMessage.Action := unix.FR_ACT_TO_TBL;
     RuleMessage.Attributes :=
       {| RuleAttributes.Src := netIPPtr (net.IPNet_IP from);
          RuleAttributes.Dst := netIPPtr (net.IPNet_IP to);
          RuleAttributes.Table := table;
          RuleAttributes.Priority := priority |} |}.

(** [to.Mask] on a nil [to] is a nil dereference. *)
Definition ruleAdd (from to : option net.IPNet) (table priority family : Z)
    (s : Server) : outcome (result unit * Server) :=
  match from with
  | None => Returns (Err ErrFromNil, s)
  | Some from =>
      match to with
      | None => Panics
      | Some to =>
          let '(r, c) :=
            Rule_Add (ruleAdd_msg from to table priority family) (nlconn s) in
          Returns (r, with_nlconn c s)
      end
  end.

(** *** Link-up: which families, and the source-address search *)

(** The [for _, host := range ifi.Hosts] loop that sets
    [hasipv4]/[hasipv6]; returns [(hasipv4, hasipv6)]. *)
Fixpoint detect (hosts : list Host.t) (hasipv4 hasipv6 : bool) : bool * bool :=
  match hosts with
  | [] => (hasipv4, hasipv6)
  | host :: rest =>
      if negb hasipv4 && (Host.Family host =? unix.AF_INET)
      then detect rest true hasipv6
      else if negb hasipv6 && (Host.Family host =? unix.AF_INET6)
           then detect rest hasipv4 true
           else detect rest hasipv4 hasipv6
  end.

(** State of the search goroutine: the two backoff counters and the
    period of each ticker ([None]: stopped). *)
Record search := {
  backoff4 : time.Duration;
  backoff6 : time.Duration;
  timer4 : option time.Duration;
  timer6 : option time.Duration
}.

Definition linkUp_start (hasipv4 hasipv6 : bool) : search :=
  let backoff4 := 1 in
  let backoff6 := 1 in
  {| backoff4 := backoff4; backoff6 := backoff6;
     timer4 := if hasipv4 then Some (int64 (backoff4 * time.Second)) else None;
     timer6 := if hasipv6 then Some (int64 (backoff6 * time.Second)) else None |}.

(** The calls a tick makes on the server, in order.  Their results
    only reach the log. *)
Inductive call : Type :=
| call_ruleAdd (from to : option net.IPNet) (table priority family : Z)
| call_addICMPMonitor (src : string) (host : Host.t)
| call_failGatewaysFor (family : Z).

Section Search.

Variable ParseCIDR : string -> option net.IPNet.
Variable IP_String : net.IP -> string.

(** [case <-timer4.C]; [found] is what [findLocalAddressv4]
    returns.  [Ticker.Reset] panics on a non-positive period. *)
Definition timer4_C (ifi : Interface.t) (hasipv4 : bool) (st : search)
    (found : string) : outcome (search * list call) :=
  let backoff4 :=
    if PrimFloat.ltb (time.Seconds (backoff4 st)) 32
    then int64 (2 * backoff4 st) else backoff4 st in
  let period := int64 (backoff4 * time.Second) in
  if period <=? 0 then Panics
  else if negb (String.eqb found "") then
    Returns
      ({| backoff4 := backoff4; backoff6 := backoff6 st;
          timer4 := None; timer6 := timer6 st |},
       if hasipv4 then
         flat_map
           (fun host =>
              if Host.Family host =? unix.AF_INET then
                (if negb (Interface.Table ifi =? 0) then
                   [ call_ruleAdd
                       (ParseCIDR (found +:+ "/" +:+ Sprintf_d 32))
                       (ParseCIDR (IP_String (Host.Host host) +:+ "/" +:+ Sprintf_d 32))
                       (Interface.Table ifi) 1 unix.AF_INET ]
                 else [])
                ++ [ call_addICMPMonitor found host ]
              else [])
           (Interface.Hosts ifi)
         ++ [ call_failGatewaysFor unix.AF_INET ]
       else [])
  else
    Returns
      ({| backoff4 := backoff4; backoff6 := backoff6 st;
          timer4 := Some period; timer6 := timer6 st |}, []).

(** [case <-timer6.C]; [found] is what [findLocalAddressv6]
    returns. *)
Definition timer6_C (ifi : Interface.t) (hasipv4 : bool) (st : search)
    (found : string) : outcome (search * list call) :=
  let backoff6 :=
    if PrimFloat.ltb (time.Seconds (backoff6 st)) 30
    then int64 (2 * backoff6 st) else backoff6 st in
  let period := int64 (backoff6 * time.Second) in
  if period <=? 0 then Panics
  else if negb (String.eqb found "") then
    Returns
      ({| backoff4 := backoff4 st; backoff6 := backoff6;
          timer4 := timer4 st; timer6 := None |},
       if hasipv4 then
         flat_map
           (fun host =>
              if Host.Family host =? unix.AF_INET6 then
                (if negb (Interface.Table ifi =? 0) then
                   [ call_ruleAdd
                       (ParseCIDR (found +:+ "/" +:+ Sprintf_d 128))
                       (ParseCIDR (IP_String (Host.Host host) +:+ "/" +:+ Sprintf_d 128))
                       (Interface.Table ifi) 1 unix.AF_INET6 ]
                 else [])
                ++ [ call_addICMPMonitor found host ]
              else [])
           (Interface.Hosts ifi)
         ++ [ call_failGatewaysFor unix.AF_INET6 ]
       else [])
  else
    Returns
      ({| backoff4 := backoff4 st; backoff6 := backoff6;
          timer4 := timer4 st; timer6 := Some period |}, []).

(** The search from link-up through [n] ticks of [timer4] that
    find no address. *)
Fixpoint search4 (ifi : Interface.t) (hasipv4 : bool) (n : nat) (st : search)
  : outcome search :=
  match n with
  | O => Returns st
  | S n' =>
      match timer4_C ifi hasipv4 st "" with
      | Panics => Panics
      | Returns (st', _) => search4 ifi hasipv4 n' st'
      end
  end.

Fixpoint search6 (ifi : Interface.t) (hasipv4 : bool) (n : nat) (st : search)
  : outcome search :=
  match n with
  | O => Returns st
  | S n' =>
      match timer6_C ifi hasipv4 st "" with
      | Panics => Panics
      | Returns (st', _) => search6 ifi hasipv4 n' st'
      end
  end.

End Search.

(** *** Host and link events (nexthop.go, link.go) *)

Section World.

(** What running a command prints, and how it ends. *)
Variable CombinedOutput : Cmd -> string * option error.
(** [net.InterfaceByName], reduced to the interface index. *)
Variable InterfaceByName : string -> result Z.

Definition execScript (event : string) (family : Z) (ifi : Interface.t)
    (s : Server) : (string * option error) * Server :=
  match execScript_cmd event family ifi with
  | None => (("", None), s)
  | Some cmd => (CombinedOutput cmd, record (Executed cmd) s)
  end.

Definition is_gateway_of (table family ifIndex : Z) (msg : RouteMessage.t) : bool :=
  (RouteAttributes.Table (RouteMessage.Attributes msg) =? table)
  && (RouteMessage.Family msg =? family)
  && (RouteAttributes.OutIface (RouteMessage.Attributes msg) =? uint32 ifIndex)
  && bool_decide (RouteAttributes.Gateway (RouteMessage.Attributes msg) <> None).

Definition addGatewaysFor (ifi : Interface.t) (family : Z) (s : Server)
  : result unit * Server :=
  match InterfaceByName (Interface.Name ifi) with
  | Err e => (Err e, s)
  | Ok ifIndex =>
      match Route_List (nlconn s) with
      | Err e => (Err e, s)
      | Ok msgs =>
          (Ok tt,
           fold_left
             (fun s msg =>
                if is_gateway_of (Interface.Table ifi) family ifIndex msg then
                  let msg := RouteMessage.with_Table unix.RT_TABLE_MAIN msg in
                  let msg := RouteMessage.with_Priority (Interface.Metric ifi) msg in
                  match Route_Replace msg (nlconn s) with
                  | (Err e, c) => record (LoggedRouteError msg e) (with_nlconn c s)
                  | (Ok _, c) => with_nlconn c s
                  end
                else s)
             msgs s)
      end
  end.

Definition deleteGatewaysFor (ifi : Interface.t) (family : Z) (s : Server)
  : result unit * Server :=
  match InterfaceByName (Interface.Name ifi) with
  | Err e => (Err e, s)
  | Ok ifIndex =>
      match Route_List (nlconn s) with
      | Err e => (Err e, s)
      | Ok msgs =>
          (Ok tt,
           fold_left
             (fun s msg =>
                if is_gateway_of unix.RT_TABLE_MAIN family ifIndex msg
                then with_nlconn (snd (Route_Delete msg (nlconn s))) s
                else s)
             msgs s)
      end
  end.

(** The body under [if linkDown || belowMinimum]: the down hook,
    then gateway demotion. *)
Definition down_pathway (ifi : Interface.t) (family : Z) (s : Server) : Server :=
  let '((out, err), s) := execScript "DOWN" family ifi s in
  let s := match err with
           | Some e => record (LoggedScriptError "down_action" e) s
           | None => s
           end in
  let s := if (0 <? String.length out)%nat then record (LoggedScriptOutput out) s else s in
  snd (deleteGatewaysFor ifi family s).

(** The body under [if atMinimum]: the up hook, then gateway
    promotion. *)
Definition up_pathway (ifi : Interface.t) (family : Z) (s : Server) : Server :=
  let '((out, err), s) := execScript "UP" family ifi s in
  let s := match err with
           | Some e => record (LoggedScriptError "up_action" e) s
           | None => s
           end in
  let s := if (0 <? String.length out)%nat then record (LoggedScriptOutput out) s else s in
  snd (addGatewaysFor ifi family s).

Definition nextHopFail (ifi : Interface.t) (family : Z) (linkDown : bool)
    (s : Server) : Interface.t * Server :=
  let '(ifi, belowMinimum) :=
    if linkDown then (LinkDown ifi, false) else HostDown family ifi in
  if linkDown || belowMinimum
  then (ifi, down_pathway ifi family s)
  else (ifi, s).

Definition nextHopFailLink (ifi : Interface.t) (s : Server)
  : Interface.t * Server :=
  let '(ifi, s) := nextHopFail ifi unix.AF_INET true s in
  nextHopFail ifi unix.AF_INET6 true s.

Definition nextHopAvailable (ifi : Interface.t) (family : Z) (s : Server)
  : Interface.t * Server :=
  let '(ifi, atMinimum) := HostUp family ifi in
  if atMinimum
  then (ifi, up_pathway ifi family s)
  else (ifi, s).

(** The error of [rtnetlink.Dial(nil)] in [linkDown]; [None] when
    the dial succeeds, and the new connection then reaches the same
    kernel tables as [nlconn]. *)
Variable Dial : option error.

(** [for _, m := range s.icmpMonitors[ifi.Name] { m.Stop() }]; a
    missing entry gives an empty range. *)
Definition stopMonitors (ifi : Interface.t) (s : Server) : Server :=
  with_icmpMonitors
    (alter (fmap Stop) (Interface.Name ifi) (icmpMonitors s)) s.

(** [linkDown]: stop the probers of the interface, delete the
    rules of its table, then run the down pathway.  The rule
    deletion dials its own connection; when the dial fails the
    error is logged and the code goes on with the nil connection, so
    that [nl.Rule.List()] panics before a rule is deleted and before
    [nextHopFailLink] is reached.  Listed rules are taken to carry
    their table, as the dumps of the kernel do. *)
Definition linkDown (ifi : Interface.t) (s : Server)
  : outcome (Interface.t * Server) :=
  let s := stopMonitors ifi s in
  if negb (Interface.Table ifi =? 0) then
    match Dial with
    | Some _ => Panics
    | None =>
        let s :=
          match Rule_List (nlconn s) with
          | Err _ => s
          | Ok rumsgs =>
              fold_left
                (fun s msg =>
                   if RuleAttributes.Table (RuleMessage.Attributes msg)
                      =? Interface.Table ifi
                   then
                     match Rule_Delete msg (nlconn s) with
                     | (Err e, c) =>
                         record (LoggedRuleError (Interface.Table ifi) e)
                                (with_nlconn c s)
                     | (Ok _, c) => with_nlconn c s
                     end
                   else s)
                rumsgs s
          end in
        Returns (nextHopFailLink ifi s)
    end
  else Returns (nextHopFailLink ifi s).

(** [linkUp] itself only detects the families and starts the
    search goroutine; it touches neither the interface nor the
    server. *)
Definition linkUp (ifi : Interface.t) (s : Server)
  : Interface.t * Server * search :=
  let '(hasipv4, hasipv6) := detect (Interface.Hosts ifi) false false in
  (ifi, s, linkUp_start hasipv4 hasipv6).

End World.

(** *** Local source addresses (link.go)

    [addrs] is what [net.InterfaceByName] followed by [Addrs]
    returns: the addresses of the interface in order, or an error.
    [IsGlobalUnicast] is the method of [net.IP]. *)

Section LocalAddress.

Variable IP_String : net.IP -> string.
Variable IsGlobalUnicast : net.IP -> bool.

Fixpoint firstv4 (addrs : list net.IP) : string :=
  match addrs with
  | [] => ""
  | addr :: rest =>
      match net.To4 addr with
      | Some ipv4Addr => IP_String ipv4Addr
      | None => firstv4 rest
      end
  end.

Definition findLocalAddressv4 (addrs : result (list net.IP)) : string :=
  match addrs with
  | Ok addrs => firstv4 addrs
  | Err _ => ""
  end.

Fixpoint firstv6 (addrs : list net.IP) : string :=
  match addrs with
  | [] => ""
  | addr :: rest =>
      match net.To4 addr with
      | None => if IsGlobalUnicast addr then IP_String addr else firstv6 rest
      | Some _ => firstv6 rest
      end
  end.

Definition findLocalAddressv6 (addrs : result (list net.IP)) : string :=
  match addrs with
  | Ok addrs => firstv6 addrs
  | Err _ => ""
  end.

End LocalAddress.

(** *** Probers and their latch (addICMPMonitor) *)

(** A started prober: the host it pings and the [isUp] variable its
    two callbacks share. *)
Record prober := {
  prober_host : Host.t;
  isUp : bool
}.

(** Registers the monitor under the interface and host name and
    starts it.  Assigning into the map of an interface that
    [addLinkMonitor] has not initialised panics. *)
Definition addICMPMonitor (ifi : Interface.t) (src0 : string) (host : Host.t)
    (s : Server) : outcome (result (icmp.Monitor * prober) * Server) :=
  match icmp.New src0 (Host.Host host) (Interface.Name ifi)
          [ icmp.Interval (Host.ICMPInterval host);
            icmp.Timeout (Host.ICMPTimeout host);
            icmp.BurstSize (Host.BurstSize host) ] with
  | Err e => Returns (Err e, s)
  | Ok m =>
      match icmpMonitors s !! Interface.Name ifi with
      | None => Panics
      | Some registered =>
          Returns
            (Ok (m, {| prober_host := host; isUp := false |}),
             with_icmpMonitors
               (<[ Interface.Name ifi :=
                     <[ Host.Name host :=
                          {| src := icmp.src m; dst := icmp.dst m;
                             cancelled := false |} ]> registered ]>
                  (icmpMonitors s)) s)
      end
  end.

Section Probers.

Variable CombinedOutput : Cmd -> string * option error.
Variable InterfaceByName : string -> result Z.

(** The [m.Down] callback. *)
Definition monitor_Down (p : prober) (ifi : Interface.t) (s : Server)
  : prober * Interface.t * Server :=
  if isUp p then
    let '(ifi, s) :=
      nextHopFail CombinedOutput InterfaceByName ifi
        (Host.Family (prober_host p)) false s in
    ({| prober_host := prober_host p; isUp := false |}, ifi, s)
  else (p, ifi, s).

(** The [m.Up] callback. *)
Definition monitor_Up (p : prober) (ifi : Interface.t) (s : Server)
  : prober * Interface.t * Server :=
  if negb (isUp p) then
    let '(ifi, s) :=
      nextHopAvailable CombinedOutput InterfaceByName ifi
        (Host.Family (prober_host p)) s in
    ({| prober_host := prober_host p; isUp := true |}, ifi, s)
  else (p, ifi, s).

Definition verdict (cb : icmp.callback) (p : prober) (ifi : Interface.t)
    (s : Server) : prober * Interface.t * Server :=
  match cb with
  | icmp.downFunc => monitor_Down p ifi s
  | icmp.upFunc => monitor_Up p ifi s
  end.

(** Verdicts handled one after the other; each names the prober it
    comes from by its position. *)
Fixpoint deliver (events : list (nat * icmp.callback)) (ps : list prober)
    (ifi : Interface.t) (s : Server) : list prober * Interface.t * Server :=
  match events with
  | [] => (ps, ifi, s)
  | (k, cb) :: rest =>
      match ps !! k with
      | None => deliver rest ps ifi s
      | Some p =>
          let '(p', ifi', s') := verdict cb p ifi s in
          deliver rest (<[k := p']> ps) ifi' s'
      end
  end.

End Probers.

(** Number of probers of the IPv4 counter ([v4 = true]) or of the
    IPv6 counter that satisfy [f]. *)
Definition probers_of (v4 : bool) (f : prober -> bool) (ps : list prober) : Z :=
  Z.of_nat
    (length
       (List.filter
          (fun p => f p && Bool.eqb (Host.Family (prober_host p) =? unix.AF_INET) v4)
          ps)).

(** The hosts a list of calls starts a prober for, and the rules it
    asks for. *)
Definition probed (calls : list call) : list Host.t :=
  flat_map (fun c => match c with
                     | call_addICMPMonitor _ host => [host]
                     | _ => []
                     end) calls.

Definition rules_requested (calls : list call) : list (Z * Z * Z) :=
  flat_map (fun c => match c with
                     | call_ruleAdd _ _ table priority family =>
                         [(table, priority, family)]
                     | _ => []
                     end) calls.

End server.

(** ** What the specification says, in its own words

    These follow the specification, not the code; the properties
    below compare them with the embedded functions. *)

Module spec.

Import config server.

(** "Increment [up_hosts[F]], clamped at [total_hosts[F]].  If new
    value == [minimum_up]: fire Family-Up." *)
Definition HostUp_as_stated (family : Z) (i : Interface.t) : Prop :=
  let '(i', fired) := HostUp family i in
  Up family i' = Z.min (Total family i) (Up family i + 1)
  /\ (fired = true <-> Up family i' = Interface.MinimumUp i).

(** "Decrement [up_hosts[F]], clamped at 0.  If new value ==
    [minimum_up - 1]: fire Family-Down." *)
Definition HostDown_as_stated (family : Z) (i : Interface.t) : Prop :=
  let '(i', fired) := HostDown family i in
  Up family i' = Z.max 0 (Up family i - 1)
  /\ (fired = true <-> Up family i' = Interface.MinimumUp i - 1).

(** "[0 <= up_hosts[F] <= total_hosts[F]]" *)
Definition bounded (family : Z) (i : Interface.t) : Prop :=
  0 <= Up family i <= Total family i.

(** The name of an environment entry: the text before the first
    equals sign. *)
Fixpoint env_name (entry : string) : string :=
  match entry with
  | EmptyString => EmptyString
  | String c rest =>
      if Ascii.eqb c "="%char then EmptyString else String c (env_name rest)
  end.

(** "Shell is [/bin/sh -c]", the script text handed over as it is,
    the environment made of exactly the eight variables. *)
Definition hook_as_stated (script : string) (c : Cmd) : Prop :=
  Path c = "/bin/sh"
  /\ Args c = ["/bin/sh"; "-c"; script]
  /\ map env_name (Env c)
     = ["EVENT"; "FAMILY"; "NAME"; "DESCRIPTION"; "TABLE";
        "UP_HOSTS4"; "UP_HOSTS6"; "MINIMUM_UP"].


(** "Config rejects": the six grounds, on the decoded document. *)

Definition burst_size_out_of_range (b : option Z) : Prop :=
  exists v, b = Some v /\ (v < 1 \/ 5 < v).

Definition duplicate_interface_name (cfg : cfgFile.t) : Prop :=
  exists (i j : nat) (a b : cfgInterface.t),
    i <> j
    /\ cfgFile.Interfaces cfg !! i = Some a
    /\ cfgFile.Interfaces cfg !! j = Some b
    /\ cfgInterface.Name a = cfgInterface.Name b.

(** Two entries of one interface whose literals denote the same
    address. *)
Definition duplicate_host_ip (ParseIP : string -> option net.IP)
    (iface : cfgInterface.t) : Prop :=
  exists (i j : nat) (a b : cfgHost.t),
    i <> j
    /\ cfgInterface.Hosts iface !! i = Some a
    /\ cfgInterface.Hosts iface !! j = Some b
    /\ ParseIP (cfgHost.Host a) = ParseIP (cfgHost.Host b).

Definition reserved_table (iface : cfgInterface.t) : Prop :=
  cfgInterface.Table iface = Some unix.RT_TABLE_LOCAL
  \/ cfgInterface.Table iface = Some unix.RT_TABLE_MAIN.

Definition minimum_up_out_of_range (iface : cfgInterface.t) : Prop :=
  exists m, cfgInterface.MinimumUp iface = Some m
            /\ (Z.of_nat (length (cfgInterface.Hosts iface)) < m \/ m < 1).

Definition metric_without_table (iface : cfgInterface.t) : Prop :=
  (exists m, cfgInterface.Metric iface = Some m)
  /\ cfgInterface.Table iface = None.

Definition interface_rejected (ParseIP : string -> option net.IP)
    (iface : cfgInterface.t) : Prop :=
  duplicate_host_ip ParseIP iface
  \/ reserved_table iface
  \/ burst_size_out_of_range (cfgInterface.BurstSize iface)
  \/ (exists h, In h (cfgInterface.Hosts iface)
                /\ burst_size_out_of_range (cfgHost.BurstSize h))
  \/ minimum_up_out_of_range iface
  \/ metric_without_table iface.

Definition rejected (ParseIP : string -> option net.IP) (cfg : cfgFile.t) : Prop :=
  duplicate_interface_name cfg
  \/ burst_size_out_of_range (cfgFile.BurstSize cfg)
  \/ exists iface, In iface (cfgFile.Interfaces cfg)
                   /\ interface_rejected ParseIP iface.

End spec.

(** ** Sample inputs *)

Module sample.

Import config rtnetlink server.

Definition cloudflare4 : Host.t :=
  {| Host.Name := "Cloudflare"; Host.Host := [1; 1; 1; 1];
     Host.Debug := false; Host.Family := unix.AF_INET;
     Host.BurstInterval := DEF_BURSTINTERVAL; Host.BurstSize := DEF_BURSTSIZE;
     Host.ICMPInterval := DEF_ICMPINTERVAL; Host.ICMPTimeout := DEF_ICMPTIMEOUT |}.

(** 2606:4700:4700::1111 *)
Definition cloudflare6 : Host.t :=
  {| Host.Name := "Cloudflare";
     Host.Host := [38; 6; 71; 0; 71; 0; 0; 0; 0; 0; 0; 0; 0; 0; 17; 17];
     Host.Debug := false; Host.Family := unix.AF_INET6;
     Host.BurstInterval := DEF_BURSTINTERVAL; Host.BurstSize := DEF_BURSTSIZE;
     Host.ICMPInterval := DEF_ICMPINTERVAL; Host.ICMPTimeout := DEF_ICMPTIMEOUT |}.

(** An interface as [parseInterface] leaves it, with the given
    hosts, [minimum_up] and counters. *)
Definition eth0 (hosts : list Host.t) (minimumUp up4 up6 : Z) : Interface.t :=
  {| Interface.Name := "eth0"; Interface.Description := "uplink";
     Interface.Debug := false;
     Interface.Table := 2; Interface.Metric := 1000;
     Interface.UpAction := "/etc/hodos/up.sh eth0";
     Interface.DownAction := "/etc/hodos/down.sh eth0";
     Interface.BurstInterval := DEF_BURSTINTERVAL;
     Interface.BurstSize := DEF_BURSTSIZE;
     Interface.ICMPInterval := DEF_ICMPINTERVAL;
     Interface.ICMPTimeout := DEF_ICMPTIMEOUT;
     Interface.MinimumUp := minimumUp;
     Interface.upHostsv4 := up4; Interface.upHostsv6 := up6;
     Interface.totalHostsv4 :=
       Z.of_nat (length (List.filter (fun h => Host.Family h =? unix.AF_INET) hosts));
     Interface.totalHostsv6 :=
       Z.of_nat (length (List.filter (fun h => Host.Family h =? unix.AF_INET6) hosts));
     Interface.Hosts := hosts |}.

(** A default route through 10.0.0.1 in table 2, metric 100. *)
Definition default_route : RouteMessage.t :=
  {| RouteMessage.Family := unix.AF_INET; RouteMessage.DstLength := 0;
     RouteMessage.Table := 2; RouteMessage.Flags := 0;
     RouteMessage.Attributes :=
       {| RouteAttributes.Dst := None;
          RouteAttributes.Gateway := Some [10; 0; 0; 1];
          RouteAttributes.OutIface := 3;
          RouteAttributes.Priority := 100;
          RouteAttributes.Table := 2 |} |}.

Definition kernel : Conn := {| routes := [default_route]; rules := [] |}.

Definition idle : Server :=
  {| nlconn := kernel; icmpMonitors := ∅; journal := [] |}.

(** 2001:db8::2/128 *)
Definition src6 : net.IPNet :=
  {| net.IPNet_IP := [32; 1; 13; 184; 0; 0; 0; 0; 0; 0; 0; 0; 0; 0; 0; 2];
     net.IPNet_Mask := repeat 255 16 |}.

Definition dst6 : net.IPNet :=
  {| net.IPNet_IP := Host.Host cloudflare6; net.IPNet_Mask := repeat 255 16 |}.

(** Two interfaces of the same name, each with one host. *)
Definition toml_host (host : string) : cfgHost.t :=
  {| cfgHost.Name := ""; cfgHost.Host := host; cfgHost.Debug := false;
     cfgHost.BurstInterval := None; cfgHost.BurstSize := None;
     cfgHost.ICMPInterval := None; cfgHost.ICMPTimeout := None |}.

Definition toml_interface (name : string) (hosts : list cfgHost.t)
  : cfgInterface.t :=
  {| cfgInterface.Name := name; cfgInterface.Description := "";
     cfgInterface.Debug := false;
     cfgInterface.Table := None; cfgInterface.Metric := None;
     cfgInterface.UpAction := None; cfgInterface.DownAction := None;
     cfgInterface.BurstInterval := None; cfgInterface.BurstSize := None;
     cfgInterface.ICMPInterval := None; cfgInterface.ICMPTimeout := None;
     cfgInterface.MinimumUp := None; cfgInterface.Hosts := hosts |}.

Definition toml_twice_eth0 : cfgFile.t :=
  {| cfgFile.Debug := false;
     cfgFile.BurstInterval := None; cfgFile.BurstSize := None;
     cfgFile.ICMPInterval := None; cfgFile.ICMPTimeout := None;
     cfgFile.UpAction := ""; cfgFile.DownAction := "";
     cfgFile.Interfaces :=
       [ toml_interface "eth0" [toml_host "1.1.1.1"];
         toml_interface "eth0" [toml_host "8.8.8.8"] ] |}.

(** One interface with two IPv4 hosts and no overrides. *)
Definition toml_eth0 : cfgFile.t :=
  {| cfgFile.Debug := false;
     cfgFile.BurstInterval := None; cfgFile.BurstSize := None;
     cfgFile.ICMPInterval := None; cfgFile.ICMPTimeout := None;
     cfgFile.UpAction := "/etc/hodos/up.sh"; cfgFile.DownAction := "";
     cfgFile.Interfaces :=
       [ toml_interface "eth0" [toml_host "1.1.1.1"; toml_host "8.8.8.8"] ] |}.

(** The two literals above, and nothing else. *)
Definition parse_ip (s : string) : option net.IP :=
  if String.eqb s "1.1.1.1" then Some [0;0;0;0;0;0;0;0;0;0;255;255;1;1;1;1]
  else if String.eqb s "8.8.8.8" then Some [0;0;0;0;0;0;0;0;0;0;255;255;8;8;8;8]
  else None.

Definition ip_text (ip : net.IP) : string :=
  match net.To4 ip with
  | Some [a; b; c; d] =>
      Sprintf_d a +:+ "." +:+ Sprintf_d b +:+ "." +:+ Sprintf_d c
      +:+ "." +:+ Sprintf_d d
  | _ => "?"
  end.

Definition no_duration (s : string) : option time.Duration := None.

(** A world in which commands print nothing and succeed. *)
Definition quiet (c : Cmd) : string * option error := ("", None).

End sample.

(** ** Well-formed configurations

    What [Parse] asks of a decoded document, read off its checks. *)

Module wellformed.

Import config.

Section Wellformed.

Variable ParseIP : string -> option net.IP.
Variable IP_String : net.IP -> string.
Variable ParseDuration : string -> option time.Duration.

Definition burst_size_ok (b : option Z) : Prop :=
  match b with
  | None => True
  | Some v => BURSTSIZE_MIN <= v <= BURSTSIZE_MAX
  end.

Definition duration_ok (s : option string) : Prop :=
  match s with
  | None => True
  | Some text => ParseDuration text <> None
  end.

(** The value a duration key ends up with. *)
Definition duration_value (s : option string) (def : time.Duration)
  : time.Duration :=
  match s with
  | None => def
  | Some text => default def (ParseDuration text)
  end.

Definition table_ok (t : option Z) : Prop :=
  match t with
  | None => True
  | Some t =>
      1 <= t <= TABLE_MAX /\ t <> unix.RT_TABLE_LOCAL /\ t <> unix.RT_TABLE_MAIN
  end.

Definition metric_ok (m t : option Z) : Prop :=
  match m with
  | None => True
  | Some m => 1 <= m <= 32764 /\ t <> None
  end.

Definition minimum_up_ok (m : option Z) (hosts : nat) : Prop :=
  match m with
  | None => True
  | Some m => 1 <= m <= Z.of_nat hosts
  end.

Definition host_ok (h : cfgHost.t) : Prop :=
  ParseIP (cfgHost.Host h) <> None
  /\ burst_size_ok (cfgHost.BurstSize h)
  /\ duration_ok (cfgHost.BurstInterval h)
  /\ duration_ok (cfgHost.ICMPInterval h)
  /\ duration_ok (cfgHost.ICMPTimeout h).

(** The text under which the host loop remembers an entry. *)
Definition host_key (h : cfgHost.t) : option string :=
  IP_String <$> ParseIP (cfgHost.Host h).

Definition interface_ok (iface : cfgInterface.t) : Prop :=
  table_ok (cfgInterface.Table iface)
  /\ metric_ok (cfgInterface.Metric iface) (cfgInterface.Table iface)
  /\ minimum_up_ok (cfgInterface.MinimumUp iface)
                   (length (cfgInterface.Hosts iface))
  /\ burst_size_ok (cfgInterface.BurstSize iface)
  /\ duration_ok (cfgInterface.BurstInterval iface)
  /\ duration_ok (cfgInterface.ICMPInterval iface)
  /\ duration_ok (cfgInterface.ICMPTimeout iface)
  /\ Forall host_ok (cfgInterface.Hosts iface)
  /\ NoDup (host_key <$> cfgInterface.Hosts iface).

Definition acceptable (cfg : cfgFile.t) : Prop :=
  cfgFile.Interfaces cfg <> []
  /\ burst_size_ok (cfgFile.BurstSize cfg)
  /\ duration_ok (cfgFile.BurstInterval cfg)
  /\ duration_ok (cfgFile.ICMPInterval cfg)
  /\ duration_ok (cfgFile.ICMPTimeout cfg)
  /\ Forall interface_ok (cfgFile.Interfaces cfg)
  /\ NoDup (cfgInterface.Name <$> cfgFile.Interfaces cfg).

(** How a parsed host relates to its entry and to the interface it
    belongs to. *)
Definition host_from (h : cfgHost.t) (parent : Interface.t) (host : Host.t)
  : Prop :=
  ParseIP (cfgHost.Host h) = Some (Host.Host host)
  /\ Host.Name host
     = (if String.eqb (cfgHost.Name h) "" then IP_String (Host.Host host)
        else cfgHost.Name h)
  /\ Host.Debug host = cfgHost.Debug h
  /\ Host.Family host
     = match net.To4 (Host.Host host) with
       | Some _ => unix.AF_INET
       | None => unix.AF_INET6
       end
  /\ Host.BurstSize host
     = default (Interface.BurstSize parent) (cfgHost.BurstSize h)
  /\ Host.BurstInterval host
     = duration_value (cfgHost.BurstInterval h) (Interface.BurstInterval parent)
  /\ Host.ICMPInterval host
     = duration_value (cfgHost.ICMPInterval h) (Interface.ICMPInterval parent)
  /\ Host.ICMPTimeout host
     = duration_value (cfgHost.ICMPTimeout h) (Interface.ICMPTimeout parent).

(** The interface after the host loop has appended [hs]. *)
Definition append_hosts (hs : list Host.t) (ifi : Interface.t) : Interface.t :=
  fold_left (fun i h => Interface.append_host h i) hs ifi.

(** Number of hosts of a family. *)
Definition hosts_of (family : Z) (hosts : list Host.t) : Z :=
  Z.of_nat (length (List.filter (fun h => Host.Family h =? family) hosts)).

(** How a parsed interface relates to its entry and to the global
    settings. *)
Definition interface_from (iface : cfgInterface.t) (parent : Config.t)
    (ifi : Interface.t) : Prop :=
  Interface.Name ifi = cfgInterface.Name iface
  /\ Interface.Description ifi = cfgInterface.Description iface
  /\ Interface.Debug ifi = cfgInterface.Debug iface
  /\ Interface.Table ifi = default 0 (cfgInterface.Table iface)
  /\ Interface.Metric ifi = default 0 (cfgInterface.Metric iface)
  /\ Interface.MinimumUp ifi = default DEF_MINIMUMUP (cfgInterface.MinimumUp iface)
  /\ Interface.UpAction ifi
     = default (Config.UpAction parent) (cfgInterface.UpAction iface)
  /\ Interface.DownAction ifi
     = default (Config.DownAction parent) (cfgInterface.DownAction iface)
  /\ Interface.BurstSize ifi
     = default (Config.BurstSize parent) (cfgInterface.BurstSize iface)
  /\ Interface.BurstInterval ifi
     = duration_value (cfgInterface.BurstInterval iface) (Config.BurstInterval parent)
  /\ Interface.ICMPInterval ifi
     = duration_value (cfgInterface.ICMPInterval iface) (Config.ICMPInterval parent)
  /\ Interface.ICMPTimeout ifi
     = duration_value (cfgInterface.ICMPTimeout iface) (Config.ICMPTimeout parent)
  /\ Interface.upHostsv4 ifi = 0
  /\ Interface.upHostsv6 ifi = 0
  /\ Interface.totalHostsv4 ifi = int32 (hosts_of unix.AF_INET (Interface.Hosts ifi))
  /\ Interface.totalHostsv6 ifi = int32 (hosts_of unix.AF_INET6 (Interface.Hosts ifi))
  /\ Forall2 (fun h host => host_from h ifi host)
             (cfgInterface.Hosts iface) (Interface.Hosts ifi).

End Wellformed.

End wellformed.

(** ** package linkstate: the link monitor

    What [Run] does with the messages of one [Receive]. *)

Module linkstate.

Definition RTM_NEWLINK : Z := 16.
Definition RTM_DELLINK : Z := 17.
Definition OperStateUp : Z := 6.

(** [rtnetlink.LinkMessage], as far as [Run] reads it. *)
Record LinkMessage := {
  Name : string;
  OperationalState : Z
}.

(** A received message with the type of its netlink header; only a
    [LinkMessage] passes the type assertion. *)
Inductive Message : Type :=
| Link (m : LinkMessage) (headerType : Z)
| Other.

Record Monitor := {
  interFace : string;
  isUp : bool
}.

(** The callbacks handed to [Up] and [Down]. *)
Inductive callback : Type := downFunc | upFunc.

(** The closure [Up] stores in [m.upFunc]. *)
Definition m_upFunc (m : Monitor) : Monitor * list callback :=
  if negb (isUp m)
  then ({| interFace := interFace m; isUp := true |}, [upFunc])
  else (m, []).

(** The closure [Down] stores in [m.downFunc]. *)
Definition m_downFunc (m : Monitor) : Monitor * list callback :=
  if isUp m
  then ({| interFace := interFace m; isUp := false |}, [downFunc])
  else (m, []).

(** The body of [for i, msg := range msgs]. *)
Definition handle (m : Monitor) (msg : Message) : Monitor * list callback :=
  match msg with
  | Other => (m, [])
  | Link lm headerType =>
      if negb (String.eqb (Name lm) (interFace m)) then (m, [])
      else
        let '(m, called) :=
          if headerType =? RTM_NEWLINK then
            if OperationalState lm =? OperStateUp then m_upFunc m else m_downFunc m
          else (m, []) in
        if headerType =? RTM_DELLINK then
          let '(m, called') := m_downFunc m in (m, (called ++ called')%list)
        else (m, called)
  end.

Fixpoint handle_all (m : Monitor) (msgs : list Message) : Monitor * list callback :=
  match msgs with
  | [] => (m, [])
  | msg :: rest =>
      let '(m, called) := handle m msg in
      let '(m, called') := handle_all m rest in
      (m, (called ++ called')%list)
  end.

(** What a message says about the link of [name]: [Some true] up,
    [Some false] down, [None] nothing. *)
Definition reports (name : string) (msg : Message) : option bool :=
  match msg with
  | Other => None
  | Link lm headerType =>
      if negb (String.eqb (Name lm) name) then None
      else if headerType =? RTM_NEWLINK then Some (OperationalState lm =? OperStateUp)
      else if headerType =? RTM_DELLINK then Some false
      else None
  end.

(** Callbacks take turns: the first is [upFunc] when [up] is false
    and [downFunc] when it is true. *)
Fixpoint alternate (up : bool) (called : list callback) : Prop :=
  match called with
  | [] => True
  | c :: rest => c = (if up then downFunc else upFunc) /\ alternate (negb up) rest
  end.

End linkstate.

(** * Properties *)

Import config rtnetlink server.
Open Scope list_scope.

(** ** Counters and transitions *)

(** C1, as stated, fails: on a freshly parsed interface with one
    IPv6 host and [minimum_up = 1], [HostDown] leaves the IPv6
    counter at 0, which is [minimum_up - 1], and does not fire
    Family-Down. *)
Lemma C1_HostDown_silent_at_boundary :
  ~ spec.HostDown_as_stated unix.AF_INET6 (sample.eth0 [sample.cloudflare6] 1 0 0).
Proof.
  unfold spec.HostDown_as_stated. vm_compute.
  intros [_ [_ H]]. specialize (H eq_refl). discriminate H.
Qed.

(** C1, amended: [HostUp] adds one to [up_hosts[F]] and stores
    [total_hosts[F]] instead when the sum exceeds it; it fires
    Family-Up (returns true, and [nextHopAvailable] then runs the up
    pathway) exactly when the sum before clamping equals
    [minimum_up].  [HostDown] subtracts one and fires Family-Down
    exactly when the difference before clamping equals
    [minimum_up - 1]; a difference that is not negative is what the
    counter of the family then holds, the other counter being left
    alone, and for IPv6 a negative difference is stored as 0.
    A call that does not fire leaves the server untouched. *)
Theorem C1_transitions_fire_on_unclamped_value :
  forall (CombinedOutput : Cmd -> string * option error)
         (InterfaceByName : string -> result Z)
         (family : Z) (i : Interface.t) (s : Server),
    (let up := int32 (Up family i + 1) in
     snd (HostUp family i) = (up =? int32 (Interface.MinimumUp i))
     /\ Up family (fst (HostUp family i))
        = (if up >? Total family i then Total family i else up)
     /\ nextHopAvailable CombinedOutput InterfaceByName i family s
        = (fst (HostUp family i),
           if up =? int32 (Interface.MinimumUp i)
           then up_pathway CombinedOutput InterfaceByName
                  (fst (HostUp family i)) family s
           else s))
    /\
    (let up := int32 (Up family i - 1) in
     snd (HostDown family i) = (up =? int32 (int32 (Interface.MinimumUp i) - 1))
     /\ Up6 (fst (hostDownv6 i))
        = (let up6 := int32 (Up6 i - 1) in if up6 <? 0 then 0 else up6)
     /\ nextHopFail CombinedOutput InterfaceByName i family false s
        = (fst (HostDown family i),
           if up =? int32 (int32 (Interface.MinimumUp i) - 1)
           then down_pathway CombinedOutput InterfaceByName
                  (fst (HostDown family i)) family s
           else s)
     /\ (0 <= up ->
         Up family (fst (HostDown family i)) = up
         /\ (if family =? unix.AF_INET
             then Up6 (fst (HostDown family i)) = Up6 i
             else Up4 (fst (HostDown family i)) = Up4 i))).
Proof.
  intros CombinedOutput InterfaceByName family i s.
  unfold nextHopAvailable, nextHopFail, HostUp, HostDown, Up, Total, Up4, Up6.
  destruct (family =? unix.AF_INET) eqn:Hfam;
    unfold hostUpv4, hostUpv6, hostDownv4, hostDownv6; simpl;
    repeat match goal with
      | |- context [if ?b then _ else _] => destruct b eqn:?; simpl
      end;
    repeat split; try reflexivity; intros; lia.
Qed.

(** A host of the only up IPv4 prober going down: the IPv4 counter
    goes from 1 to 0 and the IPv6 counter stays at 1. *)
Lemma C1_transitions_witness :
  let i := sample.eth0 [sample.cloudflare4; sample.cloudflare6] 1 1 1 in
  Up unix.AF_INET (fst (HostDown unix.AF_INET i)) = 0
  /\ Up6 (fst (HostDown unix.AF_INET i)) = 1.
Proof.
  intros i.
  destruct (C1_transitions_fire_on_unclamped_value
              sample.quiet (fun _ => Ok 3) unix.AF_INET i sample.idle)
    as (_ & _ & _ & _ & H).
  apply H. vm_compute. discriminate.
Defined.

(** Reduction of [int32] on values that fit. *)
Lemma int32_small z : - 2 ^ 31 <= z < 2 ^ 31 -> int32 z = z.
Proof.
  intros H. unfold int32, wrap_signed.
  rewrite Z.mod_small; lia.
Qed.

(** Where nothing is clamped the wording of the specification and
    the code agree: a counter strictly inside its bounds moves by
    one and fires exactly on the stored value. *)
Lemma HostUp_as_stated_inside_bounds family i :
  0 <= Up family i < Total family i -> Total family i < 2 ^ 31 ->
  - 2 ^ 31 <= Interface.MinimumUp i < 2 ^ 31 ->
  spec.HostUp_as_stated family i.
Proof.
  unfold spec.HostUp_as_stated, HostUp, Up, Total, Up4, Up6.
  destruct (family =? unix.AF_INET); unfold hostUpv4, hostUpv6; simpl;
    intros Hup Htotal Hmin; rewrite !int32_small by lia.
  - destruct (Z.gtb_spec (Interface.upHostsv4 i + 1) (Interface.totalHostsv4 i));
      [lia|]. simpl. rewrite ?int32_small by lia. split; [lia|]. apply Z.eqb_eq.
  - destruct (Z.gtb_spec (Interface.upHostsv6 i + 1) (Interface.totalHostsv6 i));
      [lia|]. simpl. rewrite ?int32_small by lia. split; [lia|]. apply Z.eqb_eq.
Qed.

Lemma HostDown_as_stated_inside_bounds family i :
  0 < Up family i < 2 ^ 31 ->
  - 2 ^ 31 < Interface.MinimumUp i < 2 ^ 31 ->
  spec.HostDown_as_stated family i.
Proof.
  unfold spec.HostDown_as_stated, HostDown, Up, Up4, Up6.
  destruct (family =? unix.AF_INET); unfold hostDownv4, hostDownv6; simpl;
    intros Hup Hmin; rewrite !int32_small by (rewrite ?int32_small; lia).
  - destruct (Z.ltb_spec (Interface.upHostsv4 i - 1) 0); [lia|].
    simpl. rewrite ?int32_small by (rewrite ?int32_small; lia).
    split; [lia|]. apply Z.eqb_eq.
  - destruct (Z.ltb_spec (Interface.upHostsv6 i - 1) 0); [lia|].
    simpl. rewrite ?int32_small by (rewrite ?int32_small; lia).
    split; [lia|]. apply Z.eqb_eq.
Qed.

(** The IPv6 counter does stay inside its bounds, whatever is called
    on it, as long as fewer than [2^31 - 1] hosts are configured. *)
Lemma hostUpv6_bounded i :
  0 <= Up6 i <= Interface.totalHostsv6 i -> Interface.totalHostsv6 i < 2 ^ 31 - 1 ->
  0 <= Up6 (fst (hostUpv6 i)) <= Interface.totalHostsv6 (fst (hostUpv6 i)).
Proof.
  unfold Up6, hostUpv6. intros Hb Ht. simpl.
  rewrite int32_small by lia.
  destruct (Z.gtb_spec (Interface.upHostsv6 i + 1) (Interface.totalHostsv6 i));
    simpl; lia.
Qed.

Lemma hostDownv6_bounded i :
  0 <= Up6 i <= Interface.totalHostsv6 i -> Interface.totalHostsv6 i < 2 ^ 31 - 1 ->
  0 <= Up6 (fst (hostDownv6 i)) <= Interface.totalHostsv6 (fst (hostDownv6 i)).
Proof.
  unfold Up6, hostDownv6. intros Hb Ht. simpl.
  rewrite int32_small by lia.
  destruct (Z.ltb_spec (Interface.upHostsv6 i - 1) 0); simpl; lia.
Qed.

(** C2: the IPv4 counter leaves its bounds.  With one IPv4 and one
    IPv6 host, the IPv6 host up and the IPv4 host down,
    [HostDown(AF_INET)] stores -1 in the IPv4 counter and resets the
    IPv6 counter, which was inside its bounds, to 0: [hostDownv4]
    clamps the other family's counter, where [hostDownv6] clamps its
    own. *)
Theorem C2_hostDownv4_leaves_bounds :
  let i := sample.eth0 [sample.cloudflare4; sample.cloudflare6] 1 0 1 in
  let i' := fst (HostDown unix.AF_INET i) in
  spec.bounded unix.AF_INET i /\ spec.bounded unix.AF_INET6 i
  /\ Up unix.AF_INET i' = -1 /\ Up unix.AF_INET6 i' = 0
  /\ ~ spec.bounded unix.AF_INET i'.
Proof.
  vm_compute. repeat split; try discriminate.
  intros [H _]. apply H. reflexivity.
Qed.

(** ** Link-up: family detection and the IPv6 branch *)

(** C3: an interface whose hosts are all IPv6 installs nothing for
    IPv6.  Detection reports IPv6 and no IPv4; when the IPv6 ticker
    fires and a global-unicast source is found, the branch tests
    [hasipv4], so no rule is added, no prober is started and
    [failGatewaysFor] is not called.  The IPv4 branch tests
    [hasipv4] too, and there it is the right flag. *)
Theorem C3_ipv6_only_interface_installs_nothing :
  forall (ParseCIDR : string -> option net.IPNet) (IP_String : net.IP -> string),
    let ifi := sample.eth0 [sample.cloudflare6] 1 0 0 in
    let hasipv4 := fst (detect (Interface.Hosts ifi) false false) in
    let hasipv6 := snd (detect (Interface.Hosts ifi) false false) in
    hasipv4 = false /\ hasipv6 = true
    /\ timer6_C ParseCIDR IP_String ifi hasipv4
         (linkUp_start hasipv4 hasipv6) "2001:db8::2"
       = Returns ({| backoff4 := 1; backoff6 := 2;
                     timer4 := None; timer6 := None |}, []).
Proof.
  intros ParseCIDR IP_String. vm_compute. repeat split.
Qed.

(** With an IPv4 host next to it the same IPv6 host is served: the
    rule, the prober and the down pathway, in this order. *)
Lemma timer6_C_with_an_ipv4_host :
  forall (ParseCIDR : string -> option net.IPNet) (IP_String : net.IP -> string),
    let ifi := sample.eth0 [sample.cloudflare4; sample.cloudflare6] 1 0 0 in
    snd (detect (Interface.Hosts ifi) false false) = true
    /\ exists st,
      timer6_C ParseCIDR IP_String ifi true (linkUp_start true true) "2001:db8::2"
      = Returns (st,
          [ call_ruleAdd (ParseCIDR "2001:db8::2/128")
              (ParseCIDR (IP_String (Host.Host sample.cloudflare6) +:+ "/128"))
              2 1 unix.AF_INET6;
            call_addICMPMonitor "2001:db8::2" sample.cloudflare6;
            call_failGatewaysFor unix.AF_INET6 ]).
Proof.
  intros ParseCIDR IP_String. split; [reflexivity|].
  eexists. reflexivity.
Qed.

(** ** Source-address search: the backoff *)

(** C4: the period is not capped.  Six ticks without an address
    leave either ticker at 64 seconds: the guard compares
    [backoff.Seconds()] with 32 (30 for IPv6), but [backoff] counts
    seconds in a [Duration] of nanoseconds, so the guard sees
    [6.4e-08] where 64 is meant and keeps doubling. *)
Theorem C4_backoff_reaches_64_seconds :
  forall (ParseCIDR : string -> option net.IPNet) (IP_String : net.IP -> string)
         (ifi : Interface.t),
    (exists st, search4 ParseCIDR IP_String ifi true 6 (linkUp_start true true)
                = Returns st
                /\ timer4 st = Some (64 * time.Second))
    /\ (exists st, search6 ParseCIDR IP_String ifi true 6 (linkUp_start true true)
                   = Returns st
                   /\ timer6 st = Some (64 * time.Second))
    /\ PrimFloat.ltb (time.Seconds 64) 32 = true.
Proof.
  intros ParseCIDR IP_String ifi.
  split; [|split]; [eexists; split; vm_compute; reflexivity ..|].
  vm_compute. reflexivity.
Qed.

(** The periods are 1 s, 2 s, 4 s, ... for as long as the product
    with [time.Second] fits an int64: after [n] ticks, [2^n]
    seconds. *)
Lemma search4_period_doubles :
  forall (ParseCIDR : string -> option net.IPNet) (IP_String : net.IP -> string)
         (ifi : Interface.t) (n : nat),
    (n <= 33)%nat ->
    exists st, search4 ParseCIDR IP_String ifi true n (linkUp_start true true)
               = Returns st
               /\ timer4 st = Some (2 ^ Z.of_nat n * time.Second).
Proof.
  intros ParseCIDR IP_String ifi n Hn.
  do 34 (destruct n as [|n]; [eexists; split; vm_compute; reflexivity|]).
  lia.
Qed.

(** ** The verdict of a burst *)

(** C5: a burst that completes while the monitor is not cancelled
    invokes exactly one callback: [downFunc] if the packet loss is
    strictly above 75, [upFunc] otherwise.  One reply out of three
    gives up, none out of three gives down.  A cancelled monitor
    invokes nothing. *)
Theorem C5_verdict_from_packet_loss :
  (forall stats : icmp.Statistics,
      exists cb, icmp.run (Ok stats) false = ([cb], Ok tt)
                 /\ (cb = icmp.downFunc
                     <-> PrimFloat.ltb 75 (icmp.PacketLoss stats) = true)
                 /\ (cb = icmp.upFunc
                     <-> PrimFloat.ltb 75 (icmp.PacketLoss stats) = false))
  /\ icmp.run (Ok (icmp.Statistics_of 3 1)) false = ([icmp.upFunc], Ok tt)
  /\ icmp.run (Ok (icmp.Statistics_of 3 0)) false = ([icmp.downFunc], Ok tt)
  /\ (forall stats : icmp.Statistics, icmp.run (Ok stats) true = ([], Ok tt)).
Proof.
  split; [|split; [|split]]; try reflexivity.
  intros stats. unfold icmp.run. simpl.
  destruct (PrimFloat.ltb 75 (icmp.PacketLoss stats)).
  - exists icmp.downFunc. repeat split; congruence.
  - exists icmp.upFunc. repeat split; congruence.
Qed.

(** ** Link-down *)

Lemma LinkDown_zero i : Up4 (LinkDown i) = 0 /\ Up6 (LinkDown i) = 0.
Proof. split; reflexivity. Qed.

Lemma LinkDown_idempotent i : LinkDown (LinkDown i) = LinkDown i.
Proof. reflexivity. Qed.

(** ** Changing a route's metric *)

Lemma destination_with_Priority p m :
  destination (RouteMessage.with_Priority p m) = destination m.
Proof. reflexivity. Qed.

Lemma destination_with_Flags f m :
  destination (RouteMessage.with_Flags f m) = destination m.
Proof. reflexivity. Qed.

Lemma has_route_app d c extra :
  has_route d c = true -> has_route d (with_routes (routes c ++ extra) c) = true.
Proof.
  unfold has_route. cbn [routes with_routes]. intros H.
  rewrite existsb_app, H. reflexivity.
Qed.

(** Deleting a key no route of the table carries removes nothing. *)
Lemma filter_absent_key m rs :
  existsb (same_route m) rs = false ->
  List.filter (fun r => negb (same_route m r)) rs = rs.
Proof.
  induction rs as [|r rs IH]; cbn [existsb List.filter]; [reflexivity|].
  intros H. apply orb_false_iff in H as [Hr Hrs].
  rewrite Hr. cbn [negb]. f_equal. apply IH, Hrs.
Qed.

Lemma same_route_key a b : route_key a = route_key b ->
  forall r, same_route a r = same_route b r.
Proof. intros H r. unfold same_route. rewrite H. reflexivity. Qed.

(** The add-first helper never leaves a destination that had a
    route without one: every kernel state it passes through still
    serves the destination of [msg]. *)
Lemma ChangeMetric_add_first_keeps_a_route conn msg metric :
  has_route (destination msg) conn = true ->
  Forall (fun c => has_route (destination msg) c = true)
         (snd (routesync.metric_add_first.ChangeMetric conn msg metric)).
Proof.
  intros Hroute. unfold routesync.metric_add_first.ChangeMetric.
  set (new := RouteMessage.with_Priority metric (RouteMessage.with_Flags 0 msg)).
  set (old := RouteMessage.with_Priority _ new).
  unfold Route_Add.
  destruct (existsb (same_route new) (routes conn)) eqn:Hnew; cbn [snd].
  { repeat constructor. exact Hroute. }
  pose proof (has_route_app _ _ [new] Hroute) as H1.
  unfold Route_Delete.
  destruct (existsb (same_route old) (routes (with_routes (routes conn ++ [new]) conn)))
    eqn:Hold; cbn [snd].
  2: { repeat constructor; exact H1. }
  constructor; [exact H1|]. constructor; [|constructor].
  unfold has_route. cbn [routes with_routes].
  rewrite List.filter_app, existsb_app.
  destruct (same_route old new) eqn:Hsame.
  - (* same key: the table held no such route, so nothing of it is lost *)
    assert (Hkey : route_key old = route_key new).
    { unfold same_route in Hsame. apply bool_decide_eq_true in Hsame. exact Hsame. }
    rewrite (filter_ext _ _ (fun r => f_equal negb (same_route_key _ _ Hkey r))).
    rewrite (filter_absent_key _ _ Hnew).
    unfold has_route in Hroute. rewrite Hroute. reflexivity.
  - (* different key: the added route survives the delete *)
    cbn [List.filter]. rewrite Hsame. cbn [negb existsb].
    assert (Hserves : serves (destination msg) new = true).
    { unfold serves. apply bool_decide_eq_true. reflexivity. }
    rewrite Hserves. apply orb_true_iff. right. reflexivity.
Qed.

Lemma ChangeMetric_add_first_keeps_a_route_witness :
  has_route (destination sample.default_route) sample.kernel = true
  /\ Forall (fun c => has_route (destination sample.default_route) c = true)
       (snd (routesync.metric_add_first.ChangeMetric
               sample.kernel sample.default_route 200)).
Proof.
  split; [reflexivity|].
  apply (ChangeMetric_add_first_keeps_a_route sample.kernel sample.default_route 200).
  reflexivity.
Defined.

(** C7: the helper in internal/routesync/metric.go deletes first.
    With a single default route in the table, changing its metric
    from 100 to 200 succeeds, and after its first request the kernel
    has no route to the destination. *)
Theorem C7_metric_go_deletes_before_adding :
  has_route (destination sample.default_route) sample.kernel = true
  /\ exists c1 c2,
      routesync.metric_go.ChangeMetric sample.kernel sample.default_route 200
      = (Ok tt, [c1; c2])
      /\ routes c1 = []
      /\ has_route (destination sample.default_route) c1 = false
      /\ routes c2 = [RouteMessage.with_Priority 200 sample.default_route].
Proof.
  split; [reflexivity|].
  do 2 eexists. repeat split.
Qed.

(** ** Policy rules *)

(** C10: with a nil [from], [ruleAdd] returns an error and the server,
    kernel tables included, is what it was.  With a [from] whose
    address is not IPv4, the message handed to [Rule.Add] has family
    AF_INET6 whatever family the caller passed; a nil [to] panics
    before any message exists. *)
Theorem C10_ruleAdd_nil_from_and_family :
  forall (from : net.IPNet) (to : option net.IPNet)
         (table priority family : Z) (s : Server),
    ruleAdd None to table priority family s = Returns (Err ErrFromNil, s)
    /\ (net.To4 (net.IPNet_IP from) = None ->
        match to with
        | None => ruleAdd (Some from) to table priority family s = Panics
        | Some t =>
            exists m,
              RuleMessage.Family m = unix.AF_INET6
              /\ ruleAdd (Some from) to table priority family s
                 = Returns (fst (Rule_Add m (nlconn s)),
                            with_nlconn (snd (Rule_Add m (nlconn s))) s)
        end).
Proof.
  intros from to table priority family s. split; [reflexivity|].
  intros H6. destruct to as [t|]; [|reflexivity].
  exists (ruleAdd_msg from t table priority family). split.
  - unfold ruleAdd_msg. cbn [RuleMessage.Family]. rewrite H6. reflexivity.
  - unfold ruleAdd. destruct (Rule_Add _ _). reflexivity.
Qed.

Lemma C10_ruleAdd_witness :
  net.To4 (net.IPNet_IP sample.src6) = None
  /\ exists m,
      RuleMessage.Family m = unix.AF_INET6
      /\ ruleAdd (Some sample.src6) (Some sample.dst6) 2 1 unix.AF_INET sample.idle
         = Returns (fst (Rule_Add m (nlconn sample.idle)),
                    with_nlconn (snd (Rule_Add m (nlconn sample.idle))) sample.idle).
Proof.
  split; [reflexivity|].
  apply (proj2 (C10_ruleAdd_nil_from_and_family
                  sample.src6 (Some sample.dst6) 2 1 unix.AF_INET sample.idle)).
  reflexivity.
Defined.

(** ** Hook scripts *)

Lemma fold_left_invariant {A : Type} (P : Server -> Prop)
    (f : Server -> A -> Server) (l : list A) :
  (forall s a, P s -> P (f s a)) -> forall s, P s -> P (fold_left f l s).
Proof.
  intros Hstep. induction l as [|a l IH]; intros s Hs; cbn [fold_left].
  - exact Hs.
  - apply IH, Hstep, Hs.
Qed.

(** Two folds that start from the same kernel and step alike on the
    kernel end on the same kernel. *)
Lemma fold_left_nlconn {A : Type} (f : Server -> A -> Server) (l : list A) :
  (forall s s' a, nlconn s = nlconn s' -> nlconn (f s a) = nlconn (f s' a)) ->
  forall s s', nlconn s = nlconn s' ->
               nlconn (fold_left f l s) = nlconn (fold_left f l s').
Proof.
  intros Hstep. induction l as [|a l IH]; intros s s' Hs; cbn [fold_left].
  - exact Hs.
  - apply IH, Hstep, Hs.
Qed.

Section Gateways.

Variable InterfaceByName : string -> result Z.

(** Gateway demotion and promotion read nothing but the kernel. *)
Lemma deleteGatewaysFor_nlconn ifi family s s' :
  nlconn s = nlconn s' ->
  nlconn (snd (deleteGatewaysFor InterfaceByName ifi family s))
  = nlconn (snd (deleteGatewaysFor InterfaceByName ifi family s')).
Proof.
  intros H. unfold deleteGatewaysFor, Route_List.
  destruct (InterfaceByName (Interface.Name ifi)); cbn [snd]; [|exact H].
  rewrite H. apply fold_left_nlconn; [|exact H].
  intros t t' msg Ht. destruct (is_gateway_of _ _ _ msg); [|exact Ht].
  cbn [nlconn with_nlconn]. rewrite Ht. reflexivity.
Qed.

Lemma addGatewaysFor_nlconn ifi family s s' :
  nlconn s = nlconn s' ->
  nlconn (snd (addGatewaysFor InterfaceByName ifi family s))
  = nlconn (snd (addGatewaysFor InterfaceByName ifi family s')).
Proof.
  intros H. unfold addGatewaysFor, Route_List.
  destruct (InterfaceByName (Interface.Name ifi)); cbn [snd]; [|exact H].
  rewrite H. apply fold_left_nlconn; [|exact H].
  intros t t' msg Ht. destruct (is_gateway_of _ _ _ msg); [|exact Ht].
  unfold Route_Replace. cbn [nlconn with_nlconn]. rewrite Ht. reflexivity.
Qed.

(** Neither drops a journal entry. *)
Lemma deleteGatewaysFor_journal ifi family s e :
  In e (journal s) ->
  In e (journal (snd (deleteGatewaysFor InterfaceByName ifi family s))).
Proof.
  intros H. unfold deleteGatewaysFor, Route_List.
  destruct (InterfaceByName (Interface.Name ifi)); cbn [snd]; [|exact H].
  apply (fold_left_invariant (fun t => In e (journal t))); [|exact H].
  intros t msg Ht. destruct (is_gateway_of _ _ _ msg); exact Ht.
Qed.

Lemma addGatewaysFor_journal ifi family s e :
  In e (journal s) ->
  In e (journal (snd (addGatewaysFor InterfaceByName ifi family s))).
Proof.
  intros H. unfold addGatewaysFor, Route_List.
  destruct (InterfaceByName (Interface.Name ifi)); cbn [snd]; [|exact H].
  apply (fold_left_invariant (fun t => In e (journal t))); [|exact H].
  intros t msg Ht. destruct (is_gateway_of _ _ _ msg); exact Ht.
Qed.

End Gateways.

Lemma journal_record e s : journal (record e s) = journal s ++ [e].
Proof. reflexivity. Qed.

Lemma nlconn_record e s : nlconn (record e s) = nlconn s.
Proof. reflexivity. Qed.

(** C8, as stated, fails: the up hook of the sample interface is not
    run by [/bin/sh -c] on the script text. *)
Lemma C8_hook_is_not_bin_sh :
  let ifi := sample.eth0 [sample.cloudflare4] 1 1 0 in
  exists c, execScript_cmd "UP" unix.AF_INET ifi = Some c
            /\ Path c <> "/bin/sh"
            /\ nth 3 (Args c) "" <> Interface.UpAction ifi
            /\ ~ spec.hook_as_stated (Interface.UpAction ifi) c.
Proof.
  eexists. split; [reflexivity|]. cbn [Path Args nth].
  split; [discriminate|]. split; [discriminate|].
  intros [H _]. discriminate H.
Qed.

(** C8, amended: a non-empty up or down action is run through
    [/run/current-system/sw/bin/env], which finds [sh] on the search
    path, with the arguments [sh], [-c] and one more that carries the
    action, and with an environment of exactly EVENT, FAMILY, NAME,
    DESCRIPTION, TABLE, UP_HOSTS4, UP_HOSTS6 and MINIMUM_UP, in this
    order: the event, the family by name, the name of the interface,
    a value that carries its description, and its table, counters
    and [minimum_up] in decimal.  The command is run once; its error
    and its non-empty output go to the log, and the gateway update
    that follows touches the kernel exactly as it would have without
    the hook. *)
Theorem C8_hook_command_and_environment :
  forall (CombinedOutput : Cmd -> string * option error)
         (InterfaceByName : string -> result Z)
         (event : string) (family : Z) (ifi : Interface.t) (s : Server),
    let script := if String.eqb event "DOWN" then Interface.DownAction ifi
                  else Interface.UpAction ifi in
    script <> "" ->
    exists c arg description,
      execScript_cmd event family ifi = Some c
      /\ Path c = "/run/current-system/sw/bin/env"
      /\ Args c = ["/run/current-system/sw/bin/env"; "sh"; "-c"; arg]
      /\ (exists before after, arg = before +:+ script +:+ after)
      /\ map spec.env_name (Env c)
         = ["EVENT"; "FAMILY"; "NAME"; "DESCRIPTION"; "TABLE";
            "UP_HOSTS4"; "UP_HOSTS6"; "MINIMUM_UP"]
      /\ Env c = [ "EVENT=" +:+ event; "FAMILY=" +:+ fam family;
                   "NAME=" +:+ Interface.Name ifi;
                   "DESCRIPTION=" +:+ description;
                   "TABLE=" +:+ Sprintf_d (Interface.Table ifi);
                   "UP_HOSTS4=" +:+ Sprintf_d (Up4 ifi);
                   "UP_HOSTS6=" +:+ Sprintf_d (Up6 ifi);
                   "MINIMUM_UP=" +:+ Sprintf_d (Interface.MinimumUp ifi) ]
      /\ (exists before after,
             description = before +:+ Interface.Description ifi +:+ after)
      /\ fam unix.AF_INET = "IPv4" /\ fam unix.AF_INET6 = "IPv6"
      /\ execScript CombinedOutput event family ifi s
         = (CombinedOutput c, record (Executed c) s)
      /\ (event = "DOWN" ->
          let s' := down_pathway CombinedOutput InterfaceByName ifi family s in
          In (Executed c) (journal s')
          /\ (forall e, snd (CombinedOutput c) = Some e ->
                        In (LoggedScriptError "down_action" e) (journal s'))
          /\ (fst (CombinedOutput c) <> "" ->
              In (LoggedScriptOutput (fst (CombinedOutput c))) (journal s'))
          /\ nlconn s' = nlconn (snd (deleteGatewaysFor InterfaceByName ifi family s)))
      /\ (event = "UP" ->
          let s' := up_pathway CombinedOutput InterfaceByName ifi family s in
          In (Executed c) (journal s')
          /\ (forall e, snd (CombinedOutput c) = Some e ->
                        In (LoggedScriptError "up_action" e) (journal s'))
          /\ (fst (CombinedOutput c) <> "" ->
              In (LoggedScriptOutput (fst (CombinedOutput c))) (journal s'))
          /\ nlconn s' = nlconn (snd (addGatewaysFor InterfaceByName ifi family s))).
Proof.
  intros CombinedOutput InterfaceByName event family ifi s script Hscript.
  assert (Hcmd : exists c, execScript_cmd event family ifi = Some c
                           /\ c = {| Path := "/run/current-system/sw/bin/env";
                                     Args := ["/run/current-system/sw/bin/env"; "sh"; "-c";
                                              "'" +:+ script +:+ "'"];
                                     Env := ["EVENT=" +:+ event; "FAMILY=" +:+ fam family]
                                              ++ ifiToEnv ifi |}).
  { unfold execScript_cmd. fold script.
    destruct (String.eqb script "") eqn:He.
    - apply String.eqb_eq in He. contradiction.
    - eexists. split; reflexivity. }
  destruct Hcmd as (c & Hc & Hshape).
  exists c, ("'" +:+ script +:+ "'"), ("'" +:+ Interface.Description ifi +:+ "'").
  assert (Hexec : forall ev, ev = event ->
             execScript CombinedOutput ev family ifi s
             = (CombinedOutput c, record (Executed c) s)).
  { intros ev ->. unfold execScript. rewrite Hc. reflexivity. }
  split; [exact Hc|]. split; [subst c; reflexivity|].
  split; [subst c; reflexivity|].
  split; [exists "'", "'"; reflexivity|].
  split; [subst c; reflexivity|]. split; [subst c; reflexivity|].
  split; [exists "'", "'"; reflexivity|].
  split; [reflexivity|]. split; [reflexivity|].
  split; [apply Hexec; reflexivity|].
  split.
  - intros Hev s'. subst s'. unfold down_pathway.
    rewrite (Hexec "DOWN" (eq_sym Hev)).
    destruct (CombinedOutput c) as [out err]. cbn [fst snd].
    set (s1 := match err with
               | Some e => record (LoggedScriptError "down_action" e) (record (Executed c) s)
               | None => record (Executed c) s
               end).
    set (s2 := if (0 <? String.length out)%nat
               then record (LoggedScriptOutput out) s1 else s1).
    assert (H1 : forall e, In e (journal (record (Executed c) s)) -> In e (journal s1)).
    { intros e He. subst s1. destruct err; [|exact He].
      rewrite journal_record. apply in_or_app. left. exact He. }
    assert (H2 : forall e, In e (journal s1) -> In e (journal s2)).
    { intros e He. subst s2. destruct (0 <? String.length out)%nat; [|exact He].
      rewrite journal_record. apply in_or_app. left. exact He. }
    repeat split.
    + apply deleteGatewaysFor_journal, H2, H1.
      rewrite journal_record. apply in_or_app. right. left. reflexivity.
    + intros e He. apply deleteGatewaysFor_journal, H2. subst s1. rewrite He.
      rewrite journal_record. apply in_or_app. right. left. reflexivity.
    + intros Hout. apply deleteGatewaysFor_journal. subst s2.
      destruct out as [|a out]; [contradiction|]. cbn.
      apply in_or_app. right. left. reflexivity.
    + apply deleteGatewaysFor_nlconn. subst s2 s1.
      destruct (0 <? String.length out)%nat, err; reflexivity.
  - intros Hev s'. subst s'. unfold up_pathway.
    rewrite (Hexec "UP" (eq_sym Hev)).
    destruct (CombinedOutput c) as [out err]. cbn [fst snd].
    set (s1 := match err with
               | Some e => record (LoggedScriptError "up_action" e) (record (Executed c) s)
               | None => record (Executed c) s
               end).
    set (s2 := if (0 <? String.length out)%nat
               then record (LoggedScriptOutput out) s1 else s1).
    assert (H1 : forall e, In e (journal (record (Executed c) s)) -> In e (journal s1)).
    { intros e He. subst s1. destruct err; [|exact He].
      rewrite journal_record. apply in_or_app. left. exact He. }
    assert (H2 : forall e, In e (journal s1) -> In e (journal s2)).
    { intros e He. subst s2. destruct (0 <? String.length out)%nat; [|exact He].
      rewrite journal_record. apply in_or_app. left. exact He. }
    repeat split.
    + apply addGatewaysFor_journal, H2, H1.
      rewrite journal_record. apply in_or_app. right. left. reflexivity.
    + intros e He. apply addGatewaysFor_journal, H2. subst s1. rewrite He.
      rewrite journal_record. apply in_or_app. right. left. reflexivity.
    + intros Hout. apply addGatewaysFor_journal. subst s2.
      destruct out as [|a out]; [contradiction|]. cbn.
      apply in_or_app. right. left. reflexivity.
    + apply addGatewaysFor_nlconn. subst s2 s1.
      destruct (0 <? String.length out)%nat, err; reflexivity.
Qed.

Lemma C8_hook_command_witness :
  "/etc/hodos/up.sh eth0" <> ""
  /\ exists c,
      execScript_cmd "UP" unix.AF_INET (sample.eth0 [sample.cloudflare4] 1 1 0) = Some c
      /\ Path c = "/run/current-system/sw/bin/env".
Proof.
  split; [discriminate|].
  destruct (C8_hook_command_and_environment
              sample.quiet (fun _ => Ok 3) "UP" unix.AF_INET
              (sample.eth0 [sample.cloudflare4] 1 1 0) sample.idle)
    as (c & arg & description & Hc & Hp & _).
  - discriminate.
  - exists c. split; assumption.
Defined.

(** ** Configuration parsing *)

Ltac bind_ok H :=
  match type of H with
  | bind ?r _ = Ok _ =>
      let E := fresh "E" in
      destruct r eqn:E; cbn [bind] in H; [|discriminate H]
  end.

Section ParsingFacts.

Variable ParseIP : string -> option net.IP.
Variable IP_String : net.IP -> string.
Variable ParseDuration : string -> option time.Duration.

Local Abbreviation parseHost := (config.parseHost ParseIP IP_String ParseDuration).
Local Abbreviation parseHosts := (config.parseHosts ParseIP IP_String ParseDuration).
Local Abbreviation parseInterface :=
  (config.parseInterface ParseIP IP_String ParseDuration).
Local Abbreviation parseInterfaces :=
  (config.parseInterfaces ParseIP IP_String ParseDuration).
Local Abbreviation Parse := (config.Parse ParseIP IP_String ParseDuration).
(** The key under which the host loop remembers an entry. *)
Local Abbreviation key := (fun h : cfgHost.t => IP_String <$> ParseIP (cfgHost.Host h)).

Lemma parseBurstSize_ok b def v :
  parseBurstSize b def = Ok v -> ~ spec.burst_size_out_of_range b.
Proof.
  unfold parseBurstSize, BURSTSIZE_MIN, BURSTSIZE_MAX.
  intros H (x & -> & Hx).
  destruct (Z.ltb_spec x 1), (Z.gtb_spec x 5); cbn in H; try discriminate H; lia.
Qed.

Lemma parseTable_ok iface table :
  parseTable (cfgInterface.Table iface) = Ok table ->
  ~ spec.reserved_table iface
  /\ (cfgInterface.Table iface = None -> table = 0).
Proof.
  unfold parseTable, spec.reserved_table.
  destruct (cfgInterface.Table iface) as [t|]; intros H.
  - split; [|discriminate].
    destruct ((t <? 1) || (t >? TABLE_MAX)); [discriminate H|].
    destruct (Z.eqb_spec t unix.RT_TABLE_LOCAL), (Z.eqb_spec t unix.RT_TABLE_MAIN);
      cbn in H; try discriminate H.
    intros [[= ->] | [= ->]]; contradiction.
  - injection H as <-. split; [|reflexivity].
    intros [? | ?]; discriminate.
Qed.

Lemma parseMetric_ok iface table metric :
  (cfgInterface.Table iface = None -> table = 0) ->
  parseMetric (cfgInterface.Metric iface) table = Ok metric ->
  ~ spec.metric_without_table iface.
Proof.
  unfold parseMetric. intros Htable H [[m Hm] Hnone].
  rewrite Hm in H. rewrite (Htable Hnone) in H.
  destruct ((m <? 1) || (m >? 32764)); discriminate H.
Qed.

Lemma parseMinimumUp_ok iface m :
  parseMinimumUp (cfgInterface.MinimumUp iface)
                 (length (cfgInterface.Hosts iface)) = Ok m ->
  ~ spec.minimum_up_out_of_range iface.
Proof.
  unfold parseMinimumUp. intros H (x & Hx & Hr). rewrite Hx in H.
  destruct (Z.gtb_spec x (Z.of_nat (length (cfgInterface.Hosts iface)))),
           (Z.ltb_spec x 1); cbn in H; try discriminate H; lia.
Qed.

Lemma parseHost_ok h parent host :
  parseHost h parent = Ok host ->
  ParseIP (cfgHost.Host h) = Some (Host.Host host)
  /\ ~ spec.burst_size_out_of_range (cfgHost.BurstSize h).
Proof.
  unfold config.parseHost.
  destruct (ParseIP (cfgHost.Host h)) as [ip|]; [|discriminate].
  intros H. do 4 bind_ok H. injection H as <-.
  split; [reflexivity|]. eapply parseBurstSize_ok; eassumption.
Qed.

(** A host loop that succeeds has parsed every entry, found every
    burst size in range and every key new. *)
Lemma parseHosts_ok hosts :
  forall i seen ifname ifi ifi',
    parseHosts i hosts seen ifname ifi = Ok ifi' ->
    Forall (fun h => exists ip, ParseIP (cfgHost.Host h) = Some ip
                                /\ (IP_String ip ∉ seen)
                                /\ ~ spec.burst_size_out_of_range (cfgHost.BurstSize h))
           hosts
    /\ NoDup (key <$> hosts)
    /\ Interface.Name ifi' = Interface.Name ifi.
Proof.
  induction hosts as [|h rest IH]; intros i seen ifname ifi ifi' H.
  - injection H as <-. repeat split; constructor.
  - cbn [config.parseHosts] in H.
    destruct (parseHost h ifi) as [host|] eqn:Hh; [|discriminate H].
    destruct (decide (IP_String (Host.Host host) ∈ seen)) as [|Hnew];
      [discriminate H|].
    apply parseHost_ok in Hh as [Hip Hbs].
    apply IH in H as (Hall & Hnodup & Hname).
    split; [|split].
    + constructor.
      * exists (Host.Host host). auto.
      * eapply Forall_impl; [exact Hall|].
        intros h' (ip & ? & Hout & ?). exists ip. repeat split; auto.
        intros Hseen. apply Hout, elem_of_union. right. exact Hseen.
    + rewrite fmap_cons. apply NoDup_cons. split; [|exact Hnodup].
      intros Hin. apply list_elem_of_fmap in Hin as (h' & Hkey & Hh').
      rewrite Forall_forall in Hall.
      destruct (Hall h' Hh') as (ip & Hip' & Hout & _).
      cbn beta in Hkey. rewrite Hip, Hip' in Hkey. cbn in Hkey.
      injection Hkey as Hkey. rewrite <- Hkey in Hout.
      apply Hout, elem_of_union. left. apply elem_of_singleton. reflexivity.
    + rewrite Hname. reflexivity.
Qed.

Lemma parseInterface_ok iface parent ifi :
  parseInterface iface parent = Ok ifi ->
  ~ spec.interface_rejected ParseIP iface
  /\ Interface.Name ifi = cfgInterface.Name iface.
Proof.
  unfold config.parseInterface. intros H. do 7 bind_ok H.
  apply parseHosts_ok in H as (Hall & Hnodup & Hname).
  split; [|exact Hname].
  match goal with E : parseTable _ = Ok _ |- _ =>
    apply parseTable_ok in E as [Hres Hzero] end.
  intros [Hdup | [Hr | [Hbs | [Hhbs | [Hmu | Hmt]]]]].
  - destruct Hdup as (i & j & x & y & Hij & Hx & Hy & Hsame).
    apply Hij.
    apply (NoDup_lookup _ i j (key x) Hnodup).
    + rewrite list_lookup_fmap, Hx. reflexivity.
    + rewrite list_lookup_fmap, Hy. cbn. rewrite Hsame. reflexivity.
  - exact (Hres Hr).
  - eapply parseBurstSize_ok; eassumption.
  - destruct Hhbs as (h & Hin & Hh). apply list_elem_of_In in Hin.
    rewrite Forall_forall in Hall.
    destruct (Hall h Hin) as (_ & _ & _ & Hok). exact (Hok Hh).
  - eapply parseMinimumUp_ok; eassumption.
  - eapply parseMetric_ok; eassumption.
Qed.

(** An interface loop that succeeds has accepted every interface
    and found every name new. *)
Lemma parseInterfaces_ok ifaces :
  forall i seen parent acc out,
    parseInterfaces i ifaces seen parent acc = Ok out ->
    Forall (fun iface => ~ spec.interface_rejected ParseIP iface
                         /\ cfgInterface.Name iface ∉ seen) ifaces
    /\ NoDup (cfgInterface.Name <$> ifaces).
Proof.
  induction ifaces as [|iface rest IH]; intros i seen parent acc out H.
  - split; constructor.
  - cbn [config.parseInterfaces] in H.
    destruct (parseInterface iface parent) as [ifi|] eqn:Hifi; [|discriminate H].
    apply parseInterface_ok in Hifi as [Hok Hname].
    rewrite Hname in H.
    destruct (decide (cfgInterface.Name iface ∈ seen)) as [|Hnew];
      [discriminate H|].
    apply IH in H as [Hall Hnodup]. split.
    + constructor; [auto|].
      eapply Forall_impl; [exact Hall|].
      intros x [? Hout]. split; [assumption|].
      intros Hseen. apply Hout, elem_of_union. right. exact Hseen.
    + rewrite fmap_cons. apply NoDup_cons. split; [|exact Hnodup].
      intros Hin. apply list_elem_of_fmap in Hin as (x & Hx & Hin).
      rewrite Forall_forall in Hall. destruct (Hall x Hin) as [_ Hout].
      rewrite <- Hx in Hout.
      apply Hout, elem_of_union. left. apply elem_of_singleton. reflexivity.
Qed.

Lemma Parse_ok cfg c : Parse cfg = Ok c -> ~ spec.rejected ParseIP cfg.
Proof.
  unfold config.Parse. intros H.
  destruct (length (cfgFile.Interfaces cfg) =? 0)%nat; [discriminate H|].
  do 5 bind_ok H.
  match goal with E : config.parseInterfaces _ _ _ _ _ _ _ _ = Ok _ |- _ =>
    apply parseInterfaces_ok in E as [Hall Hnodup] end.
  intros [Hdup | [Hbs | (iface & Hin & Hrej)]].
  - destruct Hdup as (i & j & x & y & Hij & Hx & Hy & Hsame).
    apply Hij.
    apply (NoDup_lookup _ i j (cfgInterface.Name x) Hnodup).
    + rewrite list_lookup_fmap, Hx. reflexivity.
    + rewrite list_lookup_fmap, Hy. cbn. rewrite Hsame. reflexivity.
  - eapply parseBurstSize_ok; eassumption.
  - apply list_elem_of_In in Hin. rewrite Forall_forall in Hall.
    destruct (Hall iface Hin) as [Hok _]. exact (Hok Hrej).
Qed.

End ParsingFacts.

(** C9: a decoded configuration with a duplicate interface name, a
    duplicate host address within one interface, a table equal to
    the local or the main table, a burst size outside [1, 5] at any
    level, a [minimum_up] above the number of hosts or below 1, or a
    metric without a table makes [Parse] return an error, hence no
    [Config]. *)
Theorem C9_Parse_rejects :
  forall (ParseIP : string -> option net.IP) (IP_String : net.IP -> string)
         (ParseDuration : string -> option time.Duration) (cfg : cfgFile.t),
    spec.rejected ParseIP cfg ->
    is_Err (Parse ParseIP IP_String ParseDuration cfg).
Proof.
  intros ParseIP IP_String ParseDuration cfg Hrej.
  destruct (Parse ParseIP IP_String ParseDuration cfg) as [c|e] eqn:H.
  - exfalso. exact (Parse_ok _ _ _ _ _ H Hrej).
  - exists e. reflexivity.
Qed.

Lemma C9_Parse_rejects_witness :
  spec.rejected sample.parse_ip sample.toml_twice_eth0
  /\ is_Err (Parse sample.parse_ip sample.ip_text sample.no_duration
               sample.toml_twice_eth0).
Proof.
  assert (H : spec.rejected sample.parse_ip sample.toml_twice_eth0).
  { left. exists 0%nat, 1%nat. do 2 eexists.
    split; [discriminate|]. repeat split. }
  split; [exact H|].
  exact (C9_Parse_rejects sample.parse_ip sample.ip_text sample.no_duration
           sample.toml_twice_eth0 H).
Defined.

(** * Further properties *)

(** ** What [Parse] accepts, and what it hands over *)

Lemma int32_succ a : int32 (int32 a + 1) = int32 (a + 1).
Proof.
  unfold int32, wrap_signed.
  replace ((a + 2 ^ (32 - 1)) mod 2 ^ 32 - 2 ^ (32 - 1) + 1 + 2 ^ (32 - 1))
    with ((a + 2 ^ (32 - 1)) mod 2 ^ 32 + 1) by lia.
  rewrite Zplus_mod_idemp_l. f_equal. f_equal. lia.
Qed.

Section ParsingShape.

Variable ParseIP : string -> option net.IP.
Variable IP_String : net.IP -> string.
Variable ParseDuration : string -> option time.Duration.

Local Abbreviation parseDuration := (config.parseDuration ParseDuration).
Local Abbreviation parseHost := (config.parseHost ParseIP IP_String ParseDuration).
Local Abbreviation parseHosts := (config.parseHosts ParseIP IP_String ParseDuration).
Local Abbreviation parseInterface :=
  (config.parseInterface ParseIP IP_String ParseDuration).
Local Abbreviation parseInterfaces :=
  (config.parseInterfaces ParseIP IP_String ParseDuration).
Local Abbreviation Parse := (config.Parse ParseIP IP_String ParseDuration).
Local Abbreviation duration_ok := (wellformed.duration_ok ParseDuration).
Local Abbreviation duration_value := (wellformed.duration_value ParseDuration).
Local Abbreviation host_ok := (wellformed.host_ok ParseIP ParseDuration).
Local Abbreviation host_key := (wellformed.host_key ParseIP IP_String).
Local Abbreviation host_from := (wellformed.host_from ParseIP IP_String ParseDuration).
Local Abbreviation interface_ok :=
  (wellformed.interface_ok ParseIP IP_String ParseDuration).
Local Abbreviation interface_from :=
  (wellformed.interface_from ParseIP IP_String ParseDuration).
Local Abbreviation acceptable :=
  (wellformed.acceptable ParseIP IP_String ParseDuration).

(** Each check succeeds exactly on the values in range, and says
    what it returns. *)
Lemma parseBurstSize_spec b def :
  match parseBurstSize b def with
  | Ok v => wellformed.burst_size_ok b /\ v = default def b
  | Err _ => ~ wellformed.burst_size_ok b
  end.
Proof.
  unfold parseBurstSize, wellformed.burst_size_ok.
  destruct b as [v|]; [|split; [exact I|reflexivity]].
  unfold BURSTSIZE_MIN, BURSTSIZE_MAX.
  destruct (Z.ltb_spec v 1), (Z.gtb_spec v 5); cbn; lia.
Qed.

Lemma parseDuration_spec s def :
  match parseDuration s def with
  | Ok d => duration_ok s /\ d = duration_value s def
  | Err _ => ~ duration_ok s
  end.
Proof.
  unfold config.parseDuration, wellformed.duration_ok, wellformed.duration_value.
  destruct s as [text|]; [|split; [exact I|reflexivity]].
  destruct (ParseDuration text); cbn; [split; [discriminate|reflexivity]|].
  intros H. apply H. reflexivity.
Qed.

Lemma parseTable_spec t :
  match parseTable t with
  | Ok v => wellformed.table_ok t /\ v = default 0 t
  | Err _ => ~ wellformed.table_ok t
  end.
Proof.
  unfold parseTable, wellformed.table_ok, TABLE_MAX.
  destruct t as [t|]; [|split; [exact I|reflexivity]].
  destruct (Z.ltb_spec t 1), (Z.gtb_spec t 4294967295); cbn; try lia.
  destruct (Z.eqb_spec t unix.RT_TABLE_LOCAL), (Z.eqb_spec t unix.RT_TABLE_MAIN);
    cbn; try tauto.
  split; [lia|]. unfold uint32. apply Z.mod_small. lia.
Qed.

Lemma parseMetric_spec m t :
  wellformed.table_ok t ->
  match parseMetric m (default 0 t) with
  | Ok v => wellformed.metric_ok m t /\ v = default 0 m
  | Err _ => ~ wellformed.metric_ok m t
  end.
Proof.
  unfold parseMetric, wellformed.metric_ok, wellformed.table_ok. intros Ht.
  destruct m as [m|]; [|split; [exact I|reflexivity]].
  destruct (Z.ltb_spec m 1), (Z.gtb_spec m 32764); cbn; try lia.
  destruct t as [t|]; cbn.
  - destruct (Z.eqb_spec t 0); [lia|]. split; [split; [lia|discriminate]|].
    unfold uint32. apply Z.mod_small. lia.
  - intros [_ Hnone]. apply Hnone. reflexivity.
Qed.

Lemma parseMinimumUp_spec m n :
  match parseMinimumUp m n with
  | Ok v => wellformed.minimum_up_ok m n /\ v = default DEF_MINIMUMUP m
  | Err _ => ~ wellformed.minimum_up_ok m n
  end.
Proof.
  unfold parseMinimumUp, wellformed.minimum_up_ok.
  destruct m as [m|]; [|split; [exact I|reflexivity]].
  destruct (Z.gtb_spec m (Z.of_nat n)), (Z.ltb_spec m 1); cbn; lia.
Qed.

Lemma parseHost_spec h parent :
  match parseHost h parent with
  | Ok host => host_ok h /\ host_from h parent host
  | Err _ => ~ host_ok h
  end.
Proof.
  unfold config.parseHost, wellformed.host_ok, wellformed.host_from.
  destruct (ParseIP (cfgHost.Host h)) as [ip|] eqn:Hip; [|tauto].
  pose proof (parseBurstSize_spec (cfgHost.BurstSize h) (Interface.BurstSize parent)) as Hb.
  destruct (parseBurstSize _ _); cbn [bind]; [|tauto].
  pose proof (parseDuration_spec (cfgHost.BurstInterval h)
                (Interface.BurstInterval parent)) as H1.
  destruct (parseDuration (cfgHost.BurstInterval h) _); cbn [bind]; [|tauto].
  pose proof (parseDuration_spec (cfgHost.ICMPInterval h)
                (Interface.ICMPInterval parent)) as H2.
  destruct (parseDuration (cfgHost.ICMPInterval h) _); cbn [bind]; [|tauto].
  pose proof (parseDuration_spec (cfgHost.ICMPTimeout h)
                (Interface.ICMPTimeout parent)) as H3.
  destruct (parseDuration (cfgHost.ICMPTimeout h) _); cbn [bind]; [|tauto].
  cbn. destruct Hb as [? ->], H1 as [? ->], H2 as [? ->], H3 as [? ->].
  repeat split; try assumption; discriminate.
Qed.

(** Appending hosts touches the host list and the two totals only. *)
Lemma append_hosts_fields hs : forall ifi,
  let ifi' := wellformed.append_hosts hs ifi in
  Interface.Name ifi' = Interface.Name ifi
  /\ Interface.Description ifi' = Interface.Description ifi
  /\ Interface.Debug ifi' = Interface.Debug ifi
  /\ Interface.Table ifi' = Interface.Table ifi
  /\ Interface.Metric ifi' = Interface.Metric ifi
  /\ Interface.MinimumUp ifi' = Interface.MinimumUp ifi
  /\ Interface.UpAction ifi' = Interface.UpAction ifi
  /\ Interface.DownAction ifi' = Interface.DownAction ifi
  /\ Interface.BurstSize ifi' = Interface.BurstSize ifi
  /\ Interface.BurstInterval ifi' = Interface.BurstInterval ifi
  /\ Interface.ICMPInterval ifi' = Interface.ICMPInterval ifi
  /\ Interface.ICMPTimeout ifi' = Interface.ICMPTimeout ifi
  /\ Interface.upHostsv4 ifi' = Interface.upHostsv4 ifi
  /\ Interface.upHostsv6 ifi' = Interface.upHostsv6 ifi
  /\ Interface.Hosts ifi' = Interface.Hosts ifi ++ hs.
Proof.
  induction hs as [|h hs IH]; intros ifi; cbn.
  - rewrite app_nil_r. repeat split.
  - specialize (IH (Interface.append_host h ifi)). cbn in IH.
    rewrite <- app_assoc in IH. exact IH.
Qed.

Lemma hosts_of_cons family h hs :
  wellformed.hosts_of family (h :: hs)
  = (if Host.Family h =? family then 1 else 0) + wellformed.hosts_of family hs.
Proof.
  unfold wellformed.hosts_of. cbn [List.filter].
  destruct (Host.Family h =? family); cbn [length]; lia.
Qed.

Lemma append_hosts_totals hs : forall ifi a4 a6,
  Interface.totalHostsv4 ifi = int32 a4 ->
  Interface.totalHostsv6 ifi = int32 a6 ->
  Interface.totalHostsv4 (wellformed.append_hosts hs ifi)
  = int32 (a4 + wellformed.hosts_of unix.AF_INET hs)
  /\ Interface.totalHostsv6 (wellformed.append_hosts hs ifi)
     = int32 (a6 + wellformed.hosts_of unix.AF_INET6 hs).
Proof.
  induction hs as [|h hs IH]; intros ifi a4 a6 H4 H6.
  - cbn. rewrite !Z.add_0_r. auto.
  - cbn [wellformed.append_hosts fold_left]. rewrite !hosts_of_cons.
    fold (wellformed.append_hosts hs (Interface.append_host h ifi)).
    destruct (Host.Family h =? unix.AF_INET) eqn:E4;
      destruct (Host.Family h =? unix.AF_INET6) eqn:E6.
    + apply Z.eqb_eq in E4, E6. rewrite E4 in E6. discriminate E6.
    + destruct (IH (Interface.append_host h ifi) (a4 + 1) a6) as [-> ->].
      * cbn. rewrite E4, H4. apply int32_succ.
      * cbn. rewrite E6. exact H6.
      * split; f_equal; lia.
    + destruct (IH (Interface.append_host h ifi) a4 (a6 + 1)) as [-> ->].
      * cbn. rewrite E4. exact H4.
      * cbn. rewrite E6, H6. apply int32_succ.
      * split; f_equal; lia.
    + destruct (IH (Interface.append_host h ifi) a4 a6) as [-> ->].
      * cbn. rewrite E4. exact H4.
      * cbn. rewrite E6. exact H6.
      * split; f_equal; lia.
Qed.

(** A parsed host depends on four settings of its interface. *)
Lemma host_from_parent h p q host :
  Interface.BurstSize p = Interface.BurstSize q ->
  Interface.BurstInterval p = Interface.BurstInterval q ->
  Interface.ICMPInterval p = Interface.ICMPInterval q ->
  Interface.ICMPTimeout p = Interface.ICMPTimeout q ->
  host_from h p host -> host_from h q host.
Proof.
  unfold wellformed.host_from. intros -> -> -> ->. exact id.
Qed.

(** The host loop succeeds exactly when every entry is in order and
    every address is new, and then it has appended the parsed
    hosts. *)
Lemma parseHosts_spec hosts : forall i seen ifname ifi,
  let fresh := Forall (fun h => forall k, host_key h = Some k -> k ∉ seen) hosts in
  match parseHosts i hosts seen ifname ifi with
  | Ok ifi' =>
      (Forall host_ok hosts /\ NoDup (host_key <$> hosts) /\ fresh)
      /\ exists hs, Forall2 (fun h host => host_from h ifi host) hosts hs
                    /\ ifi' = wellformed.append_hosts hs ifi
  | Err _ => ~ (Forall host_ok hosts /\ NoDup (host_key <$> hosts) /\ fresh)
  end.
Proof.
  induction hosts as [|h rest IH]; intros i seen ifname ifi; cbn zeta.
  - cbn. split; [repeat split; constructor|]. exists []. split; [constructor|reflexivity].
  - cbn [config.parseHosts].
    pose proof (parseHost_spec h ifi) as Hh.
    destruct (parseHost h ifi) as [host|e].
    2: { intros (Hall & _ & _). apply Hh. inversion Hall; assumption. }
    destruct Hh as [Hok Hfrom].
    assert (Hkey : host_key h = Some (IP_String (Host.Host host))).
    { unfold wellformed.host_key. destruct Hfrom as [-> _]. reflexivity. }
    destruct (decide (IP_String (Host.Host host) ∈ seen)) as [Hseen|Hnew].
    { intros (_ & _ & Hfresh). inversion Hfresh as [|? ? Hh' _]; subst.
      exact (Hh' _ Hkey Hseen). }
    specialize (IH (S i) ({[IP_String (Host.Host host)]} ∪ seen) ifname
                  (Interface.append_host host ifi)). cbn zeta in IH.
    destruct (parseHosts (S i) rest _ ifname _) as [ifi'|e].
    + destruct IH as [(Hall & Hnodup & Hfresh) (hs & Hhs & ->)].
      rewrite Forall_forall in Hfresh.
      split; [repeat split|].
      * constructor; assumption.
      * rewrite fmap_cons. apply NoDup_cons. split; [|exact Hnodup].
        intros Hin. apply list_elem_of_fmap in Hin as (h' & Hk & Hh').
        apply (Hfresh h' Hh' (IP_String (Host.Host host))).
        -- rewrite <- Hk. exact Hkey.
        -- apply elem_of_union. left. apply elem_of_singleton. reflexivity.
      * constructor.
        -- intros k Hk. rewrite Hkey in Hk. injection Hk as <-. exact Hnew.
        -- apply Forall_forall. intros h' Hh' k Hk Hs.
           apply (Hfresh h' Hh' k Hk). apply elem_of_union. right. exact Hs.
      * exists (host :: hs). split; [|reflexivity].
        constructor; [exact Hfrom|].
        eapply Forall2_impl; [exact Hhs|].
        intros x y. apply host_from_parent; reflexivity.
    + intros (Hall & Hnodup & Hfresh). apply IH.
      inversion Hall; subst. rewrite fmap_cons in Hnodup.
      apply NoDup_cons in Hnodup as [Hnotin Hnodup].
      inversion Hfresh; subst.
      repeat split; try assumption.
      apply Forall_forall. intros h' Hh' k Hk Hs.
      apply elem_of_union in Hs as [Hs|Hs].
      * apply elem_of_singleton in Hs. subst k.
        apply Hnotin. apply list_elem_of_fmap. exists h'. split; [|exact Hh'].
        rewrite Hk. exact Hkey.
      * rewrite Forall_forall in H4. exact (H4 h' Hh' k Hk Hs).
Qed.

Lemma parseInterface_spec iface parent :
  match parseInterface iface parent with
  | Ok ifi => interface_ok iface /\ interface_from iface parent ifi
  | Err _ => ~ interface_ok iface
  end.
Proof.
  unfold config.parseInterface, wellformed.interface_ok.
  pose proof (parseTable_spec (cfgInterface.Table iface)) as Ht.
  destruct (parseTable _) as [table|]; cbn [bind]; [|tauto].
  destruct Ht as [Ht ->].
  pose proof (parseMetric_spec (cfgInterface.Metric iface) _ Ht) as Hm.
  destruct (parseMetric _ _) as [metric|]; cbn [bind]; [|tauto].
  destruct Hm as [Hm ->].
  pose proof (parseMinimumUp_spec (cfgInterface.MinimumUp iface)
                (length (cfgInterface.Hosts iface))) as Hu.
  destruct (parseMinimumUp _ _) as [minimumUp|]; cbn [bind]; [|tauto].
  destruct Hu as [Hu ->].
  pose proof (parseBurstSize_spec (cfgInterface.BurstSize iface)
                (Config.BurstSize parent)) as Hb.
  destruct (parseBurstSize _ _) as [burstSize|]; cbn [bind]; [|tauto].
  destruct Hb as [Hb ->].
  pose proof (parseDuration_spec (cfgInterface.BurstInterval iface)
                (Config.BurstInterval parent)) as H1.
  destruct (parseDuration (cfgInterface.BurstInterval iface) _); cbn [bind]; [|tauto].
  destruct H1 as [H1 ->].
  pose proof (parseDuration_spec (cfgInterface.ICMPInterval iface)
                (Config.ICMPInterval parent)) as H2.
  destruct (parseDuration (cfgInterface.ICMPInterval iface) _); cbn [bind]; [|tauto].
  destruct H2 as [H2 ->].
  pose proof (parseDuration_spec (cfgInterface.ICMPTimeout iface)
                (Config.ICMPTimeout parent)) as H3.
  destruct (parseDuration (cfgInterface.ICMPTimeout iface) _); cbn [bind]; [|tauto].
  destruct H3 as [H3 ->].
  match goal with
  | |- context [config.parseHosts _ _ _ 0%nat ?hosts ∅ ?n ?i] =>
      pose proof (parseHosts_spec hosts 0%nat ∅ n i) as Hh; cbn zeta in Hh;
      set (ifi0 := i) in *
  end.
  destruct (parseHosts 0 _ ∅ _ ifi0) as [ifi|].
  - destruct Hh as [(Hall & Hnodup & _) (hs & Hhs & ->)].
    split; [tauto|].
    pose proof (append_hosts_fields hs ifi0) as Hf. cbn zeta in Hf.
    destruct Hf as (F1 & F2 & F3 & F4 & F5 & F6 & F7 & F8 & F9 & F10 & F11 & F12
                    & F13 & F14 & Hhosts).
    destruct (append_hosts_totals hs ifi0 0 0 eq_refl eq_refl) as [T4 T6].
    unfold wellformed.interface_from.
    rewrite F1, F2, F3, F4, F5, F6, F7, F8, F9, F10, F11, F12, F13, F14, T4, T6,
      Hhosts.
    subst ifi0. cbn.
    repeat split.
    eapply Forall2_impl; [exact Hhs|].
    intros x y. apply host_from_parent; symmetry; assumption.
  - intros (_ & _ & _ & _ & _ & _ & _ & Hall & Hnodup). apply Hh.
    repeat split; try assumption.
    apply Forall_forall. intros h _ k _ Hk. exact (not_elem_of_empty k Hk).
Qed.

(** The interface loop succeeds exactly when every interface is in
    order and every name is new, and then it has appended the parsed
    interfaces. *)
Lemma parseInterfaces_spec ifaces : forall i seen parent acc,
  let fresh := Forall (fun x => cfgInterface.Name x ∉ seen) ifaces in
  match parseInterfaces i ifaces seen parent acc with
  | Ok out =>
      (Forall interface_ok ifaces /\ NoDup (cfgInterface.Name <$> ifaces) /\ fresh)
      /\ exists l, Forall2 (fun iface ifi => interface_from iface parent ifi) ifaces l
                   /\ out = acc ++ l
  | Err _ =>
      ~ (Forall interface_ok ifaces /\ NoDup (cfgInterface.Name <$> ifaces) /\ fresh)
  end.
Proof.
  induction ifaces as [|iface rest IH]; intros i seen parent acc; cbn zeta.
  - cbn. split; [repeat split; constructor|]. exists [].
    split; [constructor|]. rewrite app_nil_r. reflexivity.
  - cbn [config.parseInterfaces].
    pose proof (parseInterface_spec iface parent) as Hi.
    destruct (parseInterface iface parent) as [ifi|e].
    2: { intros (Hall & _ & _). apply Hi. inversion Hall; assumption. }
    destruct Hi as [Hok Hfrom].
    assert (Hname : Interface.Name ifi = cfgInterface.Name iface)
      by (destruct Hfrom as [-> _]; reflexivity).
    rewrite Hname.
    destruct (decide (cfgInterface.Name iface ∈ seen)) as [Hseen|Hnew].
    { intros (_ & _ & Hfresh). inversion Hfresh; subst. contradiction. }
    specialize (IH (S i) ({[cfgInterface.Name iface]} ∪ seen) parent (acc ++ [ifi])).
    cbn zeta in IH.
    destruct (parseInterfaces (S i) rest _ parent _) as [out|e].
    + destruct IH as [(Hall & Hnodup & Hfresh) (l & Hl & ->)].
      rewrite Forall_forall in Hfresh.
      split; [repeat split|].
      * constructor; assumption.
      * rewrite fmap_cons. apply NoDup_cons. split; [|exact Hnodup].
        intros Hin. apply list_elem_of_fmap in Hin as (x & Hx & Hin).
        apply (Hfresh x Hin). apply elem_of_union. left.
        apply elem_of_singleton. symmetry. exact Hx.
      * constructor; [exact Hnew|].
        apply Forall_forall. intros x Hx Hs.
        apply (Hfresh x Hx). apply elem_of_union. right. exact Hs.
      * exists (ifi :: l). split; [constructor; assumption|].
        rewrite <- app_assoc. reflexivity.
    + intros (Hall & Hnodup & Hfresh). apply IH.
      inversion Hall; subst. rewrite fmap_cons in Hnodup.
      apply NoDup_cons in Hnodup as [Hnotin Hnodup].
      inversion Hfresh as [|? ? _ Hrest]; subst.
      repeat split; try assumption.
      rewrite Forall_forall in Hrest.
      apply Forall_forall. intros x Hx Hs.
      apply elem_of_union in Hs as [Hs|Hs].
      * apply elem_of_singleton in Hs.
        apply Hnotin. apply list_elem_of_fmap. exists x. split; [|exact Hx].
        symmetry. exact Hs.
      * exact (Hrest x Hx Hs).
Qed.

Lemma Parse_spec cfg :
  match Parse cfg with
  | Ok c =>
      acceptable cfg
      /\ Config.Debug c = cfgFile.Debug cfg
      /\ Config.UpAction c = cfgFile.UpAction cfg
      /\ Config.DownAction c = cfgFile.DownAction cfg
      /\ Config.BurstSize c = default DEF_BURSTSIZE (cfgFile.BurstSize cfg)
      /\ Config.BurstInterval c
         = duration_value (cfgFile.BurstInterval cfg) DEF_BURSTINTERVAL
      /\ Config.ICMPInterval c
         = duration_value (cfgFile.ICMPInterval cfg) DEF_ICMPINTERVAL
      /\ Config.ICMPTimeout c
         = duration_value (cfgFile.ICMPTimeout cfg) DEF_ICMPTIMEOUT
      /\ Forall2 (fun iface ifi => interface_from iface c ifi)
                 (cfgFile.Interfaces cfg) (Config.Interfaces c)
  | Err _ => ~ acceptable cfg
  end.
Proof.
  unfold config.Parse, wellformed.acceptable.
  destruct (cfgFile.Interfaces cfg) as [|iface0 rest] eqn:Hifaces.
  { cbn. intros [H _]. apply H. reflexivity. }
  cbn [length Nat.eqb]. rewrite <- Hifaces.
  pose proof (parseBurstSize_spec (cfgFile.BurstSize cfg) DEF_BURSTSIZE) as Hb.
  destruct (parseBurstSize _ _) as [burstSize|]; cbn [bind]; [|tauto].
  destruct Hb as [Hb ->].
  pose proof (parseDuration_spec (cfgFile.BurstInterval cfg) DEF_BURSTINTERVAL) as H1.
  destruct (parseDuration (cfgFile.BurstInterval cfg) _); cbn [bind]; [|tauto].
  destruct H1 as [H1 ->].
  pose proof (parseDuration_spec (cfgFile.ICMPInterval cfg) DEF_ICMPINTERVAL) as H2.
  destruct (parseDuration (cfgFile.ICMPInterval cfg) _); cbn [bind]; [|tauto].
  destruct H2 as [H2 ->].
  pose proof (parseDuration_spec (cfgFile.ICMPTimeout cfg) DEF_ICMPTIMEOUT) as H3.
  destruct (parseDuration (cfgFile.ICMPTimeout cfg) _); cbn [bind]; [|tauto].
  destruct H3 as [H3 ->].
  match goal with
  | |- context [config.parseInterfaces _ _ _ 0%nat ?l ∅ ?p []] =>
      pose proof (parseInterfaces_spec l 0%nat ∅ p []) as Hl; cbn zeta in Hl
  end.
  destruct (parseInterfaces 0 _ ∅ _ []) as [out|]; cbn [bind].
  - destruct Hl as [(Hall & Hnodup & _) (l & Hl & ->)]. cbn [app].
    split.
    { repeat split; try assumption. rewrite Hifaces. discriminate. }
    cbn. repeat split. exact Hl.
  - intros (_ & _ & _ & _ & _ & Hall & Hnodup). apply Hl.
    repeat split; try assumption.
    apply Forall_forall. intros x _ Hx. exact (not_elem_of_empty _ Hx).
Qed.

End ParsingShape.

Lemma Forall2_transfer {A B : Type} (R : A -> B -> Prop) (P : A -> Prop)
    (Q : B -> Prop) (l : list A) (k : list B) :
  (forall x y, R x y -> P x -> Q y) ->
  Forall2 R l k -> Forall P l -> Forall Q k.
Proof.
  intros Hstep HR. induction HR as [|x y l k Hxy _ IH]; intros HP.
  - constructor.
  - inversion HP; subst. constructor; [eapply Hstep; eassumption|auto].
Qed.

Lemma Forall2_fmap_eq {A B C : Type} (f : A -> C) (g : B -> C)
    (l : list A) (k : list B) :
  Forall2 (fun x y => f x = g y) l k -> f <$> l = g <$> k.
Proof.
  induction 1 as [|x y l k Hxy _ IH]; [reflexivity|].
  rewrite !fmap_cons, Hxy, IH. reflexivity.
Qed.

(** X1: [Parse] returns a configuration exactly for the well-formed
    documents: at least one interface, every burst size in [1, 5],
    every duration text parsing, every table in [1, 2^32-1] and not
    local or main, every metric in [1, 32764] and with a table, every
    [minimum_up] in [1, number of hosts], every host literal an
    address, no address twice within an interface, no interface name
    twice. *)
Theorem X1_Parse_accepts_exactly :
  forall (ParseIP : string -> option net.IP) (IP_String : net.IP -> string)
         (ParseDuration : string -> option time.Duration) (cfg : cfgFile.t),
    (exists c, Parse ParseIP IP_String ParseDuration cfg = Ok c)
    <-> wellformed.acceptable ParseIP IP_String ParseDuration cfg.
Proof.
  intros ParseIP IP_String ParseDuration cfg.
  pose proof (Parse_spec ParseIP IP_String ParseDuration cfg) as H.
  destruct (Parse ParseIP IP_String ParseDuration cfg) as [c|e].
  - split; [intros _; apply H|intros _; exists c; reflexivity].
  - split; [intros [c Hc]; discriminate Hc|intros Ha; contradiction].
Qed.

(** X2: the configuration [Parse] returns follows the document entry
    by entry: the same interfaces in the same order, each with its
    hosts in order; a key that is not set takes the value of the
    level above (host from interface, interface from global, global
    from the built-in default); the family of a host is AF_INET
    exactly when its address has an IPv4 form; both up counters are 0
    and the totals count the hosts of each family. *)
Theorem X2_Parse_output_follows_document :
  forall (ParseIP : string -> option net.IP) (IP_String : net.IP -> string)
         (ParseDuration : string -> option time.Duration)
         (cfg : cfgFile.t) (c : Config.t),
    Parse ParseIP IP_String ParseDuration cfg = Ok c ->
    Config.BurstSize c = default DEF_BURSTSIZE (cfgFile.BurstSize cfg)
    /\ Config.BurstInterval c
       = wellformed.duration_value ParseDuration (cfgFile.BurstInterval cfg)
           DEF_BURSTINTERVAL
    /\ Config.ICMPInterval c
       = wellformed.duration_value ParseDuration (cfgFile.ICMPInterval cfg)
           DEF_ICMPINTERVAL
    /\ Config.ICMPTimeout c
       = wellformed.duration_value ParseDuration (cfgFile.ICMPTimeout cfg)
           DEF_ICMPTIMEOUT
    /\ Config.UpAction c = cfgFile.UpAction cfg
    /\ Config.DownAction c = cfgFile.DownAction cfg
    /\ Forall2 (fun iface ifi =>
                  wellformed.interface_from ParseIP IP_String ParseDuration iface c ifi)
               (cfgFile.Interfaces cfg) (Config.Interfaces c).
Proof.
  intros ParseIP IP_String ParseDuration cfg c Hc.
  pose proof (Parse_spec ParseIP IP_String ParseDuration cfg) as H.
  rewrite Hc in H. tauto.
Qed.

Lemma X2_Parse_output_witness :
  exists c,
    Parse sample.parse_ip sample.ip_text sample.no_duration sample.toml_eth0 = Ok c
    /\ Forall2 (fun iface ifi =>
                  wellformed.interface_from sample.parse_ip sample.ip_text
                    sample.no_duration iface c ifi)
               (cfgFile.Interfaces sample.toml_eth0) (Config.Interfaces c).
Proof.
  eexists. split; [vm_compute; reflexivity|].
  eapply (X2_Parse_output_follows_document sample.parse_ip sample.ip_text
            sample.no_duration sample.toml_eth0).
  vm_compute. reflexivity.
Defined.

(** X3: in a configuration [Parse] returns, every burst size is in
    [1, 5]; every table is 0 (none) or in [1, 2^32-1] and neither
    local nor main; every metric is 0 (none) or in [1, 32764] on an
    interface with a table; [minimum_up] is at least 1 and at most
    the number of hosts unless there is none; every host is AF_INET
    or AF_INET6; interface names are pairwise distinct, and so are
    the addresses of the hosts of an interface. *)
Theorem X3_Parse_output_in_range :
  forall (ParseIP : string -> option net.IP) (IP_String : net.IP -> string)
         (ParseDuration : string -> option time.Duration)
         (cfg : cfgFile.t) (c : Config.t),
    Parse ParseIP IP_String ParseDuration cfg = Ok c ->
    1 <= Config.BurstSize c <= 5
    /\ NoDup (Interface.Name <$> Config.Interfaces c)
    /\ Forall
         (fun ifi =>
            1 <= Interface.BurstSize ifi <= 5
            /\ (Interface.Table ifi = 0
                \/ 1 <= Interface.Table ifi <= TABLE_MAX
                   /\ Interface.Table ifi <> unix.RT_TABLE_LOCAL
                   /\ Interface.Table ifi <> unix.RT_TABLE_MAIN)
            /\ (Interface.Metric ifi = 0
                \/ 1 <= Interface.Metric ifi <= 32764 /\ Interface.Table ifi <> 0)
            /\ 1 <= Interface.MinimumUp ifi
               <= Z.max 1 (Z.of_nat (length (Interface.Hosts ifi)))
            /\ NoDup ((fun host => IP_String (Host.Host host)) <$> Interface.Hosts ifi)
            /\ Forall (fun host =>
                         1 <= Host.BurstSize host <= 5
                         /\ (Host.Family host = unix.AF_INET
                             \/ Host.Family host = unix.AF_INET6))
                      (Interface.Hosts ifi))
         (Config.Interfaces c).
Proof.
  intros ParseIP IP_String ParseDuration cfg c Hc.
  pose proof (Parse_spec ParseIP IP_String ParseDuration cfg) as H.
  rewrite Hc in H.
  destruct H as ((_ & Hb & _ & _ & _ & Hall & Hnodup) & _ & _ & _ & Hbs & _ & _ & _ & Hl).
  assert (Hglobal : 1 <= Config.BurstSize c <= 5).
  { rewrite Hbs. unfold wellformed.burst_size_ok, BURSTSIZE_MIN, BURSTSIZE_MAX in Hb.
    destruct (cfgFile.BurstSize cfg); cbn; [exact Hb|unfold DEF_BURSTSIZE; lia]. }
  split; [exact Hglobal|]. split.
  { rewrite <- (Forall2_fmap_eq cfgInterface.Name Interface.Name
                  (cfgFile.Interfaces cfg) (Config.Interfaces c)); [exact Hnodup|].
    eapply Forall2_impl; [exact Hl|]. intros x y Hxy.
    destruct Hxy as [-> _]. reflexivity. }
  eapply Forall2_transfer; [|exact Hl|exact Hall].
  intros iface ifi Hfrom Hok.
  destruct Hfrom as (_ & _ & _ & Ft & Fm & Fu & _ & _ & Fb & _ & _ & _ & _ & _ & _ & _
                     & Hhosts).
  destruct Hok as (Ht & Hm & Hu & Hbi & _ & _ & _ & Hhok & Hkeys).
  assert (Hifb : 1 <= Interface.BurstSize ifi <= 5).
  { rewrite Fb. unfold wellformed.burst_size_ok, BURSTSIZE_MIN, BURSTSIZE_MAX in Hbi.
    destruct (cfgInterface.BurstSize iface); cbn; [exact Hbi|exact Hglobal]. }
  assert (Hlen : length (Interface.Hosts ifi) = length (cfgInterface.Hosts iface)).
  { symmetry. eapply Forall2_length. exact Hhosts. }
  split; [exact Hifb|]. split; [|split; [|split; [|split]]].
  - rewrite Ft. unfold wellformed.table_ok in Ht.
    destruct (cfgInterface.Table iface); cbn; [right; exact Ht|left; reflexivity].
  - rewrite Fm, Ft. unfold wellformed.metric_ok, wellformed.table_ok in Hm, Ht.
    destruct (cfgInterface.Metric iface) as [m|]; cbn; [right|left; reflexivity].
    destruct Hm as [Hm Hsome]. split; [exact Hm|].
    destruct (cfgInterface.Table iface); cbn; [lia|contradiction].
  - rewrite Fu, Hlen. unfold wellformed.minimum_up_ok in Hu.
    destruct (cfgInterface.MinimumUp iface); cbn; unfold DEF_MINIMUMUP; lia.
  - apply (NoDup_fmap_1 Some). rewrite <- list_fmap_compose.
    rewrite <- (Forall2_fmap_eq (wellformed.host_key ParseIP IP_String)
                  (Some ∘ (fun host => IP_String (Host.Host host)))
                  (cfgInterface.Hosts iface) (Interface.Hosts ifi)); [exact Hkeys|].
    eapply Forall2_impl; [exact Hhosts|]. intros h host Hh.
    unfold wellformed.host_key. destruct Hh as [-> _]. reflexivity.
  - eapply Forall2_transfer; [|exact Hhosts|exact Hhok].
    intros h host Hh (_ & Hhb & _).
    destruct Hh as (_ & _ & _ & Ff & Fhb & _). split.
    + rewrite Fhb. unfold wellformed.burst_size_ok, BURSTSIZE_MIN, BURSTSIZE_MAX in Hhb.
      destruct (cfgHost.BurstSize h); cbn; [exact Hhb|exact Hifb].
    + rewrite Ff. destruct (net.To4 (Host.Host host)); auto.
Qed.

Lemma X3_Parse_output_in_range_witness :
  exists c,
    Parse sample.parse_ip sample.ip_text sample.no_duration sample.toml_eth0 = Ok c
    /\ 1 <= Config.BurstSize c <= 5
    /\ NoDup (Interface.Name <$> Config.Interfaces c).
Proof.
  eexists. split; [vm_compute; reflexivity|].
  edestruct (X3_Parse_output_in_range sample.parse_ip sample.ip_text
               sample.no_duration sample.toml_eth0) as (H1 & H2 & _).
  - vm_compute. reflexivity.
  - split; [exact H1|exact H2].
Defined.

(** ** Counters: how the operations compose *)

(** X4: inside the bounds [HostDown] undoes [HostUp] and [HostUp]
    undoes [HostDown]: the interface is back to what it was, the
    other family included, and the second call fires exactly when
    the first one did, so every Family-Up is answered by a
    Family-Down at the same boundary. *)
Theorem X4_HostUp_HostDown_round_trip :
  forall (family : Z) (i : Interface.t),
    - 2 ^ 31 < Interface.MinimumUp i < 2 ^ 31 ->
    Total family i < 2 ^ 31 ->
    (0 <= Up family i < Total family i ->
     HostDown family (fst (HostUp family i)) = (i, snd (HostUp family i)))
    /\ (0 < Up family i <= Total family i ->
        HostUp family (fst (HostDown family i)) = (i, snd (HostDown family i))).
Proof.
  intros family i Hmin Htotal.
  unfold HostUp, HostDown, Up, Total, Up4, Up6 in *.
  destruct i as [n d dbg t m ua da bi bs ii it mu u4 u6 t4 t6 hs]. cbn in *.
  destruct (family =? unix.AF_INET);
    unfold hostUpv4, hostUpv6, hostDownv4, hostDownv6; cbn;
    (split; intros Hup).
  - rewrite (int32_small (u4 + 1)) by lia.
    destruct (Z.gtb_spec (u4 + 1) t4); [lia|]. cbn.
    replace (u4 + 1 - 1) with u4 by lia. rewrite (int32_small u4) by lia.
    destruct (Z.ltb_spec u4 0); [lia|]. cbn.
    rewrite !int32_small by (rewrite ?int32_small; lia).
    f_equal. destruct (Z.eqb_spec (u4 + 1) mu), (Z.eqb_spec u4 (mu - 1));
      try reflexivity; lia.
  - rewrite (int32_small (u4 - 1)) by lia.
    destruct (Z.ltb_spec (u4 - 1) 0); [lia|]. cbn.
    replace (u4 - 1 + 1) with u4 by lia. rewrite (int32_small u4) by lia.
    destruct (Z.gtb_spec u4 t4); [lia|]. cbn.
    rewrite !int32_small by (rewrite ?int32_small; lia).
    f_equal. destruct (Z.eqb_spec u4 mu), (Z.eqb_spec (u4 - 1) (mu - 1));
      try reflexivity; lia.
  - rewrite (int32_small (u6 + 1)) by lia.
    destruct (Z.gtb_spec (u6 + 1) t6); [lia|]. cbn.
    replace (u6 + 1 - 1) with u6 by lia. rewrite (int32_small u6) by lia.
    destruct (Z.ltb_spec u6 0); [lia|]. cbn.
    rewrite !int32_small by (rewrite ?int32_small; lia).
    f_equal. destruct (Z.eqb_spec (u6 + 1) mu), (Z.eqb_spec u6 (mu - 1));
      try reflexivity; lia.
  - rewrite (int32_small (u6 - 1)) by lia.
    destruct (Z.ltb_spec (u6 - 1) 0); [lia|]. cbn.
    replace (u6 - 1 + 1) with u6 by lia. rewrite (int32_small u6) by lia.
    destruct (Z.gtb_spec u6 t6); [lia|]. cbn.
    rewrite !int32_small by (rewrite ?int32_small; lia).
    f_equal. destruct (Z.eqb_spec u6 mu), (Z.eqb_spec (u6 - 1) (mu - 1));
      try reflexivity; lia.
Qed.

Lemma X4_round_trip_witness :
  let i := sample.eth0 [sample.cloudflare4; sample.cloudflare6] 1 0 1 in
  HostDown unix.AF_INET (fst (HostUp unix.AF_INET i))
  = (i, snd (HostUp unix.AF_INET i)).
Proof.
  apply (proj1 (X4_HostUp_HostDown_round_trip unix.AF_INET
                  (sample.eth0 [sample.cloudflare4; sample.cloudflare6] 1 0 1)
                  ltac:(vm_compute; split; reflexivity)
                  ltac:(vm_compute; reflexivity))).
  vm_compute. split; [discriminate|reflexivity].
Defined.

(** ** Probers: the latch and the counters *)

Lemma nextHopAvailable_interface CombinedOutput InterfaceByName ifi family s :
  fst (nextHopAvailable CombinedOutput InterfaceByName ifi family s)
  = fst (HostUp family ifi).
Proof.
  unfold nextHopAvailable. destruct (HostUp family ifi) as [i b].
  destruct b; reflexivity.
Qed.

Lemma nextHopFail_interface CombinedOutput InterfaceByName ifi family s :
  fst (nextHopFail CombinedOutput InterfaceByName ifi family false s)
  = fst (HostDown family ifi).
Proof.
  unfold nextHopFail. destruct (HostDown family ifi) as [i b].
  destruct b; reflexivity.
Qed.

(** Replacing one prober moves a count by what the old and the new
    one contribute. *)
Lemma probers_of_insert v4 f (ps : list prober) k p p' :
  ps !! k = Some p ->
  let g := fun q => f q && Bool.eqb (Host.Family (prober_host q) =? unix.AF_INET) v4 in
  probers_of v4 f (<[k := p']> ps)
  = probers_of v4 f ps - Z.b2z (g p) + Z.b2z (g p').
Proof.
  intros Hk g.
  rewrite insert_take_drop by (eapply lookup_lt_Some; exact Hk).
  pose proof (take_drop_middle ps k p Hk) as E.
  set (before := take k ps) in *. set (after := drop (S k) ps) in *.
  clearbody before after. subst ps.
  unfold probers_of. fold g.
  rewrite !List.filter_app. cbn [List.filter].
  destruct (g p), (g p'); rewrite !length_app; cbn [length Z.b2z]; lia.
Qed.

Lemma probers_of_nonneg v4 f ps : 0 <= probers_of v4 f ps.
Proof. unfold probers_of. lia. Qed.

(** Latched probers are among the probers. *)
Lemma probers_of_le v4 f ps : probers_of v4 f ps <= probers_of v4 (fun _ => true) ps.
Proof.
  unfold probers_of. apply Nat2Z.inj_le.
  induction ps as [|p ps IH]; simpl in *; [lia|].
  destruct (f p), (Bool.eqb (Host.Family (prober_host p) =? unix.AF_INET) v4);
    simpl; lia.
Qed.

Section Latch.

Variable CombinedOutput : Cmd -> string * option error.
Variable InterfaceByName : string -> result Z.

(** What the latch maintains: each counter is the number of probers
    of its family whose latch is up. *)
Local Abbreviation counted ps ifi :=
  (Up4 ifi = probers_of true isUp ps /\ Up6 ifi = probers_of false isUp ps).

Local Abbreviation roomy ps ifi :=
  (probers_of true (fun _ => true) ps <= Interface.totalHostsv4 ifi < 2 ^ 31
   /\ probers_of false (fun _ => true) ps <= Interface.totalHostsv6 ifi < 2 ^ 31).

Lemma verdict_keeps_count cb (ps : list prober) k p ifi s :
  ps !! k = Some p -> roomy ps ifi -> counted ps ifi ->
  let '(p', ifi', _) := verdict CombinedOutput InterfaceByName cb p ifi s in
  roomy (<[k := p']> ps) ifi' /\ counted (<[k := p']> ps) ifi'.
Proof.
  intros Hk [R4 R6] [C4 C6].
  unfold verdict, monitor_Down, monitor_Up.
  destruct p as [host up]. cbn [isUp prober_host].
  destruct cb, up; cbn [negb].
  - (* down, latched up *)
    pose proof (nextHopFail_interface CombinedOutput InterfaceByName ifi
                  (Host.Family host) s) as Hi.
    destruct (nextHopFail _ _ ifi (Host.Family host) false s) as [ifi' s'].
    cbn [fst] in Hi. subst ifi'.
    set (p' := {| prober_host := host; isUp := false |}).
    pose proof (probers_of_insert true isUp ps k _ p' Hk) as I4.
    pose proof (probers_of_insert false isUp ps k _ p' Hk) as I6.
    pose proof (probers_of_insert true (fun _ => true) ps k _ p' Hk) as A4.
    pose proof (probers_of_insert false (fun _ => true) ps k _ p' Hk) as A6.
    pose proof (probers_of_nonneg true isUp (<[k := p']> ps)) as N4.
    pose proof (probers_of_nonneg false isUp (<[k := p']> ps)) as N6.
    pose proof (probers_of_le true isUp ps) as L4.
    pose proof (probers_of_le false isUp ps) as L6.
    cbn zeta in I4, I6, A4, A6. cbn [isUp prober_host p' andb] in I4, I6, A4, A6.
    unfold Up4, Up6 in *. unfold HostDown, hostDownv4, hostDownv6.
    destruct (Host.Family host =? unix.AF_INET);
      cbn [Bool.eqb Z.b2z] in I4, I6, A4, A6; cbn;
      rewrite int32_small by lia.
    + destruct (Z.ltb_spec (Interface.upHostsv4 ifi - 1) 0); [lia|]. cbn. lia.
    + destruct (Z.ltb_spec (Interface.upHostsv6 ifi - 1) 0); [lia|]. cbn. lia.
  - (* down, latch already down *)
    rewrite list_insert_id by exact Hk. tauto.
  - (* up, latch already up *)
    rewrite list_insert_id by exact Hk. tauto.
  - (* up, latched down *)
    pose proof (nextHopAvailable_interface CombinedOutput InterfaceByName ifi
                  (Host.Family host) s) as Hi.
    destruct (nextHopAvailable _ _ ifi (Host.Family host) s) as [ifi' s'].
    cbn [fst] in Hi. subst ifi'.
    set (p' := {| prober_host := host; isUp := true |}).
    pose proof (probers_of_insert true isUp ps k _ p' Hk) as I4.
    pose proof (probers_of_insert false isUp ps k _ p' Hk) as I6.
    pose proof (probers_of_insert true (fun _ => true) ps k _ p' Hk) as A4.
    pose proof (probers_of_insert false (fun _ => true) ps k _ p' Hk) as A6.
    pose proof (probers_of_le true isUp (<[k := p']> ps)) as L4.
    pose proof (probers_of_le false isUp (<[k := p']> ps)) as L6.
    pose proof (probers_of_nonneg true isUp ps) as N4.
    pose proof (probers_of_nonneg false isUp ps) as N6.
    cbn zeta in I4, I6, A4, A6. cbn [isUp prober_host p' andb] in I4, I6, A4, A6.
    unfold Up4, Up6 in *. unfold HostUp, hostUpv4, hostUpv6.
    destruct (Host.Family host =? unix.AF_INET);
      cbn [Bool.eqb Z.b2z] in I4, I6, A4, A6; cbn;
      rewrite int32_small by lia.
    + destruct (Z.gtb_spec (Interface.upHostsv4 ifi + 1) (Interface.totalHostsv4 ifi));
        [lia|]. cbn. lia.
    + destruct (Z.gtb_spec (Interface.upHostsv6 ifi + 1) (Interface.totalHostsv6 ifi));
        [lia|]. cbn. lia.
Qed.

Lemma deliver_keeps_count events : forall (ps : list prober) ifi s,
  roomy ps ifi -> counted ps ifi ->
  let '(ps', ifi', _) := deliver CombinedOutput InterfaceByName events ps ifi s in
  roomy ps' ifi' /\ counted ps' ifi'.
Proof.
  induction events as [|[k cb] rest IH]; intros ps ifi s Hr Hc; cbn [deliver].
  - auto.
  - destruct (ps !! k) as [p|] eqn:Hk; [|apply IH; assumption].
    pose proof (verdict_keeps_count cb ps k p ifi s Hk Hr Hc) as Hstep.
    destruct (verdict _ _ cb p ifi s) as [[p' ifi'] s'].
    destruct Hstep as [Hr' Hc']. apply IH; assumption.
Qed.

End Latch.

(** X5: with the latch of [addICMPMonitor] in front of them the
    counters cannot leave their bounds.  If each counter equals the
    number of its family's probers whose latch is up, and there are
    no more probers of a family than [total_hosts] of it, then after
    any sequence of verdicts, from any probers in any order, each
    counter still equals that number and lies in
    [0, total_hosts]. *)
Theorem X5_latch_keeps_counters_in_bounds :
  forall (CombinedOutput : Cmd -> string * option error)
         (InterfaceByName : string -> result Z)
         (events : list (nat * icmp.callback)) (ps : list prober)
         (ifi : Interface.t) (s : Server),
    probers_of true (fun _ => true) ps <= Interface.totalHostsv4 ifi < 2 ^ 31 ->
    probers_of false (fun _ => true) ps <= Interface.totalHostsv6 ifi < 2 ^ 31 ->
    Up4 ifi = probers_of true isUp ps ->
    Up6 ifi = probers_of false isUp ps ->
    let '(ps', ifi', _) := deliver CombinedOutput InterfaceByName events ps ifi s in
    Up4 ifi' = probers_of true isUp ps'
    /\ Up6 ifi' = probers_of false isUp ps'
    /\ 0 <= Up4 ifi' <= Interface.totalHostsv4 ifi'
    /\ 0 <= Up6 ifi' <= Interface.totalHostsv6 ifi'.
Proof.
  intros CombinedOutput InterfaceByName events ps ifi s R4 R6 C4 C6.
  pose proof (deliver_keeps_count CombinedOutput InterfaceByName events ps ifi s
                (conj R4 R6) (conj C4 C6)) as H.
  destruct (deliver _ _ events ps ifi s) as [[ps' ifi'] s'].
  destruct H as [[R4' R6'] [C4' C6']].
  pose proof (probers_of_le true isUp ps'). pose proof (probers_of_le false isUp ps').
  pose proof (probers_of_nonneg true isUp ps').
  pose proof (probers_of_nonneg false isUp ps').
  repeat split; try assumption; lia.
Qed.

Lemma X5_latch_witness :
  let ps := [ {| prober_host := sample.cloudflare4; isUp := false |};
              {| prober_host := sample.cloudflare6; isUp := false |} ] in
  let ifi := sample.eth0 [sample.cloudflare4; sample.cloudflare6] 1 0 0 in
  let events := [ (0%nat, icmp.upFunc); (0%nat, icmp.upFunc); (1%nat, icmp.downFunc);
                  (0%nat, icmp.downFunc); (0%nat, icmp.downFunc) ] in
  let '(ps', ifi', _) :=
    deliver sample.quiet (fun _ => Ok 3) events ps ifi sample.idle in
  Up4 ifi' = probers_of true isUp ps'
  /\ Up6 ifi' = probers_of false isUp ps'
  /\ 0 <= Up4 ifi' <= Interface.totalHostsv4 ifi'
  /\ 0 <= Up6 ifi' <= Interface.totalHostsv6 ifi'.
Proof.
  apply (X5_latch_keeps_counters_in_bounds sample.quiet (fun _ => Ok 3)).
  - vm_compute. split; [discriminate|reflexivity].
  - vm_compute. split; [discriminate|reflexivity].
  - reflexivity.
  - reflexivity.
Defined.

(** ** What a hook script is told *)

(** Inside the bounds the two operations are plain arithmetic. *)
Lemma HostUp_inside family i :
  0 <= Up family i < Total family i -> Total family i < 2 ^ 31 ->
  - 2 ^ 31 < Interface.MinimumUp i < 2 ^ 31 ->
  HostUp family i
  = (if family =? unix.AF_INET
     then Interface.with_upHostsv4 (Up family i + 1) i
     else Interface.with_upHostsv6 (Up family i + 1) i,
     Up family i + 1 =? Interface.MinimumUp i).
Proof.
  unfold HostUp, Up, Total, Up4, Up6.
  destruct i as [n d dbg t m ua da bi bs ii it mu u4 u6 t4 t6 hs]. cbn.
  destruct (family =? unix.AF_INET); unfold hostUpv4, hostUpv6; cbn;
    intros Hup Ht Hm; rewrite !int32_small by lia.
  - destruct (Z.gtb_spec (u4 + 1) t4); [lia|]. cbn.
    rewrite ?int32_small by lia. reflexivity.
  - destruct (Z.gtb_spec (u6 + 1) t6); [lia|]. cbn.
    rewrite ?int32_small by lia. reflexivity.
Qed.

Lemma HostDown_inside family i :
  0 < Up family i <= Total family i -> Total family i < 2 ^ 31 ->
  - 2 ^ 31 < Interface.MinimumUp i < 2 ^ 31 ->
  HostDown family i
  = (if family =? unix.AF_INET
     then Interface.with_upHostsv4 (Up family i - 1) i
     else Interface.with_upHostsv6 (Up family i - 1) i,
     Up family i - 1 =? Interface.MinimumUp i - 1).
Proof.
  unfold HostDown, Up, Total, Up4, Up6.
  destruct i as [n d dbg t m ua da bi bs ii it mu u4 u6 t4 t6 hs]. cbn.
  destruct (family =? unix.AF_INET); unfold hostDownv4, hostDownv6; cbn;
    intros Hup Ht Hm; rewrite !int32_small by (rewrite ?int32_small; lia).
  - destruct (Z.ltb_spec (u4 - 1) 0); [lia|]. cbn.
    rewrite ?int32_small by (rewrite ?int32_small; lia). reflexivity.
  - destruct (Z.ltb_spec (u6 - 1) 0); [lia|]. cbn.
    rewrite ?int32_small by (rewrite ?int32_small; lia). reflexivity.
Qed.

Section Hooks.

Variable CombinedOutput : Cmd -> string * option error.
Variable InterfaceByName : string -> result Z.

Lemma up_pathway_runs_hook ifi family s c :
  execScript_cmd "UP" family ifi = Some c ->
  In (Executed c) (journal (up_pathway CombinedOutput InterfaceByName ifi family s)).
Proof.
  intros Hc. unfold up_pathway, execScript. rewrite Hc.
  destruct (CombinedOutput c) as [out err].
  apply addGatewaysFor_journal.
  assert (H0 : In (Executed c) (journal (record (Executed c) s))).
  { rewrite journal_record. apply in_or_app. right. left. reflexivity. }
  assert (H1 : In (Executed c)
                 (journal match err with
                          | Some e => record (LoggedScriptError "up_action" e)
                                        (record (Executed c) s)
                          | None => record (Executed c) s
                          end)).
  { destruct err; [|exact H0]. rewrite journal_record.
    apply in_or_app. left. exact H0. }
  destruct (0 <? String.length out)%nat; [|exact H1].
  rewrite journal_record. apply in_or_app. left. exact H1.
Qed.

Lemma down_pathway_runs_hook ifi family s c :
  execScript_cmd "DOWN" family ifi = Some c ->
  In (Executed c) (journal (down_pathway CombinedOutput InterfaceByName ifi family s)).
Proof.
  intros Hc. unfold down_pathway, execScript. rewrite Hc.
  destruct (CombinedOutput c) as [out err].
  apply deleteGatewaysFor_journal.
  assert (H0 : In (Executed c) (journal (record (Executed c) s))).
  { rewrite journal_record. apply in_or_app. right. left. reflexivity. }
  assert (H1 : In (Executed c)
                 (journal match err with
                          | Some e => record (LoggedScriptError "down_action" e)
                                        (record (Executed c) s)
                          | None => record (Executed c) s
                          end)).
  { destruct err; [|exact H0]. rewrite journal_record.
    apply in_or_app. left. exact H0. }
  destruct (0 <? String.length out)%nat; [|exact H1].
  rewrite journal_record. apply in_or_app. left. exact H1.
Qed.

End Hooks.

(** X6: a hook is told the counters as they are after the event.
    When a host coming up takes its family to [minimum_up], the up
    action runs with EVENT=UP and UP_HOSTS4 (UP_HOSTS6 for the other
    family) equal to MINIMUM_UP; when a host going down takes the
    family below it, the down action runs with EVENT=DOWN and that
    variable equal to MINIMUM_UP - 1. *)
Theorem X6_hook_sees_counters_after_event :
  forall (CombinedOutput : Cmd -> string * option error)
         (InterfaceByName : string -> result Z)
         (family : Z) (ifi : Interface.t) (s : Server),
    - 2 ^ 31 < Interface.MinimumUp ifi < 2 ^ 31 ->
    Total family ifi < 2 ^ 31 ->
    let variable := if family =? unix.AF_INET then "UP_HOSTS4=" else "UP_HOSTS6=" in
    (0 <= Up family ifi < Total family ifi ->
     Up family ifi + 1 = Interface.MinimumUp ifi ->
     Interface.UpAction ifi <> "" ->
     exists c,
       In (Executed c)
          (journal (snd (nextHopAvailable CombinedOutput InterfaceByName ifi family s)))
       /\ In ("EVENT=UP") (Env c)
       /\ In (variable +:+ Sprintf_d (Interface.MinimumUp ifi)) (Env c))
    /\ (0 < Up family ifi <= Total family ifi ->
        Up family ifi = Interface.MinimumUp ifi ->
        Interface.DownAction ifi <> "" ->
        exists c,
          In (Executed c)
             (journal (snd (nextHopFail CombinedOutput InterfaceByName ifi family false s)))
          /\ In ("EVENT=DOWN") (Env c)
          /\ In (variable +:+ Sprintf_d (Interface.MinimumUp ifi - 1)) (Env c)).
Proof.
  intros CombinedOutput InterfaceByName family ifi s Hmin Htotal variable.
  split.
  - intros Hup Hat Haction.
    unfold nextHopAvailable. rewrite (HostUp_inside family ifi Hup Htotal Hmin).
    rewrite Hat, Z.eqb_refl.
    set (ifi' := if family =? unix.AF_INET then _ else _).
    assert (Hscript : Interface.UpAction ifi' = Interface.UpAction ifi)
      by (subst ifi'; destruct (family =? unix.AF_INET); reflexivity).
    destruct (execScript_cmd "UP" family ifi') as [c|] eqn:Hc.
    2: { unfold execScript_cmd in Hc. cbn [String.eqb Ascii.eqb Bool.eqb] in Hc.
         rewrite Hscript in Hc.
         destruct (String.eqb_spec (Interface.UpAction ifi) ""); [contradiction|].
         discriminate Hc. }
    exists c. cbn [snd]. split; [apply up_pathway_runs_hook; exact Hc|].
    unfold execScript_cmd in Hc. cbn [String.eqb Ascii.eqb Bool.eqb] in Hc.
    destruct (String.eqb (Interface.UpAction ifi') ""); [discriminate Hc|].
    injection Hc as <-. cbn [Env]. split; [left; reflexivity|].
    subst ifi' variable. unfold ifiToEnv, Up4, Up6.
    destruct (family =? unix.AF_INET); cbn; tauto.
  - intros Hup Hat Haction.
    unfold nextHopFail. rewrite (HostDown_inside family ifi Hup Htotal Hmin).
    rewrite Hat, Z.eqb_refl. cbn [orb].
    set (ifi' := if family =? unix.AF_INET then _ else _).
    assert (Hscript : Interface.DownAction ifi' = Interface.DownAction ifi)
      by (subst ifi'; destruct (family =? unix.AF_INET); reflexivity).
    destruct (execScript_cmd "DOWN" family ifi') as [c|] eqn:Hc.
    2: { unfold execScript_cmd in Hc. cbn [String.eqb Ascii.eqb Bool.eqb] in Hc.
         rewrite Hscript in Hc.
         destruct (String.eqb_spec (Interface.DownAction ifi) ""); [contradiction|].
         discriminate Hc. }
    exists c. cbn [snd]. split; [apply down_pathway_runs_hook; exact Hc|].
    unfold execScript_cmd in Hc. cbn [String.eqb Ascii.eqb Bool.eqb] in Hc.
    destruct (String.eqb (Interface.DownAction ifi') ""); [discriminate Hc|].
    injection Hc as <-. cbn [Env]. split; [left; reflexivity|].
    subst ifi' variable. unfold ifiToEnv, Up4, Up6.
    destruct (family =? unix.AF_INET); cbn; tauto.
Qed.

Lemma X6_hook_witness :
  let ifi := sample.eth0 [sample.cloudflare4; sample.cloudflare6] 1 0 0 in
  exists c,
    In (Executed c)
       (journal (snd (nextHopAvailable sample.quiet (fun _ => Ok 3) ifi
                        unix.AF_INET sample.idle)))
    /\ In ("EVENT=UP") (Env c)
    /\ In ("UP_HOSTS4=1") (Env c).
Proof.
  apply (proj1 (X6_hook_sees_counters_after_event sample.quiet (fun _ => Ok 3)
                  unix.AF_INET
                  (sample.eth0 [sample.cloudflare4; sample.cloudflare6] 1 0 0)
                  sample.idle
                  ltac:(vm_compute; split; reflexivity)
                  ltac:(vm_compute; reflexivity))).
  - vm_compute. split; [discriminate|reflexivity].
  - reflexivity.
  - discriminate.
Defined.

(** ** Gateway promotion and demotion *)

Lemma same_route_refl m : same_route m m = true.
Proof. unfold same_route. apply bool_decide_eq_true. reflexivity. Qed.

Lemma same_route_true a b : same_route a b = true -> route_key a = route_key b.
Proof. unfold same_route. apply bool_decide_eq_true. Qed.

Lemma Route_Delete_routes m c :
  routes (snd (Route_Delete m c))
  = List.filter (fun r => negb (same_route m r)) (routes c)
  /\ rules (snd (Route_Delete m c)) = rules c.
Proof.
  unfold Route_Delete.
  destruct (existsb (same_route m) (routes c)) eqn:E; cbn; split; try reflexivity.
  symmetry. apply filter_absent_key. exact E.
Qed.

Lemma filter_absorb {A : Type} (f g : A -> bool) (l : list A) :
  (forall x, f x = true -> g x = true) ->
  List.filter f (List.filter g l) = List.filter f l.
Proof.
  intros H. induction l as [|x l IH]; cbn; [reflexivity|].
  destruct (g x) eqn:Eg; cbn.
  - rewrite IH. reflexivity.
  - destruct (f x) eqn:Ef; [|exact IH].
    rewrite (H x Ef) in Eg. discriminate Eg.
Qed.

(** Not in the main table. *)
Local Abbreviation private :=
  (fun r : RouteMessage.t =>
     negb (RouteAttributes.Table (RouteMessage.Attributes r) =? unix.RT_TABLE_MAIN)).

Lemma is_gateway_of_table table family idx m :
  is_gateway_of table family idx m = true ->
  RouteAttributes.Table (RouteMessage.Attributes m) = table.
Proof.
  unfold is_gateway_of. intros H.
  apply andb_true_iff in H as [H _]. apply andb_true_iff in H as [H _].
  apply andb_true_iff in H as [H _]. apply Z.eqb_eq. exact H.
Qed.

(** Removing the routes with the key of a main-table route leaves
    the other tables alone. *)
Lemma private_after_removal (m : RouteMessage.t) (l : list RouteMessage.t) :
  RouteAttributes.Table (RouteMessage.Attributes m) = unix.RT_TABLE_MAIN ->
  List.filter private (List.filter (fun r => negb (same_route m r)) l)
  = List.filter private l.
Proof.
  intros Hm. apply filter_absorb. intros x Hx.
  destruct (same_route m x) eqn:E; [|reflexivity].
  apply same_route_true in E.
  assert (Ht : snd (fst (route_key m)) = snd (fst (route_key x)))
    by (rewrite E; reflexivity).
  cbn in Ht. rewrite Hm in Ht. rewrite <- Ht in Hx.
  cbn in Hx. discriminate Hx.
Qed.

Section Demotion.

Variables (family ifIndex : Z).

Local Abbreviation gateway := (is_gateway_of unix.RT_TABLE_MAIN family ifIndex).

Local Abbreviation demote :=
  (fun (s : Server) (msg : RouteMessage.t) =>
     if is_gateway_of unix.RT_TABLE_MAIN family ifIndex msg
     then with_nlconn (snd (Route_Delete msg (nlconn s))) s
     else s).

Lemma demote_all msgs : forall s,
  let s' := fold_left demote msgs s in
  (forall r, In r (routes (nlconn s')) -> In r (routes (nlconn s)))
  /\ (forall m, In m msgs -> gateway m = true -> ~ In m (routes (nlconn s')))
  /\ (forall r, In r (routes (nlconn s)) ->
                (forall m, In m msgs -> gateway m = true ->
                           route_key m <> route_key r) ->
                In r (routes (nlconn s')))
  /\ List.filter private (routes (nlconn s')) = List.filter private (routes (nlconn s))
  /\ rules (nlconn s') = rules (nlconn s)
  /\ journal s' = journal s
  /\ icmpMonitors s' = icmpMonitors s.
Proof.
  induction msgs as [|msg rest IH]; intros s; cbn zeta; cbn [fold_left].
  - repeat split; auto.
  - specialize (IH (demote s msg)). cbn zeta in IH.
    destruct IH as (Hsub & Hgone & Hkeep & Hpriv & Hrules & Hj & Hm).
    destruct (gateway msg) eqn:Hg.
    + destruct (Route_Delete_routes msg (nlconn s)) as [Hr Hru].
      cbn [nlconn with_nlconn journal icmpMonitors] in *.
      rewrite Hr in Hsub, Hkeep, Hpriv. rewrite Hru in Hrules.
      repeat split.
      * intros r Hin. apply Hsub in Hin. apply filter_In in Hin. tauto.
      * intros m [<-|Hin] Hgm.
        -- intros Habs. apply Hsub in Habs. apply filter_In in Habs as [_ Habs].
           rewrite same_route_refl in Habs. discriminate Habs.
        -- apply Hgone; assumption.
      * intros r Hin Hkeys. apply Hkeep.
        -- apply filter_In. split; [exact Hin|].
           destruct (same_route msg r) eqn:E; [|reflexivity].
           apply same_route_true in E.
           exfalso. apply (Hkeys msg); [left; reflexivity|exact Hg|exact E].
        -- intros m Hin'. apply Hkeys. right. exact Hin'.
      * rewrite Hpriv. apply private_after_removal.
        eapply is_gateway_of_table. exact Hg.
      * exact Hrules.
      * exact Hj.
      * exact Hm.
    + repeat split; auto.
      * intros m [<-|Hin] Hgm; [rewrite Hg in Hgm; discriminate Hgm|].
        apply Hgone; assumption.
      * intros r Hin Hkeys. apply Hkeep; [exact Hin|].
        intros m Hin'. apply Hkeys. right. exact Hin'.
Qed.

End Demotion.

(** X7: gateway demotion.  If the interface is still known to the
    system, [deleteGatewaysFor] leaves no route in the main table
    that leaves through the interface by a gateway for that family;
    it adds nothing, keeps every route that does not share
    destination, table and metric with such a gateway route, and
    touches no policy rule.  If the interface is gone it returns the
    lookup error and changes nothing. *)
Theorem X7_deleteGatewaysFor_clears_main_table :
  forall (InterfaceByName : string -> result Z)
         (ifi : Interface.t) (family : Z) (s : Server),
    let s' := snd (deleteGatewaysFor InterfaceByName ifi family s) in
    match InterfaceByName (Interface.Name ifi) with
    | Ok ifIndex =>
        Forall (fun r => is_gateway_of unix.RT_TABLE_MAIN family ifIndex r = false)
               (routes (nlconn s'))
        /\ (forall r, In r (routes (nlconn s')) -> In r (routes (nlconn s)))
        /\ (forall r, In r (routes (nlconn s)) ->
                      (forall g, In g (routes (nlconn s)) ->
                                 is_gateway_of unix.RT_TABLE_MAIN family ifIndex g = true ->
                                 route_key g <> route_key r) ->
                      In r (routes (nlconn s')))
        /\ rules (nlconn s') = rules (nlconn s)
    | Err e => deleteGatewaysFor InterfaceByName ifi family s = (Err e, s)
    end.
Proof.
  intros InterfaceByName ifi family s s'. subst s'. unfold deleteGatewaysFor, Route_List.
  destruct (InterfaceByName (Interface.Name ifi)) as [ifIndex|e]; [|reflexivity].
  cbn [snd].
  destruct (demote_all family ifIndex (routes (nlconn s)) s)
    as (Hsub & Hgone & Hkeep & _ & Hrules & _).
  repeat split; try assumption.
  apply List.Forall_forall. intros r Hin.
  destruct (is_gateway_of unix.RT_TABLE_MAIN family ifIndex r) eqn:Hg; [|reflexivity].
  exfalso. exact (Hgone r (Hsub r Hin) Hg Hin).
Qed.

Section Promotion.

Variables (table metric family ifIndex : Z).

Local Abbreviation promoted :=
  (fun msg : RouteMessage.t =>
     RouteMessage.with_Priority metric
       (RouteMessage.with_Table unix.RT_TABLE_MAIN msg)).

Local Abbreviation promote :=
  (fun (s : Server) (msg : RouteMessage.t) =>
     if is_gateway_of table family ifIndex msg then
       let msg := RouteMessage.with_Table unix.RT_TABLE_MAIN msg in
       let msg := RouteMessage.with_Priority metric msg in
       match Route_Replace msg (nlconn s) with
       | (Err e, c) => record (LoggedRouteError msg e) (with_nlconn c s)
       | (Ok _, c) => with_nlconn c s
       end
     else s).

(** The main table holds a gateway route of the interface under
    key [k]. *)
Local Abbreviation holds k s :=
  (exists r', In r' (routes (nlconn s)) /\ route_key r' = k
              /\ is_gateway_of unix.RT_TABLE_MAIN family ifIndex r' = true).

Lemma promoted_is_gateway msg :
  is_gateway_of table family ifIndex msg = true ->
  is_gateway_of unix.RT_TABLE_MAIN family ifIndex (promoted msg) = true.
Proof.
  unfold is_gateway_of. cbn. intros H.
  apply andb_true_iff in H as [H Hgw]. apply andb_true_iff in H as [H Hout].
  apply andb_true_iff in H as [_ Hfam].
  rewrite Hfam, Hout, Hgw. reflexivity.
Qed.

Lemma promote_keeps k s msg : holds k s -> holds k (promote s msg).
Proof.
  intros (r' & Hin & Hk & Hg).
  destruct (is_gateway_of table family ifIndex msg) eqn:Hmsg; [|exists r'; auto].
  cbn [Route_Replace nlconn with_nlconn routes with_routes].
  destruct (same_route (promoted msg) r') eqn:E.
  - exists (promoted msg). split; [apply in_or_app; right; left; reflexivity|].
    split; [rewrite <- Hk; apply same_route_true; exact E|].
    apply promoted_is_gateway. exact Hmsg.
  - exists r'. split; [|auto].
    apply in_or_app. left. apply filter_In. rewrite E. auto.
Qed.

Lemma promote_all msgs : forall s,
  let s' := fold_left promote msgs s in
  (forall m, In m msgs -> is_gateway_of table family ifIndex m = true ->
             holds (route_key (promoted m)) s')
  /\ List.filter private (routes (nlconn s')) = List.filter private (routes (nlconn s))
  /\ rules (nlconn s') = rules (nlconn s)
  /\ icmpMonitors s' = icmpMonitors s.
Proof.
  induction msgs as [|msg rest IH]; intros s; cbn zeta; cbn [fold_left].
  - repeat split; auto. intros m [].
  - specialize (IH (promote s msg)). cbn zeta in IH.
    destruct IH as (Hall & Hpriv & Hrules & Hm).
    split; [|split; [|split]].
    + intros m [<-|Hin] Hg; [|apply Hall; assumption].
      apply (fold_left_invariant (fun t => holds (route_key (promoted msg)) t)).
      * intros t a. apply promote_keeps.
      * rewrite Hg. cbn [Route_Replace nlconn with_nlconn routes with_routes].
        exists (promoted msg). split; [apply in_or_app; right; left; reflexivity|].
        split; [reflexivity|]. apply promoted_is_gateway. exact Hg.
    + rewrite Hpriv.
      destruct (is_gateway_of table family ifIndex msg); [|reflexivity].
      cbn [Route_Replace nlconn with_nlconn routes with_routes].
      rewrite List.filter_app. cbn [List.filter]. cbn.
      rewrite app_nil_r. apply private_after_removal. reflexivity.
    + rewrite Hrules.
      destruct (is_gateway_of table family ifIndex msg); reflexivity.
    + rewrite Hm.
      destruct (is_gateway_of table family ifIndex msg); reflexivity.
Qed.

End Promotion.

(** X8: gateway promotion.  If the interface is known to the system,
    then after [addGatewaysFor] every gateway route of the family
    that the interface's table held for the interface has a
    counterpart in the main table: same destination, the interface's
    metric, leaving through the interface by a gateway.  Routes
    outside the main table and policy rules are what they were.  If
    the interface is unknown it returns the lookup error and changes
    nothing. *)
Theorem X8_addGatewaysFor_promotes_every_gateway :
  forall (InterfaceByName : string -> result Z)
         (ifi : Interface.t) (family : Z) (s : Server),
    let s' := snd (addGatewaysFor InterfaceByName ifi family s) in
    match InterfaceByName (Interface.Name ifi) with
    | Ok ifIndex =>
        (forall r, In r (routes (nlconn s)) ->
                   is_gateway_of (Interface.Table ifi) family ifIndex r = true ->
                   exists r',
                     In r' (routes (nlconn s'))
                     /\ destination r' = destination r
                     /\ RouteAttributes.Table (RouteMessage.Attributes r')
                        = unix.RT_TABLE_MAIN
                     /\ RouteAttributes.Priority (RouteMessage.Attributes r')
                        = Interface.Metric ifi
                     /\ is_gateway_of unix.RT_TABLE_MAIN family ifIndex r' = true)
        /\ List.filter private (routes (nlconn s'))
           = List.filter private (routes (nlconn s))
        /\ rules (nlconn s') = rules (nlconn s)
    | Err e => addGatewaysFor InterfaceByName ifi family s = (Err e, s)
    end.
Proof.
  intros InterfaceByName ifi family s s'. subst s'. unfold addGatewaysFor, Route_List.
  destruct (InterfaceByName (Interface.Name ifi)) as [ifIndex|e]; [|reflexivity].
  cbn [snd].
  destruct (promote_all (Interface.Table ifi) (Interface.Metric ifi) family ifIndex
              (routes (nlconn s)) s) as (Hall & Hpriv & Hrules & _).
  split; [|split; assumption].
  intros r Hin Hg. destruct (Hall r Hin Hg) as (r' & Hin' & Hk & Hg').
  exists r'. split; [exact Hin'|].
  assert (Hd : fst (fst (route_key r')) = destination r) by (rewrite Hk; reflexivity).
  assert (Ht : snd (fst (route_key r')) = unix.RT_TABLE_MAIN)
    by (rewrite Hk; reflexivity).
  assert (Hp : snd (route_key r') = Interface.Metric ifi) by (rewrite Hk; reflexivity).
  auto.
Qed.

Section Handlers.

Variable CombinedOutput : Cmd -> string * option error.
Variable InterfaceByName : string -> result Z.

(** What no pathway changes: routes outside the main table, policy
    rules, the prober registry. *)
Local Abbreviation untouched s s' :=
  (List.filter private (routes (nlconn s')) = List.filter private (routes (nlconn s))
   /\ rules (nlconn s') = rules (nlconn s)
   /\ icmpMonitors s' = icmpMonitors s).

Lemma execScript_untouched event family ifi s :
  nlconn (snd (execScript CombinedOutput event family ifi s)) = nlconn s
  /\ icmpMonitors (snd (execScript CombinedOutput event family ifi s))
     = icmpMonitors s.
Proof.
  unfold execScript. destruct (execScript_cmd event family ifi); split; reflexivity.
Qed.

Lemma down_pathway_untouched ifi family s :
  untouched s (down_pathway CombinedOutput InterfaceByName ifi family s).
Proof.
  unfold down_pathway.
  destruct (execScript_untouched "DOWN" family ifi s) as [Hn Hm].
  destruct (execScript CombinedOutput "DOWN" family ifi s) as [[out err] s1].
  cbn [snd] in Hn, Hm.
  set (s2 := match err with Some e => _ | None => s1 end).
  set (s3 := if (0 <? String.length out)%nat then _ else s2).
  assert (H3 : nlconn s3 = nlconn s /\ icmpMonitors s3 = icmpMonitors s).
  { subst s3 s2. destruct (0 <? String.length out)%nat, err; cbn; auto. }
  destruct H3 as [H3n H3m]. rewrite <- H3n, <- H3m.
  unfold deleteGatewaysFor, Route_List.
  destruct (InterfaceByName (Interface.Name ifi)) as [ifIndex|]; cbn [snd]; [|auto].
  destruct (demote_all family ifIndex (routes (nlconn s3)) s3)
    as (_ & _ & _ & Hp & Hr & _ & Hmon).
  auto.
Qed.

Lemma up_pathway_untouched ifi family s :
  untouched s (up_pathway CombinedOutput InterfaceByName ifi family s).
Proof.
  unfold up_pathway.
  destruct (execScript_untouched "UP" family ifi s) as [Hn Hm].
  destruct (execScript CombinedOutput "UP" family ifi s) as [[out err] s1].
  cbn [snd] in Hn, Hm.
  set (s2 := match err with Some e => _ | None => s1 end).
  set (s3 := if (0 <? String.length out)%nat then _ else s2).
  assert (H3 : nlconn s3 = nlconn s /\ icmpMonitors s3 = icmpMonitors s).
  { subst s3 s2. destruct (0 <? String.length out)%nat, err; cbn; auto. }
  destruct H3 as [H3n H3m]. rewrite <- H3n, <- H3m.
  unfold addGatewaysFor, Route_List.
  destruct (InterfaceByName (Interface.Name ifi)) as [ifIndex|]; cbn [snd]; [|auto].
  destruct (promote_all (Interface.Table ifi) (Interface.Metric ifi) family ifIndex
              (routes (nlconn s3)) s3) as (_ & Hp & Hr & Hmon).
  auto.
Qed.

Lemma nextHopFail_untouched ifi family linkDown s :
  untouched s (snd (nextHopFail CombinedOutput InterfaceByName ifi family linkDown s)).
Proof.
  unfold nextHopFail.
  destruct (if linkDown then (LinkDown ifi, false) else HostDown family ifi) as [i b].
  destruct (linkDown || b); cbn [snd]; [apply down_pathway_untouched|auto].
Qed.

Lemma nextHopAvailable_untouched ifi family s :
  untouched s (snd (nextHopAvailable CombinedOutput InterfaceByName ifi family s)).
Proof.
  unfold nextHopAvailable. destruct (HostUp family ifi) as [i b].
  destruct b; cbn [snd]; [apply up_pathway_untouched|auto].
Qed.

End Handlers.

(** X9: host events stay inside the main table.  Whatever verdicts
    arrive from whatever probers, the routes outside the main table
    (the private tables included), the policy rules and the prober
    registry are afterwards what they were before. *)
Theorem X9_host_events_touch_only_the_main_table :
  forall (CombinedOutput : Cmd -> string * option error)
         (InterfaceByName : string -> result Z)
         (events : list (nat * icmp.callback)) (ps : list prober)
         (ifi : Interface.t) (s : Server),
    let s' := snd (deliver CombinedOutput InterfaceByName events ps ifi s) in
    List.filter private (routes (nlconn s')) = List.filter private (routes (nlconn s))
    /\ rules (nlconn s') = rules (nlconn s)
    /\ icmpMonitors s' = icmpMonitors s.
Proof.
  intros CombinedOutput InterfaceByName events.
  induction events as [|[k cb] rest IH]; intros ps ifi s; cbn zeta; cbn [deliver].
  - auto.
  - destruct (ps !! k) as [p|]; [|apply IH].
    assert (Hv : let s1 := snd (verdict CombinedOutput InterfaceByName cb p ifi s) in
                 List.filter private (routes (nlconn s1))
                 = List.filter private (routes (nlconn s))
                 /\ rules (nlconn s1) = rules (nlconn s)
                 /\ icmpMonitors s1 = icmpMonitors s).
    { unfold verdict, monitor_Down, monitor_Up. destruct cb, (isUp p); cbn; auto.
      - pose proof (nextHopFail_untouched CombinedOutput InterfaceByName ifi
                      (Host.Family (prober_host p)) false s) as H.
        destruct (nextHopFail _ _ ifi _ false s). exact H.
      - pose proof (nextHopAvailable_untouched CombinedOutput InterfaceByName ifi
                      (Host.Family (prober_host p)) s) as H.
        destruct (nextHopAvailable _ _ ifi _ s). exact H. }
    destruct (verdict _ _ cb p ifi s) as [[p' ifi'] s1]. cbn in Hv.
    destruct Hv as (V1 & V2 & V3).
    specialize (IH (<[k := p']> ps) ifi' s1). cbn zeta in IH.
    destruct IH as (I1 & I2 & I3).
    rewrite I1, I2, I3. auto.
Qed.

(** ** Policy rules over a link cycle *)

Lemma same_rule_eq a b : same_rule a b = true <-> a = b.
Proof.
  unfold same_rule. rewrite bool_decide_eq_true. split; [|intros ->; reflexivity].
  destruct a as [fa sa da aa [asrc adst at_ ap]], b as [fb sb db ab [bsrc bdst bt bp]].
  cbn. intros H. injection H as -> -> -> -> -> -> -> ->. reflexivity.
Qed.

Lemma Rule_Delete_rules m c :
  rules (snd (Rule_Delete m c))
  = List.filter (fun r => negb (same_rule m r)) (rules c)
  /\ routes (snd (Rule_Delete m c)) = routes c.
Proof.
  unfold Rule_Delete.
  destruct (existsb (same_rule m) (rules c)) eqn:E; cbn; split; try reflexivity.
  symmetry. clear -E.
  induction (rules c) as [|r rs IH]; cbn in *; [reflexivity|].
  apply orb_false_iff in E as [Er Ers]. rewrite Er. cbn. f_equal. apply IH, Ers.
Qed.

Lemma filter_filter_and {A : Type} (f g : A -> bool) (l : list A) :
  List.filter f (List.filter g l) = List.filter (fun x => g x && f x) l.
Proof.
  induction l as [|x l IH]; cbn; [reflexivity|].
  destruct (g x); cbn; [destruct (f x); rewrite IH; reflexivity|exact IH].
Qed.

Section RuleCleanup.

Variable table : Z.

Local Abbreviation of_table :=
  (fun m : RuleMessage.t =>
     RuleAttributes.Table (RuleMessage.Attributes m) =? table).

Local Abbreviation drop_rule :=
  (fun (s : Server) (msg : RuleMessage.t) =>
     if RuleAttributes.Table (RuleMessage.Attributes msg) =? table then
       match Rule_Delete msg (nlconn s) with
       | (Err e, c) => record (LoggedRuleError table e) (with_nlconn c s)
       | (Ok _, c) => with_nlconn c s
       end
     else s).

Lemma drop_rule_step s msg :
  rules (nlconn (drop_rule s msg))
  = List.filter (fun r => negb (of_table msg && same_rule msg r)) (rules (nlconn s))
  /\ routes (nlconn (drop_rule s msg)) = routes (nlconn s)
  /\ icmpMonitors (drop_rule s msg) = icmpMonitors s.
Proof.
  cbn beta.
  destruct (RuleAttributes.Table (RuleMessage.Attributes msg) =? table) eqn:Ht;
    cbn [andb].
  - destruct (Rule_Delete_rules msg (nlconn s)) as [Hd Hdr].
    destruct (Rule_Delete msg (nlconn s)) as [[|] c]; cbn in *; auto.
  - split; [|auto]. cbn [negb].
    induction (rules (nlconn s)) as [|r rs IHr]; cbn; congruence.
Qed.

Lemma drop_rules msgs : forall s,
  let s' := fold_left drop_rule msgs s in
  rules (nlconn s')
  = List.filter
      (fun r => negb (existsb (fun m => of_table m && same_rule m r) msgs))
      (rules (nlconn s))
  /\ routes (nlconn s') = routes (nlconn s)
  /\ icmpMonitors s' = icmpMonitors s.
Proof.
  induction msgs as [|msg rest IH]; intros s; cbn zeta; cbn [fold_left existsb].
  - split; [|auto]. cbn. induction (rules (nlconn s)) as [|r rs IHr]; cbn; congruence.
  - specialize (IH (drop_rule s msg)). cbn zeta in IH.
    destruct IH as (Hr & Hro & Hm). rewrite Hr, Hro, Hm.
    destruct (drop_rule_step s msg) as (-> & -> & ->).
    split; [|auto]. rewrite filter_filter_and.
    apply List.filter_ext. intros r. cbn. rewrite negb_orb. reflexivity.
Qed.

(** Deleting, for each listed rule of the table, the rules equal to
    it, removes the rules of the table and no other. *)
Lemma drop_listed_rules s :
  rules (nlconn (fold_left drop_rule (rules (nlconn s)) s))
  = List.filter (fun r => negb (of_table r)) (rules (nlconn s)).
Proof.
  destruct (drop_rules (rules (nlconn s)) s) as [-> _].
  apply List.filter_ext_in. intros r Hin. f_equal.
  destruct (of_table r) eqn:Ht.
  - apply existsb_exists. exists r. split; [exact Hin|].
    rewrite Ht. apply same_rule_eq. reflexivity.
  - apply not_true_is_false. intros H. apply existsb_exists in H as (m & _ & Hm).
    apply andb_true_iff in Hm as [Hmt Hsame]. apply same_rule_eq in Hsame. subst m.
    rewrite Ht in Hmt. discriminate Hmt.
Qed.

(** The deletions only add to the journal. *)
Lemma drop_rules_journal msgs : forall s,
  exists log, journal (fold_left drop_rule msgs s) = journal s ++ log.
Proof.
  induction msgs as [|msg rest IH]; intros s; cbn [fold_left].
  - exists []. symmetry. apply app_nil_r.
  - destruct (IH (drop_rule s msg)) as [log Hlog]. rewrite Hlog. cbn beta.
    destruct (RuleAttributes.Table (RuleMessage.Attributes msg) =? table).
    + destruct (Rule_Delete msg (nlconn s)) as [[u|e] c].
      * exists log. reflexivity.
      * exists (LoggedRuleError table e :: log).
        rewrite journal_record, <- app_assoc. reflexivity.
    + exists log. reflexivity.
Qed.

End RuleCleanup.

Section LinkDown.

Variable CombinedOutput : Cmd -> string * option error.
Variable InterfaceByName : string -> result Z.

Lemma nextHopFailLink_untouched ifi s :
  let s' := snd (nextHopFailLink CombinedOutput InterfaceByName ifi s) in
  List.filter private (routes (nlconn s')) = List.filter private (routes (nlconn s))
  /\ rules (nlconn s') = rules (nlconn s)
  /\ icmpMonitors s' = icmpMonitors s.
Proof.
  unfold nextHopFailLink.
  pose proof (nextHopFail_untouched CombinedOutput InterfaceByName ifi
                unix.AF_INET true s) as H1.
  destruct (nextHopFail _ _ ifi unix.AF_INET true s) as [ifi1 s1]. cbn [snd] in H1.
  pose proof (nextHopFail_untouched CombinedOutput InterfaceByName ifi1
                unix.AF_INET6 true s1) as H2.
  destruct (nextHopFail _ _ ifi1 unix.AF_INET6 true s1) as [ifi2 s2].
  cbn [snd] in *. destruct H1 as (A1 & A2 & A3), H2 as (B1 & B2 & B3).
  rewrite B1, B2, B3. auto.
Qed.

(** What the down pathway does: it runs the down hook, if there is
    one, and leaves no gateway route of the family through the
    interface in the main table. *)
Lemma down_pathway_spec ifi family s :
  let s' := down_pathway CombinedOutput InterfaceByName ifi family s in
  (forall r, In r (routes (nlconn s')) -> In r (routes (nlconn s)))
  /\ match InterfaceByName (Interface.Name ifi) with
     | Ok ifIndex =>
         Forall (fun r => is_gateway_of unix.RT_TABLE_MAIN family ifIndex r = false)
                (routes (nlconn s'))
     | Err _ => nlconn s' = nlconn s
     end
  /\ match execScript_cmd "DOWN" family ifi with
     | Some c => exists log, journal s' = journal s ++ Executed c :: log
     | None => journal s' = journal s
     end.
Proof.
  cbn zeta.
  assert (Heq : exists s3,
             down_pathway CombinedOutput InterfaceByName ifi family s
             = snd (deleteGatewaysFor InterfaceByName ifi family s3)
             /\ nlconn s3 = nlconn s
             /\ match execScript_cmd "DOWN" family ifi with
                | Some c => exists log, journal s3 = journal s ++ Executed c :: log
                | None => journal s3 = journal s
                end).
  { unfold down_pathway, execScript.
    destruct (execScript_cmd "DOWN" family ifi) as [c|].
    - destruct (CombinedOutput c) as [out [e|]];
        destruct (0 <? String.length out)%nat; eexists;
        (split; [reflexivity|]); (split; [reflexivity|]);
        rewrite ?journal_record, <- ?app_assoc; eexists; cbn [app]; reflexivity.
    - eexists. split; [reflexivity|]. split; reflexivity. }
  destruct Heq as (s3 & -> & H3n & H3j).
  assert (Hgoal :
            (forall r, In r (routes (nlconn (snd (deleteGatewaysFor InterfaceByName
                                                     ifi family s3)))) ->
                       In r (routes (nlconn s3)))
            /\ match InterfaceByName (Interface.Name ifi) with
               | Ok ifIndex =>
                   Forall (fun r => is_gateway_of unix.RT_TABLE_MAIN family ifIndex r
                                    = false)
                          (routes (nlconn (snd (deleteGatewaysFor InterfaceByName
                                                  ifi family s3))))
               | Err _ => nlconn (snd (deleteGatewaysFor InterfaceByName ifi family s3))
                          = nlconn s3
               end
            /\ journal (snd (deleteGatewaysFor InterfaceByName ifi family s3))
               = journal s3).
  { unfold deleteGatewaysFor, Route_List.
    destruct (InterfaceByName (Interface.Name ifi)) as [ifIndex|e]; cbn [snd];
      [|auto].
    destruct (demote_all family ifIndex (routes (nlconn s3)) s3)
      as (Hsub & Hgone & _ & _ & _ & Hj & _).
    split; [exact Hsub|]. split; [|exact Hj].
    apply List.Forall_forall. intros r Hin.
    destruct (is_gateway_of unix.RT_TABLE_MAIN family ifIndex r) eqn:Hg; [|reflexivity].
    exfalso. exact (Hgone r (Hsub r Hin) Hg Hin). }
  rewrite H3n in Hgoal. destruct Hgoal as (Hsub & Hgw & Hj).
  rewrite Hj. split; [exact Hsub|]. split; [exact Hgw|exact H3j].
Qed.

(** [nextHopFailLink] on any interface, whatever its counters: both
    counters are 0 afterwards, the down hook has run for IPv4 and
    then for IPv6, and the main table holds no gateway route of
    either family through the interface. *)
Lemma nextHopFailLink_spec ifi s :
  let ifi' := fst (nextHopFailLink CombinedOutput InterfaceByName ifi s) in
  let s' := snd (nextHopFailLink CombinedOutput InterfaceByName ifi s) in
  ifi' = LinkDown ifi
  /\ (forall r, In r (routes (nlconn s')) -> In r (routes (nlconn s)))
  /\ match InterfaceByName (Interface.Name ifi) with
     | Ok ifIndex =>
         Forall (fun r =>
                   is_gateway_of unix.RT_TABLE_MAIN unix.AF_INET ifIndex r = false
                   /\ is_gateway_of unix.RT_TABLE_MAIN unix.AF_INET6 ifIndex r = false)
                (routes (nlconn s'))
     | Err _ => nlconn s' = nlconn s
     end
  /\ (Interface.DownAction ifi = "" -> journal s' = journal s)
  /\ (Interface.DownAction ifi <> "" ->
      exists c4 c6 log4 log6,
        execScript_cmd "DOWN" unix.AF_INET (LinkDown ifi) = Some c4
        /\ execScript_cmd "DOWN" unix.AF_INET6 (LinkDown ifi) = Some c6
        /\ In "EVENT=DOWN" (Env c4) /\ In "FAMILY=IPv4" (Env c4)
        /\ In "EVENT=DOWN" (Env c6) /\ In "FAMILY=IPv6" (Env c6)
        /\ journal s' = journal s ++ Executed c4 :: log4 ++ Executed c6 :: log6).
Proof.
  unfold nextHopFailLink, nextHopFail. cbn [orb fst snd].
  change (LinkDown (LinkDown ifi)) with (LinkDown ifi).
  set (s1 := down_pathway CombinedOutput InterfaceByName (LinkDown ifi)
               unix.AF_INET s).
  destruct (down_pathway_spec (LinkDown ifi) unix.AF_INET s) as (Hsub4 & Hgw4 & Hj4).
  destruct (down_pathway_spec (LinkDown ifi) unix.AF_INET6 s1) as (Hsub6 & Hgw6 & Hj6).
  fold s1 in Hsub4, Hgw4, Hj4.
  change (Interface.Name (LinkDown ifi)) with (Interface.Name ifi) in Hgw4, Hgw6.
  set (s2 := down_pathway CombinedOutput InterfaceByName (LinkDown ifi)
               unix.AF_INET6 s1) in *.
  split; [reflexivity|]. split; [auto|]. split; [|split].
  - destruct (InterfaceByName (Interface.Name ifi)) as [ifIndex|e].
    + apply List.Forall_forall. intros r Hin. split.
      * rewrite List.Forall_forall in Hgw4. apply Hgw4, Hsub6, Hin.
      * rewrite List.Forall_forall in Hgw6. apply Hgw6, Hin.
    + congruence.
  - intros Hempty. unfold execScript_cmd in Hj4, Hj6.
    change (Interface.DownAction (LinkDown ifi)) with (Interface.DownAction ifi)
      in Hj4, Hj6.
    rewrite Hempty in Hj4, Hj6. cbn in Hj4, Hj6. congruence.
  - intros Hscript. unfold execScript_cmd in *.
    change (Interface.DownAction (LinkDown ifi)) with (Interface.DownAction ifi) in *.
    cbn [String.eqb Ascii.eqb Bool.eqb] in *.
    destruct (String.eqb (Interface.DownAction ifi) "") eqn:He.
    + apply String.eqb_eq in He. contradiction.
    + destruct Hj4 as [log4 Hj4], Hj6 as [log6 Hj6].
      do 2 eexists. exists log4, log6.
      split; [reflexivity|]. split; [reflexivity|].
      cbn [Env app In fam Z.eqb unix.AF_INET unix.AF_INET6 Pos.eqb].
      split; [left; reflexivity|]. split; [right; left; reflexivity|].
      split; [left; reflexivity|]. split; [right; left; reflexivity|].
      rewrite Hj6, Hj4, <- app_assoc. reflexivity.
Qed.

(** The two ways [linkDown] ends: it panics when a table is
    configured and the dial fails; otherwise it reaches
    [nextHopFailLink] with the probers of the interface stopped and
    the rules of the table removed. *)
Lemma linkDown_cases Dial ifi s :
  match linkDown CombinedOutput InterfaceByName Dial ifi s with
  | Panics => Interface.Table ifi <> 0 /\ Dial <> None
  | Returns r =>
      (Interface.Table ifi = 0 \/ Dial = None)
      /\ exists s0,
          r = nextHopFailLink CombinedOutput InterfaceByName ifi s0
          /\ routes (nlconn s0) = routes (nlconn s)
          /\ rules (nlconn s0)
             = (if Interface.Table ifi =? 0 then rules (nlconn s)
                else List.filter
                       (fun r => negb (RuleAttributes.Table (RuleMessage.Attributes r)
                                       =? Interface.Table ifi))
                       (rules (nlconn s)))
          /\ icmpMonitors s0 = alter (fmap Stop) (Interface.Name ifi) (icmpMonitors s)
          /\ exists before, journal s0 = journal s ++ before
  end.
Proof.
  unfold linkDown.
  destruct (Z.eqb_spec (Interface.Table ifi) 0) as [Hz|Hnz]; cbn [negb].
  - split; [left; exact Hz|]. exists (stopMonitors ifi s).
    repeat split. exists []. symmetry. apply app_nil_r.
  - destruct Dial as [e|]; [split; [exact Hnz|discriminate]|].
    split; [right; reflexivity|]. unfold Rule_List.
    eexists. split; [reflexivity|].
    destruct (drop_rules (Interface.Table ifi) (rules (nlconn (stopMonitors ifi s)))
                (stopMonitors ifi s)) as (_ & Hro & Hm).
    cbn zeta in Hro, Hm.
    split; [exact Hro|]. split; [|split; [exact Hm|]].
    + exact (drop_listed_rules (Interface.Table ifi) (stopMonitors ifi s)).
    + exact (drop_rules_journal (Interface.Table ifi)
               (rules (nlconn (stopMonitors ifi s))) (stopMonitors ifi s)).
Qed.

End LinkDown.

(** C6: link-down stores 0 in both counters and runs the down
    pathway for both families, whatever the counters were.
    [nextHopFailLink], on any interface and server: both counters
    are 0 afterwards; a non-empty down action has been executed
    with EVENT=DOWN first for FAMILY=IPv4, then for FAMILY=IPv6, and
    with an empty one nothing is logged; if the interface is known
    to the system no gateway route of either family through it is
    left in the main table.  [linkDown] ends in [nextHopFailLink],
    so that all of this holds when it returns, and the link-up that
    follows leaves the counters at 0.  It returns unless a table is
    configured and rtnetlink cannot be dialled, in which case it
    panics. *)
Theorem C6_link_down_resets_and_fails_both_families :
  forall (CombinedOutput : Cmd -> string * option error)
         (InterfaceByName : string -> result Z) (Dial : option error)
         (ifi : Interface.t) (s : Server),
    (let ifi' := fst (nextHopFailLink CombinedOutput InterfaceByName ifi s) in
     let s' := snd (nextHopFailLink CombinedOutput InterfaceByName ifi s) in
     ifi' = LinkDown ifi
     /\ Up unix.AF_INET ifi' = 0 /\ Up unix.AF_INET6 ifi' = 0
     /\ (Interface.DownAction ifi = "" -> journal s' = journal s)
     /\ (Interface.DownAction ifi <> "" ->
         exists c4 c6 log4 log6,
           execScript_cmd "DOWN" unix.AF_INET ifi' = Some c4
           /\ execScript_cmd "DOWN" unix.AF_INET6 ifi' = Some c6
           /\ In "EVENT=DOWN" (Env c4) /\ In "FAMILY=IPv4" (Env c4)
           /\ In "EVENT=DOWN" (Env c6) /\ In "FAMILY=IPv6" (Env c6)
           /\ journal s' = journal s ++ Executed c4 :: log4 ++ Executed c6 :: log6)
     /\ match InterfaceByName (Interface.Name ifi) with
        | Ok ifIndex =>
            Forall (fun r =>
                      is_gateway_of unix.RT_TABLE_MAIN unix.AF_INET ifIndex r = false
                      /\ is_gateway_of unix.RT_TABLE_MAIN unix.AF_INET6 ifIndex r
                         = false)
                   (routes (nlconn s'))
        | Err _ => nlconn s' = nlconn s
        end)
    /\ match linkDown CombinedOutput InterfaceByName Dial ifi s with
       | Panics => Interface.Table ifi <> 0 /\ Dial <> None
       | Returns (ifi1, s1) =>
           (Interface.Table ifi = 0 \/ Dial = None)
           /\ ifi1 = LinkDown ifi
           /\ Up unix.AF_INET ifi1 = 0 /\ Up unix.AF_INET6 ifi1 = 0
           /\ (let ifi2 := fst (fst (linkUp ifi1 s1)) in
               Up unix.AF_INET ifi2 = 0 /\ Up unix.AF_INET6 ifi2 = 0)
           /\ (Interface.DownAction ifi <> "" ->
               exists c4 c6 before log4 log6,
                 execScript_cmd "DOWN" unix.AF_INET ifi1 = Some c4
                 /\ execScript_cmd "DOWN" unix.AF_INET6 ifi1 = Some c6
                 /\ In "FAMILY=IPv4" (Env c4) /\ In "FAMILY=IPv6" (Env c6)
                 /\ journal s1
                    = journal s ++ before
                      ++ Executed c4 :: log4 ++ Executed c6 :: log6)
           /\ match InterfaceByName (Interface.Name ifi) with
              | Ok ifIndex =>
                  Forall (fun r =>
                            is_gateway_of unix.RT_TABLE_MAIN unix.AF_INET ifIndex r
                            = false
                            /\ is_gateway_of unix.RT_TABLE_MAIN unix.AF_INET6 ifIndex r
                               = false)
                         (routes (nlconn s1))
              | Err _ => routes (nlconn s1) = routes (nlconn s)
              end
       end.
Proof.
  intros CombinedOutput InterfaceByName Dial ifi s. split.
  - destruct (nextHopFailLink_spec CombinedOutput InterfaceByName ifi s)
      as (Hifi & _ & Hgw & Hquiet & Hhook).
    cbn zeta. rewrite Hifi.
    split; [reflexivity|]. split; [reflexivity|]. split; [reflexivity|].
    split; [exact Hquiet|]. split; [exact Hhook|exact Hgw].
  - pose proof (linkDown_cases CombinedOutput InterfaceByName Dial ifi s) as Hcases.
    destruct (linkDown CombinedOutput InterfaceByName Dial ifi s) as [[ifi1 s1]|];
      [|exact Hcases].
    destruct Hcases as (Hwhen & s0 & Hr & Hro & _ & _ & before & Hj).
    destruct (nextHopFailLink_spec CombinedOutput InterfaceByName ifi s0)
      as (Hifi & _ & Hgw & _ & Hhook).
    rewrite <- Hr in Hifi, Hgw, Hhook. cbn [fst snd] in Hifi, Hgw, Hhook.
    subst ifi1.
    split; [exact Hwhen|]. split; [reflexivity|].
    split; [reflexivity|]. split; [reflexivity|]. split; [|split].
    + unfold linkUp. destruct (detect _ false false). cbn [fst]. split; reflexivity.
    + intros Hscript.
      destruct (Hhook Hscript) as (c4 & c6 & log4 & log6 & H4 & H6 & _ & F4 & _ & F6 & Hlog).
      exists c4, c6, before, log4, log6.
      repeat (split; [assumption|]). rewrite Hlog, Hj, <- app_assoc. reflexivity.
    + destruct (InterfaceByName (Interface.Name ifi)); [exact Hgw|].
      rewrite Hgw. exact Hro.
Qed.

(** The sample interface, whose down action is not empty. *)
Lemma C6_link_down_witness :
  let ifi := sample.eth0 [sample.cloudflare4; sample.cloudflare6] 1 1 1 in
  exists c4 c6 log4 log6,
    execScript_cmd "DOWN" unix.AF_INET (LinkDown ifi) = Some c4
    /\ execScript_cmd "DOWN" unix.AF_INET6 (LinkDown ifi) = Some c6
    /\ journal (snd (nextHopFailLink sample.quiet (fun _ => Ok 3) ifi sample.idle))
       = journal sample.idle ++ Executed c4 :: log4 ++ Executed c6 :: log6.
Proof.
  intros ifi.
  destruct (C6_link_down_resets_and_fails_both_families
              sample.quiet (fun _ => Ok 3) None ifi sample.idle)
    as ((_ & _ & _ & _ & Hhook & _) & _).
  destruct Hhook as (c4 & c6 & log4 & log6 & H4 & H6 & _ & _ & _ & _ & Hj).
  - vm_compute. discriminate.
  - exists c4, c6, log4, log6. repeat split; assumption.
Defined.

(** X10: link-down cleans up by table and by interface.  It panics
    exactly when a table is configured and rtnetlink cannot be
    dialled.  Otherwise it returns: with a table configured it has
    removed from the kernel every policy rule of that table, whoever
    installed it, and no rule of another table; without a table it
    has removed none.  Every prober registered for the interface is
    stopped, the probers of other interfaces are left as they are,
    and no route outside the main table has changed. *)
Theorem X10_linkDown_removes_the_rules_of_its_table :
  forall (CombinedOutput : Cmd -> string * option error)
         (InterfaceByName : string -> result Z) (Dial : option error)
         (ifi : Interface.t) (s : Server),
    match linkDown CombinedOutput InterfaceByName Dial ifi s with
    | Panics => Interface.Table ifi <> 0 /\ Dial <> None
    | Returns (_, s') =>
        (Interface.Table ifi = 0 \/ Dial = None)
        /\ rules (nlconn s')
           = (if Interface.Table ifi =? 0 then rules (nlconn s)
              else List.filter
                     (fun r => negb (RuleAttributes.Table (RuleMessage.Attributes r)
                                     =? Interface.Table ifi))
                     (rules (nlconn s)))
        /\ (forall registered host m,
               icmpMonitors s' !! Interface.Name ifi = Some registered ->
               registered !! host = Some m -> cancelled m = true)
        /\ (forall name, name <> Interface.Name ifi ->
                         icmpMonitors s' !! name = icmpMonitors s !! name)
        /\ List.filter private (routes (nlconn s'))
           = List.filter private (routes (nlconn s))
    end.
Proof.
  intros CombinedOutput InterfaceByName Dial ifi s.
  pose proof (linkDown_cases CombinedOutput InterfaceByName Dial ifi s) as Hcases.
  destruct (linkDown CombinedOutput InterfaceByName Dial ifi s) as [[ifi1 s']|];
    [|exact Hcases].
  destruct Hcases as (Hwhen & s0 & Hr & Hro & Hru & Hmon & _).
  destruct (nextHopFailLink_untouched CombinedOutput InterfaceByName ifi s0)
    as (Hp & Hrules & Hreg).
  rewrite <- Hr in Hp, Hrules, Hreg. cbn [snd] in Hp, Hrules, Hreg.
  split; [exact Hwhen|]. rewrite Hrules, Hreg, Hp, Hmon, Hro.
  split; [exact Hru|]. split; [|split; [|reflexivity]].
  - intros registered host m Hl Hm.
    rewrite lookup_alter_eq in Hl.
    destruct (icmpMonitors s !! Interface.Name ifi) as [old|]; [|discriminate Hl].
    cbn in Hl. injection Hl as <-.
    rewrite lookup_fmap in Hm.
    destruct (old !! host) as [m0|]; [|discriminate Hm].
    cbn in Hm. injection Hm as <-. reflexivity.
  - intros name Hne. apply lookup_alter_ne. auto.
Qed.

(** X11: a rule lives from [ruleAdd] to the next link-down.  When
    [ruleAdd] succeeds the kernel holds one more rule, the message
    with the given table and priority, and nothing else changed;
    asking for the same rule again fails with EEXIST and changes
    nothing; and the link-down of an interface with that table, if
    the table is not 0, removes the rule when it can dial rtnetlink
    and panics when it cannot. *)
Theorem X11_ruleAdd_until_linkDown :
  forall (CombinedOutput : Cmd -> string * option error)
         (InterfaceByName : string -> result Z) (Dial : option error)
         (from to : net.IPNet) (table priority family : Z) (s s1 : Server),
    ruleAdd (Some from) (Some to) table priority family s = Returns (Ok tt, s1) ->
    let msg := ruleAdd_msg from to table priority family in
    rules (nlconn s1) = rules (nlconn s) ++ [msg]
    /\ RuleAttributes.Table (RuleMessage.Attributes msg) = table
    /\ RuleAttributes.Priority (RuleMessage.Attributes msg) = priority
    /\ routes (nlconn s1) = routes (nlconn s)
    /\ icmpMonitors s1 = icmpMonitors s
    /\ ruleAdd (Some from) (Some to) table priority family s1
       = Returns (Err EEXIST, s1)
    /\ (forall ifi : Interface.t,
           Interface.Table ifi = table -> table <> 0 ->
           match linkDown CombinedOutput InterfaceByName Dial ifi s1 with
           | Panics => Dial <> None
           | Returns (_, s2) => Dial = None /\ ~ In msg (rules (nlconn s2))
           end).
Proof.
  intros CombinedOutput InterfaceByName Dial from to table priority family s s1 H msg.
  unfold ruleAdd in H. fold msg in H. unfold Rule_Add in H.
  destruct (existsb (same_rule msg) (rules (nlconn s))) eqn:E; [discriminate H|].
  injection H as <-. cbn [nlconn with_nlconn rules with_rules routes icmpMonitors].
  repeat split.
  - unfold ruleAdd. fold msg. unfold Rule_Add.
    cbn [nlconn with_nlconn rules with_rules].
    rewrite existsb_app. cbn [existsb].
    assert (Hself : same_rule msg msg = true) by (apply same_rule_eq; reflexivity).
    rewrite Hself, orb_true_r.
    destruct s as [[ro ru] mon j]. reflexivity.
  - intros ifi Ht Hnz.
    match goal with
    | |- match linkDown _ _ _ _ ?s1 with _ => _ end =>
        pose proof (linkDown_cases CombinedOutput InterfaceByName Dial ifi s1) as Hcases;
        destruct (linkDown CombinedOutput InterfaceByName Dial ifi s1) as [[ifi2 s2]|]
    end; [|tauto].
    destruct Hcases as (Hwhen & s0 & Hr & _ & Hru & _).
    destruct (nextHopFailLink_untouched CombinedOutput InterfaceByName ifi s0)
      as (_ & Hrules & _).
    rewrite <- Hr in Hrules. cbn [snd] in Hrules.
    split; [destruct Hwhen; congruence|].
    rewrite Hrules, Hru.
    destruct (Z.eqb_spec (Interface.Table ifi) 0) as [Hz|_]; [congruence|].
    intros Hin. apply filter_In in Hin as [_ Hin].
    rewrite Ht in Hin. cbn in Hin. rewrite Z.eqb_refl in Hin. discriminate Hin.
Qed.

Lemma X11_ruleAdd_witness :
  exists s1,
    ruleAdd (Some sample.src6) (Some sample.dst6) 2 1 unix.AF_INET6 sample.idle
    = Returns (Ok tt, s1)
    /\ ruleAdd (Some sample.src6) (Some sample.dst6) 2 1 unix.AF_INET6 s1
       = Returns (Err EEXIST, s1).
Proof.
  eexists. split; [reflexivity|].
  eapply (X11_ruleAdd_until_linkDown sample.quiet (fun _ => Ok 3) None
            sample.src6 sample.dst6 2 1 unix.AF_INET6 sample.idle).
  reflexivity.
Defined.

(** ** The two [ChangeMetric] helpers side by side *)

Lemma route_key_with_Priority p m :
  route_key (RouteMessage.with_Priority p m)
  = (destination m, RouteAttributes.Table (RouteMessage.Attributes m), p).
Proof. reflexivity. Qed.

Lemma existsb_filter_other (a b : RouteMessage.t) (l : list RouteMessage.t) :
  same_route a b = false ->
  existsb (same_route a) (List.filter (fun r => negb (same_route b r)) l)
  = existsb (same_route a) l.
Proof.
  intros Hab. induction l as [|r l IH]; cbn; [reflexivity|].
  destruct (same_route b r) eqn:Ebr; cbn.
  - rewrite IH.
    destruct (same_route a r) eqn:Ear; [|reflexivity].
    apply same_route_true in Ebr, Ear.
    assert (Hk : route_key a = route_key b) by congruence.
    unfold same_route in Hab. apply bool_decide_eq_false in Hab. contradiction.
  - rewrite IH. reflexivity.
Qed.

Lemma existsb_filter_self (a : RouteMessage.t) (l : list RouteMessage.t) :
  existsb (same_route a) (List.filter (fun r => negb (same_route a r)) l) = false.
Proof.
  induction l as [|r l IH]; cbn; [reflexivity|].
  destruct (same_route a r) eqn:E; cbn; [|rewrite E]; exact IH.
Qed.

(** X12: where both helpers succeed they agree.  If the table holds
    the route, the new metric differs from its metric and no route
    with the new metric is in the way, then delete-then-add and
    add-then-delete both return no error and end with the same
    table: the route is there under the new metric and not under the
    old one. *)
Theorem X12_ChangeMetric_helpers_agree :
  forall (conn : Conn) (msg : RouteMessage.t) (metric : Z),
    let old := RouteMessage.with_Flags 0 msg in
    let new := RouteMessage.with_Priority metric old in
    existsb (same_route old) (routes conn) = true ->
    existsb (same_route new) (routes conn) = false ->
    metric <> RouteAttributes.Priority (RouteMessage.Attributes msg) ->
    exists c1 c1' c2,
      routesync.metric_go.ChangeMetric conn msg metric = (Ok tt, [c1; c2])
      /\ routesync.metric_add_first.ChangeMetric conn msg metric = (Ok tt, [c1'; c2])
      /\ In new (routes c2)
      /\ existsb (same_route old) (routes c2) = false
      /\ rules c2 = rules conn.
Proof.
  intros conn msg metric old new Hold Hnew Hdiff.
  assert (Hon : same_route old new = false).
  { unfold same_route. apply bool_decide_eq_false. subst new.
    rewrite route_key_with_Priority. unfold route_key. cbn. congruence. }
  assert (Hno : same_route new old = false).
  { unfold same_route in *. apply bool_decide_eq_false.
    apply bool_decide_eq_false in Hon. congruence. }
  assert (Hback : RouteMessage.with_Priority
                    (RouteAttributes.Priority (RouteMessage.Attributes msg)) new
                  = old).
  { subst new old. destruct msg as [f dl t fl [d g o p ta]]. reflexivity. }
  unfold routesync.metric_go.ChangeMetric, routesync.metric_add_first.ChangeMetric.
  fold old. fold new. rewrite Hback.
  unfold Route_Delete at 1. rewrite Hold.
  unfold Route_Add at 1. cbn [routes with_routes].
  rewrite (existsb_filter_other new old _ Hno), Hnew.
  unfold Route_Add. rewrite Hnew.
  unfold Route_Delete. cbn [routes with_routes].
  rewrite existsb_app, Hold. cbn [orb].
  do 3 eexists. split; [reflexivity|]. split.
  { f_equal. f_equal. f_equal. unfold with_routes. cbn [routes rules]. f_equal.
    rewrite List.filter_app. cbn [List.filter]. rewrite Hon. reflexivity. }
  cbn [routes with_routes rules]. repeat split.
  - apply in_or_app. right. left. reflexivity.
  - rewrite existsb_app. cbn [existsb]. rewrite Hon. cbn.
    rewrite orb_false_r. apply existsb_filter_self.
Qed.

Lemma X12_ChangeMetric_witness :
  exists c1 c1' c2,
    routesync.metric_go.ChangeMetric sample.kernel sample.default_route 200
    = (Ok tt, [c1; c2])
    /\ routesync.metric_add_first.ChangeMetric sample.kernel sample.default_route 200
       = (Ok tt, [c1'; c2]).
Proof.
  destruct (X12_ChangeMetric_helpers_agree sample.kernel sample.default_route 200)
    as (c1 & c1' & c2 & H1 & H2 & _).
  - reflexivity.
  - reflexivity.
  - discriminate.
  - exists c1, c1', c2. split; assumption.
Defined.

(** X13: how the two helpers fail.  When a route with the new
    metric is already in the way, delete-then-add has deleted the
    route before the add fails: it returns the add error and the
    table no longer holds the route; add-then-delete returns the same
    error and leaves the table as it was.  When the table does not
    hold the route, delete-then-add returns the delete error and
    changes nothing; add-then-delete returns the delete error after
    it has added the route under the new metric. *)
Theorem X13_ChangeMetric_failures :
  forall (conn : Conn) (msg : RouteMessage.t) (metric : Z),
    let old := RouteMessage.with_Flags 0 msg in
    let new := RouteMessage.with_Priority metric old in
    metric <> RouteAttributes.Priority (RouteMessage.Attributes msg) ->
    (existsb (same_route old) (routes conn) = true ->
     existsb (same_route new) (routes conn) = true ->
     (exists c,
         routesync.metric_go.ChangeMetric conn msg metric
         = (Err (ErrChangeMetricAdd EEXIST), [c; c])
         /\ existsb (same_route old) (routes c) = false)
     /\ routesync.metric_add_first.ChangeMetric conn msg metric
        = (Err (ErrChangeMetricAdd EEXIST), [conn]))
    /\ (existsb (same_route old) (routes conn) = false ->
        routesync.metric_go.ChangeMetric conn msg metric
        = (Err (ErrChangeMetricDelete ESRCH), [conn])
        /\ (existsb (same_route new) (routes conn) = false ->
            exists c,
              routesync.metric_add_first.ChangeMetric conn msg metric
              = (Err (ErrChangeMetricDelete ESRCH), [c; c])
              /\ routes c = routes conn ++ [new])).
Proof.
  intros conn msg metric old new Hdiff.
  assert (Hon : same_route old new = false).
  { unfold same_route. apply bool_decide_eq_false. subst new.
    rewrite route_key_with_Priority. unfold route_key. cbn. congruence. }
  assert (Hno : same_route new old = false).
  { unfold same_route in *. apply bool_decide_eq_false.
    apply bool_decide_eq_false in Hon. congruence. }
  assert (Hback : RouteMessage.with_Priority
                    (RouteAttributes.Priority (RouteMessage.Attributes msg)) new
                  = old).
  { subst new old. destruct msg as [f dl t fl [d g o p ta]]. reflexivity. }
  unfold routesync.metric_go.ChangeMetric, routesync.metric_add_first.ChangeMetric.
  fold old. fold new. rewrite Hback.
  split.
  - intros Hold Hnew. split.
    + unfold Route_Delete. rewrite Hold.
      unfold Route_Add. cbn [routes with_routes].
      rewrite (existsb_filter_other new old _ Hno), Hnew.
      eexists. split; [reflexivity|]. cbn [routes with_routes].
      apply existsb_filter_self.
    + unfold Route_Add. rewrite Hnew. reflexivity.
  - intros Hold. split.
    + unfold Route_Delete. rewrite Hold. reflexivity.
    + intros Hnew. unfold Route_Add. rewrite Hnew.
      unfold Route_Delete. cbn [routes with_routes].
      rewrite existsb_app, Hold. cbn [existsb orb]. rewrite Hon. cbn [orb].
      eexists. split; reflexivity.
Qed.

Lemma X13_ChangeMetric_failures_witness :
  let conn := {| routes := [ sample.default_route;
                             RouteMessage.with_Priority 200 sample.default_route ];
                 rules := [] |} in
  exists c,
    routesync.metric_go.ChangeMetric conn sample.default_route 200
    = (Err (ErrChangeMetricAdd EEXIST), [c; c])
    /\ existsb (same_route (RouteMessage.with_Flags 0 sample.default_route))
               (routes c) = false.
Proof.
  apply (proj1 (proj1 (X13_ChangeMetric_failures
                         {| routes := [ sample.default_route;
                                        RouteMessage.with_Priority 200
                                          sample.default_route ];
                            rules := [] |}
                         sample.default_route 200 ltac:(discriminate))
                  eq_refl eq_refl)).
Defined.

(** ** Link-up: the families and the calls of a tick *)

Lemma detect_from hosts : forall hasipv4 hasipv6,
  detect hosts hasipv4 hasipv6
  = (hasipv4 || existsb (fun h => Host.Family h =? unix.AF_INET) hosts,
     hasipv6 || existsb (fun h => Host.Family h =? unix.AF_INET6) hosts).
Proof.
  induction hosts as [|h rest IH]; intros a b; cbn [detect existsb].
  - rewrite !orb_false_r. reflexivity.
  - destruct (Z.eqb_spec (Host.Family h) unix.AF_INET) as [E4|N4];
      destruct (Z.eqb_spec (Host.Family h) unix.AF_INET6) as [E6|N6].
    + rewrite E4 in E6. discriminate E6.
    + destruct a, b; cbn [negb andb orb]; rewrite IH; cbn [orb];
        rewrite ?orb_true_r; reflexivity.
    + destruct a, b; cbn [negb andb orb]; rewrite IH; cbn [orb];
        rewrite ?orb_true_r; reflexivity.
    + destruct a, b; cbn [negb andb orb]; rewrite IH; cbn [orb]; reflexivity.
Qed.

(** X14: the detection loop of [linkUp] finds the families of the
    host list: [hasipv4] is true exactly when some host is AF_INET
    and [hasipv6] exactly when some host is AF_INET6, wherever they
    stand in the list. *)
Theorem X14_detect_finds_the_families :
  forall hosts : list Host.t,
    (fst (detect hosts false false) = true
     <-> exists h, In h hosts /\ Host.Family h = unix.AF_INET)
    /\ (snd (detect hosts false false) = true
        <-> exists h, In h hosts /\ Host.Family h = unix.AF_INET6).
Proof.
  intros hosts. rewrite detect_from. cbn [fst snd orb].
  split; rewrite existsb_exists; split;
    intros (h & Hin & Hf); exists h; (split; [exact Hin|]);
    first [apply Z.eqb_eq; exact Hf | apply Z.eqb_eq in Hf; exact Hf].
Qed.

Lemma int64_small z : - 2 ^ 63 <= z < 2 ^ 63 -> int64 z = z.
Proof.
  intros H. unfold int64, wrap_signed.
  rewrite Z.mod_small; lia.
Qed.

Lemma probed_app a b : probed (a ++ b) = probed a ++ probed b.
Proof. unfold probed. apply flat_map_app. Qed.

Lemma rules_requested_app a b :
  rules_requested (a ++ b) = rules_requested a ++ rules_requested b.
Proof. unfold rules_requested. apply flat_map_app. Qed.

(** X15: what a tick of the IPv4 ticker does, for any backoff up to
    2^32.  Without an address it makes no call and the ticker keeps
    running with a positive period.  With an address, on an
    interface with IPv4 hosts, it stops the ticker, starts a prober
    for exactly the AF_INET hosts in their order, asks for one rule
    per such host (table of the interface, priority 1, AF_INET) when
    the table is not 0 and for none when it is 0, and ends with
    [failGatewaysFor(AF_INET)]. *)
Theorem X15_timer4_calls :
  forall (ParseCIDR : string -> option net.IPNet) (IP_String : net.IP -> string)
         (ifi : Interface.t) (st : search) (found : string),
    1 <= backoff4 st <= 2 ^ 32 ->
    let v4 := List.filter (fun h => Host.Family h =? unix.AF_INET)
                          (Interface.Hosts ifi) in
    (exists st' period,
        timer4_C ParseCIDR IP_String ifi true st "" = Returns (st', [])
        /\ timer4 st' = Some period /\ 0 < period)
    /\ (found <> "" ->
        exists st' calls,
          timer4_C ParseCIDR IP_String ifi true st found = Returns (st', calls)
          /\ timer4 st' = None
          /\ probed calls = v4
          /\ rules_requested calls
             = (if Interface.Table ifi =? 0 then []
                else (fun _ => (Interface.Table ifi, 1, unix.AF_INET)) <$> v4)
          /\ last calls = Some (call_failGatewaysFor unix.AF_INET)).
Proof.
  intros ParseCIDR IP_String ifi st found Hb v4.
  assert (Hperiod : forall b : bool,
             let backoff := if b then int64 (2 * backoff4 st) else backoff4 st in
             (int64 (backoff * time.Second) <=? 0) = false
             /\ 0 < int64 (backoff * time.Second)).
  { intros b. cbn zeta. unfold time.Second.
    assert (H2 : int64 (2 * backoff4 st) = 2 * backoff4 st)
      by (apply int64_small; lia).
    destruct b; rewrite ?H2; rewrite int64_small by lia;
      (split; [apply Z.leb_gt|]; lia). }
  unfold timer4_C.
  specialize (Hperiod (PrimFloat.ltb (time.Seconds (backoff4 st)) 32)).
  cbn zeta in Hperiod. destruct Hperiod as [Hpos Hlt].
  rewrite Hpos. split.
  - cbn [String.eqb negb]. do 2 eexists. split; [reflexivity|].
    cbn [timer4]. split; [reflexivity|exact Hlt].
  - intros Hfound.
    destruct (String.eqb_spec found "") as [|_]; [contradiction|]. cbn [negb].
    do 2 eexists. split; [reflexivity|]. cbn [timer4]. split; [reflexivity|].
    rewrite probed_app, rules_requested_app, last_snoc.
    cbn [probed rules_requested flat_map app]. rewrite !app_nil_r.
    subst v4. split; [|split; [|reflexivity]].
    + induction (Interface.Hosts ifi) as [|h hs IH]; cbn [flat_map List.filter];
        [reflexivity|].
      rewrite probed_app, IH.
      destruct (Host.Family h =? unix.AF_INET); [|reflexivity].
      rewrite probed_app.
      destruct (negb (Interface.Table ifi =? 0)); reflexivity.
    + induction (Interface.Hosts ifi) as [|h hs IH]; cbn [flat_map List.filter].
      { destruct (Interface.Table ifi =? 0); reflexivity. }
      rewrite rules_requested_app, IH.
      destruct (Host.Family h =? unix.AF_INET); [|reflexivity].
      rewrite rules_requested_app.
      destruct (Interface.Table ifi =? 0); reflexivity.
Qed.

Lemma X15_timer4_calls_witness :
  exists st' calls,
    timer4_C (fun _ => None) sample.ip_text
      (sample.eth0 [sample.cloudflare4; sample.cloudflare6] 1 0 0)
      true (linkUp_start true true) "10.0.0.2"
    = Returns (st', calls)
    /\ probed calls = [sample.cloudflare4].
Proof.
  destruct (X15_timer4_calls (fun _ => None) sample.ip_text
              (sample.eth0 [sample.cloudflare4; sample.cloudflare6] 1 0 0)
              (linkUp_start true true) "10.0.0.2")
    as [_ H].
  - vm_compute. split; discriminate.
  - destruct H as (st' & calls & H1 & _ & H3 & _); [discriminate|].
    exists st', calls. split; assumption.
Defined.

(** ** The link monitor *)

Lemma handle_step (m : linkstate.Monitor) (msg : linkstate.Message) :
  let '(m', called) := linkstate.handle m msg in
  linkstate.interFace m' = linkstate.interFace m
  /\ linkstate.isUp m'
     = default (linkstate.isUp m) (linkstate.reports (linkstate.interFace m) msg)
  /\ (called = [] /\ linkstate.isUp m' = linkstate.isUp m
      \/ called = [if linkstate.isUp m then linkstate.downFunc else linkstate.upFunc]
         /\ linkstate.isUp m' = negb (linkstate.isUp m)).
Proof.
  destruct m as [name up]. unfold linkstate.handle, linkstate.reports.
  destruct msg as [lm headerType|]; cbn [linkstate.interFace linkstate.isUp];
    [|cbn; auto].
  destruct (String.eqb (linkstate.Name lm) name); cbn [negb]; [|cbn; auto].
  destruct (Z.eqb_spec headerType linkstate.RTM_NEWLINK) as [->|Hn].
  - cbn [Z.eqb linkstate.RTM_NEWLINK linkstate.RTM_DELLINK Pos.eqb].
    unfold linkstate.m_upFunc, linkstate.m_downFunc. cbn [linkstate.isUp].
    destruct (linkstate.OperationalState lm =? linkstate.OperStateUp), up; cbn; auto.
  - destruct (Z.eqb_spec headerType linkstate.RTM_DELLINK) as [->|Hd].
    + unfold linkstate.m_downFunc. cbn [linkstate.isUp].
      destruct up; cbn; auto.
    + cbn. auto.
Qed.

(** X16: the link monitor debounces.  Over any batch of received
    messages the callbacks it invokes take turns, the first being
    the up callback if the link was latched down and the down
    callback if it was latched up; afterwards the latch holds what
    the last message about the monitored interface reported (up only
    for RTM_NEWLINK with operational state up), and messages about
    other interfaces or of other kinds change nothing. *)
Theorem X16_link_monitor_debounces :
  forall (msgs : list linkstate.Message) (m : linkstate.Monitor),
    let '(m', called) := linkstate.handle_all m msgs in
    linkstate.alternate (linkstate.isUp m) called
    /\ linkstate.interFace m' = linkstate.interFace m
    /\ linkstate.isUp m'
       = fold_left
           (fun up msg => default up (linkstate.reports (linkstate.interFace m) msg))
           msgs (linkstate.isUp m)
    /\ (Forall (fun msg => linkstate.reports (linkstate.interFace m) msg = None) msgs ->
        called = [] /\ m' = m).
Proof.
  induction msgs as [|msg rest IH]; intros m; cbn [linkstate.handle_all fold_left].
  - cbn. auto.
  - pose proof (handle_step m msg) as Hs.
    destruct (linkstate.handle m msg) as [m1 called1].
    destruct Hs as (Hname & Hup & Hcalled).
    specialize (IH m1).
    destruct (linkstate.handle_all m1 rest) as [m2 called2].
    destruct IH as (Halt & Hname2 & Hup2 & Hnone).
    rewrite Hname in Hup2, Hnone. rewrite Hup in Hup2.
    split; [|split; [congruence|split; [exact Hup2|]]].
    + destruct Hcalled as [[-> Hsame]|[-> Hflip]]; cbn [app linkstate.alternate].
      * rewrite <- Hsame. exact Halt.
      * split; [reflexivity|]. rewrite <- Hflip. exact Halt.
    + intros Hall. inversion Hall as [|? ? Hmsg Hrest]; subst.
      rewrite Hmsg in Hup. cbn in Hup.
      destruct Hcalled as [[-> _]|[_ Hflip]].
      * destruct (Hnone Hrest) as [-> ->]. split; [reflexivity|].
        destruct m, m1. cbn in *. congruence.
      * rewrite Hup in Hflip. destruct (linkstate.isUp m); discriminate Hflip.
Qed.

(** ** Probers: creation and registry *)

(** X17: [addICMPMonitor] cannot fail on an interface the registry
    knows: it returns no error, the monitor it starts carries the
    host's interval, timeout and burst size, pings through the
    interface, and uses the given source address, followed by a
    percent sign and the interface name when the host is not IPv4;
    the latch starts down; the kernel is not touched; the monitor is
    registered under the host's name in place of whatever was
    registered under that name, and the registries of other
    interfaces are unchanged.  On an interface the registry does not
    know it panics. *)
Theorem X17_addICMPMonitor_registers :
  forall (ifi : Interface.t) (src0 : string) (host : Host.t) (s : Server),
    match icmpMonitors s !! Interface.Name ifi with
    | None => addICMPMonitor ifi src0 host s = Panics
    | Some registered =>
        exists m s',
          addICMPMonitor ifi src0 host s
          = Returns (Ok (m, {| prober_host := host; isUp := false |}), s')
          /\ icmp.src m
             = match net.To4 (Host.Host host) with
               | None => src0 +:+ "%" +:+ Interface.Name ifi
               | Some _ => src0
               end
          /\ icmp.dst m = Host.Host host
          /\ icmp.zone m = Interface.Name ifi
          /\ icmp.interval m = Host.ICMPInterval host
          /\ icmp.timeout m = Host.ICMPTimeout host
          /\ icmp.burstsize m = Host.BurstSize host
          /\ nlconn s' = nlconn s
          /\ icmpMonitors s' !! Interface.Name ifi
             = Some (<[ Host.Name host :=
                          {| src := icmp.src m; dst := Host.Host host;
                             cancelled := false |} ]> registered)
          /\ (forall name, name <> Interface.Name ifi ->
                           icmpMonitors s' !! name = icmpMonitors s !! name)
    end.
Proof.
  intros ifi src0 host s. unfold addICMPMonitor, icmp.New.
  cbn [icmp.apply_options icmp.Interval icmp.Timeout icmp.BurstSize bind
       icmp.src icmp.dst icmp.zone icmp.interFace icmp.interval icmp.timeout
       icmp.burstsize].
  destruct (icmpMonitors s !! Interface.Name ifi) as [registered|] eqn:Hreg.
  - destruct (net.To4 (Host.Host host)) eqn:H4; cbn [icmp.src icmp.dst];
      do 2 eexists; (split; [reflexivity|]);
      cbn [icmp.src icmp.dst icmp.zone icmp.interval icmp.timeout icmp.burstsize
           nlconn with_icmpMonitors icmpMonitors];
      repeat split; try apply lookup_insert_eq;
      intros name Hne; apply lookup_insert_ne; auto.
  - destruct (net.To4 (Host.Host host)); reflexivity.
Qed.

Lemma addICMPMonitor_known ifi src0 host s registered :
  icmpMonitors s !! Interface.Name ifi = Some registered ->
  exists m,
    icmp.dst m = Host.Host host
    /\ addICMPMonitor ifi src0 host s
       = Returns
           (Ok (m, {| prober_host := host; isUp := false |}),
            with_icmpMonitors
              (<[ Interface.Name ifi :=
                    <[ Host.Name host :=
                         {| src := icmp.src m; dst := icmp.dst m;
                            cancelled := false |} ]> registered ]>
                 (icmpMonitors s)) s).
Proof.
  intros Hreg. unfold addICMPMonitor, icmp.New.
  cbn [icmp.apply_options icmp.Interval icmp.Timeout icmp.BurstSize bind
       icmp.src icmp.dst icmp.zone icmp.interFace icmp.interval icmp.timeout
       icmp.burstsize].
  rewrite Hreg.
  destruct (net.To4 (Host.Host host)); eexists; (split; [|reflexivity]);
    reflexivity.
Qed.

(** X18: the registry knows a prober by the name of its host.  When
    two hosts of an interface carry the same name, both probers are
    started but the registry ends up as if the first had never been
    registered: it holds the second monitor under that name, and the
    link-down that follows stops that one, in the loop it starts
    with and so also when it returns. *)
Theorem X18_registry_is_keyed_by_host_name :
  forall (CombinedOutput : Cmd -> string * option error)
         (InterfaceByName : string -> result Z) (Dial : option error)
         (ifi : Interface.t) (src1 src2 : string) (h1 h2 : Host.t) (s : Server)
         (registered : gmap string Monitor),
    icmpMonitors s !! Interface.Name ifi = Some registered ->
    Host.Name h1 = Host.Name h2 ->
    exists m1 m2 s1 s2,
      addICMPMonitor ifi src1 h1 s
      = Returns (Ok (m1, {| prober_host := h1; isUp := false |}), s1)
      /\ addICMPMonitor ifi src2 h2 s1
         = Returns (Ok (m2, {| prober_host := h2; isUp := false |}), s2)
      /\ icmp.dst m1 = Host.Host h1 /\ icmp.dst m2 = Host.Host h2
      /\ icmpMonitors s2 !! Interface.Name ifi
         = Some (<[ Host.Name h2 :=
                      {| src := icmp.src m2; dst := Host.Host h2;
                         cancelled := false |} ]> registered)
      /\ icmpMonitors (stopMonitors ifi s2) !! Interface.Name ifi
         = Some (Stop <$> <[ Host.Name h2 :=
                               {| src := icmp.src m2; dst := Host.Host h2;
                                  cancelled := false |} ]> registered)
      /\ match linkDown CombinedOutput InterfaceByName Dial ifi s2 with
         | Panics => Interface.Table ifi <> 0 /\ Dial <> None
         | Returns (_, s3) =>
             icmpMonitors s3 !! Interface.Name ifi
             = Some (Stop <$> <[ Host.Name h2 :=
                                   {| src := icmp.src m2; dst := Host.Host h2;
                                      cancelled := false |} ]> registered)
         end.
Proof.
  intros CombinedOutput InterfaceByName Dial ifi src1 src2 h1 h2 s registered
         Hreg Hname.
  destruct (addICMPMonitor_known ifi src1 h1 s registered Hreg) as (m1 & Hd1 & H1).
  set (s1 := with_icmpMonitors _ s) in H1.
  assert (Hreg1 : icmpMonitors s1 !! Interface.Name ifi
                  = Some (<[ Host.Name h1 :=
                               {| src := icmp.src m1; dst := icmp.dst m1;
                                  cancelled := false |} ]> registered)).
  { subst s1. cbn [icmpMonitors with_icmpMonitors]. apply lookup_insert_eq. }
  destruct (addICMPMonitor_known ifi src2 h2 s1 _ Hreg1) as (m2 & Hd2 & H2).
  set (s2 := with_icmpMonitors _ s1) in H2.
  assert (Hreg2 : icmpMonitors s2 !! Interface.Name ifi
                  = Some (<[ Host.Name h2 :=
                               {| src := icmp.src m2; dst := Host.Host h2;
                                  cancelled := false |} ]> registered)).
  { subst s2. cbn [icmpMonitors with_icmpMonitors]. rewrite lookup_insert_eq.
    rewrite Hname, insert_insert_eq, Hd2. reflexivity. }
  assert (Hstop : alter (fmap Stop) (Interface.Name ifi) (icmpMonitors s2)
                    !! Interface.Name ifi
                  = Some (Stop <$> <[ Host.Name h2 :=
                                        {| src := icmp.src m2; dst := Host.Host h2;
                                           cancelled := false |} ]> registered)).
  { rewrite lookup_alter_eq, Hreg2. reflexivity. }
  exists m1, m2, s1, s2.
  split; [exact H1|]. split; [exact H2|]. split; [exact Hd1|].
  split; [exact Hd2|]. split; [exact Hreg2|]. split; [exact Hstop|].
  pose proof (linkDown_cases CombinedOutput InterfaceByName Dial ifi s2) as Hcases.
  destruct (linkDown CombinedOutput InterfaceByName Dial ifi s2) as [[ifi3 s3]|];
    [|exact Hcases].
  destruct Hcases as (_ & s0 & Hr & _ & _ & Hmon & _).
  destruct (nextHopFailLink_untouched CombinedOutput InterfaceByName ifi s0)
    as (_ & _ & Hkeep).
  rewrite <- Hr in Hkeep. cbn [snd] in Hkeep.
  rewrite Hkeep, Hmon. exact Hstop.
Qed.

Lemma X18_registry_witness :
  let s := {| nlconn := sample.kernel;
              icmpMonitors := {[ "eth0" := ∅ ]};
              journal := [] |} in
  let ifi := sample.eth0 [sample.cloudflare4; sample.cloudflare6] 1 0 0 in
  exists m1 m2 s1 s2,
    addICMPMonitor ifi "10.0.0.2" sample.cloudflare4 s
    = Returns (Ok (m1, {| prober_host := sample.cloudflare4; isUp := false |}), s1)
    /\ addICMPMonitor ifi "2001:db8::2" sample.cloudflare6 s1
       = Returns (Ok (m2, {| prober_host := sample.cloudflare6; isUp := false |}), s2)
    /\ icmpMonitors s2 !! "eth0"
       = Some (<[ "Cloudflare" :=
                    {| src := icmp.src m2; dst := Host.Host sample.cloudflare6;
                       cancelled := false |} ]> ∅).
Proof.
  intros s ifi.
  destruct (X18_registry_is_keyed_by_host_name sample.quiet (fun _ => Ok 3) None
              ifi "10.0.0.2" "2001:db8::2" sample.cloudflare4 sample.cloudflare6
              s ∅)
    as (m1 & m2 & s1 & s2 & H1 & H2 & _ & _ & H3 & _).
  - apply lookup_singleton_eq.
  - reflexivity.
  - exists m1, m2, s1, s2. repeat split; assumption.
Defined.

(** ** Local source addresses *)

(** X19: the source-address searches take the first address that
    qualifies, in the order the interface lists them.  The IPv4
    search passes over the addresses without an IPv4 form and
    returns the first other one, printed in its 4-byte form; the IPv6
    search passes over the addresses with an IPv4 form and over those
    that are not global unicast and returns the first other one.
    Either returns the empty string when no address qualifies or the
    addresses cannot be read. *)
Theorem X19_findLocalAddress_takes_the_first :
  forall (IP_String : net.IP -> string) (IsGlobalUnicast : net.IP -> bool)
         (before after : list net.IP) (addr : net.IP),
    (forall e, findLocalAddressv4 IP_String (Err e) = ""
               /\ findLocalAddressv6 IP_String IsGlobalUnicast (Err e) = "")
    /\ (Forall (fun a => net.To4 a = None) before ->
        findLocalAddressv4 IP_String (Ok before) = ""
        /\ forall ip4, net.To4 addr = Some ip4 ->
                       findLocalAddressv4 IP_String (Ok (before ++ addr :: after))
                       = IP_String ip4)
    /\ (Forall (fun a => net.To4 a <> None \/ IsGlobalUnicast a = false) before ->
        findLocalAddressv6 IP_String IsGlobalUnicast (Ok before) = ""
        /\ (net.To4 addr = None -> IsGlobalUnicast addr = true ->
            findLocalAddressv6 IP_String IsGlobalUnicast
              (Ok (before ++ addr :: after))
            = IP_String addr)).
Proof.
  intros IP_String IsGlobalUnicast before after addr.
  split; [intros e; split; reflexivity|]. split.
  - intros Hall. cbn [findLocalAddressv4].
    induction Hall as [|a l Ha _ IH]; cbn [firstv4 app].
    + split; [reflexivity|]. intros ip4 ->. reflexivity.
    + rewrite Ha. exact IH.
  - intros Hall. cbn [findLocalAddressv6].
    induction Hall as [|a l Ha _ IH]; cbn [firstv6 app].
    + split; [reflexivity|]. intros -> ->. reflexivity.
    + destruct (net.To4 a); [exact IH|].
      destruct Ha as [Ha|Ha]; [contradiction|]. rewrite Ha. exact IH.
Qed.

Lemma X19_findLocalAddress_witness :
  findLocalAddressv4 sample.ip_text
    (Ok ([ net.IPNet_IP sample.src6 ] ++ [10; 0; 0; 2] :: []))
  = sample.ip_text [10; 0; 0; 2].
Proof.
  apply (proj1 (proj2 (X19_findLocalAddress_takes_the_first sample.ip_text
                         (fun _ => true) [ net.IPNet_IP sample.src6 ] []
                         [10; 0; 0; 2]))).
  - repeat constructor.
  - reflexivity.
Defined.
